(** * MuseV2Marketplace: a shallow embedding of [muse_marketplace.py]

    The contract is a PyTeal/Beaker program for the Algorand virtual
    machine (AVM).  Every method of the contract is translated below into
    a function of the same name over an explicit application state (boxes,
    global state values, inner transactions submitted so far).

    Conventions taken from the AVM:
    - a [uint64] is a [Z] in [0, 2^64); [+], [-] and [*] make the program
      fail on overflow or underflow, [/] fails on a zero divisor and
      truncates;
    - a failing [Assert], a failing opcode or a rejected inner transaction
      fails the whole call;
    - a box is a byte string; [Extract], [ExtractUint64], [ExtractUint32]
      and [BoxReplace] fail when they reach outside of it;
    - a Python variable bound to a PyTeal expression is evaluated where the
      expression is used, so [let]-bound expressions below are values of
      the expression type [Ex] and fail only at their point of use;
    - [BoxGet key] is read as the box's contents when the method starts. *)

From Stdlib Require Import ZArith.
From Stdlib.Strings Require Import Byte.
From stdpp Require Import base option list gmap strings.

Local Open Scope Z_scope.

(** ** Byte strings *)

Module Bytes.

Abbreviation bytes := (list byte).

Global Instance byte_eq_dec : EqDecision byte := Byte.byte_eq_dec.

Definition byte_of_Z (z : Z) : byte :=
  default Byte.x00 (Byte.of_N (Z.to_N (z mod 256))).

Definition Z_of_byte (b : byte) : Z := Z.of_N (Byte.to_N b).

(** big-endian decoding, most significant byte first *)
Fixpoint btoi_acc (acc : Z) (bs : bytes) : Z :=
  match bs with
  | [] => acc
  | b :: rest => btoi_acc (acc * 256 + Z_of_byte b) rest
  end.

Definition btoi (bs : bytes) : Z := btoi_acc 0 bs.

(** the [n] low-order bytes of [v], most significant first *)
Fixpoint itob_n (n : nat) (v : Z) : bytes :=
  match n with
  | O => []
  | S k => itob_n k (v / 256) ++ [byte_of_Z v]
  end.

(** [itob]: a uint64 as 8 big-endian bytes *)
Definition itob (v : Z) : bytes := itob_n 8 v.

(** [Extract(b, off, len)] *)
Definition extract (b : bytes) (off len : nat) : option bytes :=
  if decide (off + len ≤ length b)%nat then Some (take len (drop off b)) else None.

(** the byte string [b] with [d] written over it from offset [off] *)
Definition replace (b : bytes) (off : nat) (d : bytes) : option bytes :=
  if decide (off + length d ≤ length b)%nat
  then Some (take off b ++ d ++ drop (off + length d) b)
  else None.

Definition zero_address : bytes := replicate 32 Byte.x00.

End Bytes.

Import Bytes.

(** ** Expressions

    A PyTeal expression evaluates to a value or makes the program fail. *)

Inductive Error : Type :=
| assert_failed (comment : string)
| overflow
| underflow
| div_by_zero
| out_of_bounds
| no_such_box
| box_size_mismatch
| itxn_rejected.

Inductive Ex (A : Type) : Type :=
| Val (a : A)
| Raise (e : Error).
Arguments Val {A} a.
Arguments Raise {A} e.

Global Instance Ex_ret : MRet Ex := λ A a, Val a.
Global Instance Ex_bind : MBind Ex := λ A B f m,
  match m with
  | Val a => f a
  | Raise e => Raise e
  end.

Definition uint64_max : Z := 2 ^ 64 - 1.

Definition Int (n : Z) : Ex Z := Val n.

Definition Add (a b : Ex Z) : Ex Z :=
  x ← a; y ← b; if decide (x + y ≤ uint64_max) then Val (x + y) else Raise overflow.

Definition Minus (a b : Ex Z) : Ex Z :=
  x ← a; y ← b; if decide (y ≤ x) then Val (x - y) else Raise underflow.

Definition Mul (a b : Ex Z) : Ex Z :=
  x ← a; y ← b; if decide (x * y ≤ uint64_max) then Val (x * y) else Raise overflow.

Definition Div (a b : Ex Z) : Ex Z :=
  x ← a; y ← b; if y =? 0 then Raise div_by_zero else Val (x / y).

Definition Lt (a b : Ex Z) : Ex bool := x ← a; y ← b; Val (bool_decide (x < y)).
Definition Gt (a b : Ex Z) : Ex bool := x ← a; y ← b; Val (bool_decide (x > y)).
Definition Le (a b : Ex Z) : Ex bool := x ← a; y ← b; Val (bool_decide (x ≤ y)).
Definition Ge (a b : Ex Z) : Ex bool := x ← a; y ← b; Val (bool_decide (x >= y)).
Definition Eq (a b : Ex Z) : Ex bool := x ← a; y ← b; Val (bool_decide (x = y)).
Definition Neq (a b : Ex Z) : Ex bool := x ← a; y ← b; Val (bool_decide (x ≠ y)).

Definition BitwiseAnd (a b : Ex Z) : Ex Z := x ← a; y ← b; Val (Z.land x y).
Definition BitwiseOr (a b : Ex Z) : Ex Z := x ← a; y ← b; Val (Z.lor x y).
Definition BitwiseNot (a : Ex Z) : Ex Z := x ← a; Val (Z.lxor x uint64_max).

Definition BytesEq (a b : Ex bytes) : Ex bool := x ← a; y ← b; Val (bool_decide (x = y)).
Definition BytesNeq (a b : Ex bytes) : Ex bool := x ← a; y ← b; Val (bool_decide (x ≠ y)).

Definition Extract (b : Ex bytes) (off len : nat) : Ex bytes :=
  x ← b; match extract x off len with Some d => Val d | None => Raise out_of_bounds end.

Definition ExtractUint64 (b : Ex bytes) (off : nat) : Ex Z :=
  d ← Extract b off 8; Val (btoi d).

Definition ExtractUint32 (b : Ex bytes) (off : nat) : Ex Z :=
  d ← Extract b off 4; Val (btoi d).

Definition Itob (a : Ex Z) : Ex bytes := x ← a; Val (itob x).

Definition Concat (parts : list (Ex bytes)) : Ex bytes :=
  foldr (λ p acc, x ← p; y ← acc; Val (x ++ y)) (Val []) parts.

(** [If(cond, a, b)] as an expression *)
Definition IfE {A} (c : Ex bool) (a b : Ex A) : Ex A :=
  t ← c; if t : bool then a else b.

Declare Scope teal_scope.
Delimit Scope teal_scope with teal.
Notation "a + b" := (Add a b) : teal_scope.
Notation "a - b" := (Minus a b) : teal_scope.
Notation "a * b" := (Mul a b) : teal_scope.
Notation "a / b" := (Div a b) : teal_scope.
Notation "a < b" := (Lt a b) : teal_scope.
Notation "a > b" := (Gt a b) : teal_scope.
Notation "a <= b" := (Le a b) : teal_scope.
Notation "a >= b" := (Ge a b) : teal_scope.
Notation "a == b" := (Eq a b) (at level 70, no associativity) : teal_scope.
Notation "a != b" := (Neq a b) (at level 70, no associativity) : teal_scope.

(** ** Constants *)

Definition MUSE_FEE_BPS : Ex Z := Int 250.
Definition MAX_ROYALTY_BPS : Ex Z := Int 2000.
Definition BASIS_POINTS : Ex Z := Int 10000.
Definition ROUNDS_PER_MONTH : Ex Z := Int 777600.
Definition MAX_CO_CREATORS : Ex Z := Int 4.

Definition FLAG_IS_RWA : Ex Z := Eval cbv in Int (Z.shiftl 1 0).
Definition FLAG_RWA_AUTH : Ex Z := Eval cbv in Int (Z.shiftl 1 1).
Definition FLAG_RWA_REDEEMED : Ex Z := Eval cbv in Int (Z.shiftl 1 2).
Definition FLAG_ROYALTY_WAIVED : Ex Z := Eval cbv in Int (Z.shiftl 1 3).
Definition FLAG_IN_AUCTION : Ex Z := Eval cbv in Int (Z.shiftl 1 4).
Definition FLAG_COLLAB_PENDING : Ex Z := Eval cbv in Int (Z.shiftl 1 5).

(** ** Application state and call context *)

Inductive InnerTxn : Type :=
| Payment (receiver : bytes) (amount : Z)
| AssetTransfer (xfer_asset : Z) (asset_sender : option bytes)
                (asset_receiver : bytes) (asset_amount : Z)
| AssetConfig (config_asset_total config_asset_decimals config_asset_default_frozen : Z)
              (config_asset_name config_asset_unit_name config_asset_url
               config_asset_metadata_hash config_asset_manager : bytes)
              (config_asset_freeze config_asset_clawback : option bytes)
              (config_asset_reserve : bytes) (note : option bytes)
| AssetFreeze (freeze_asset : Z) (freeze_asset_account : bytes) (frozen : Z).

(** A box name [Concat(Bytes(tag), itob(asset_id))]: the tag has three
    bytes in every use, so the name determines the pair. *)
Abbreviation BoxKey := (string * Z)%type.

Record State : Type := mkState {
  boxes : gmap BoxKey bytes;
  muse_treasury : bytes;
  total_volume : Z;
  total_royalties_paid : Z;
  nft_count : Z;
  live_auctions : Z;
  (** every inner transaction the application has submitted, oldest first *)
  itxns : list InnerTxn;
}.

Record PaymentTransaction : Type := mkPay {
  receiver : bytes;
  amount : Z;
}.

(** What the host supplies to one call. [accepts] says which inner
    transactions the ledger lets through (balances, opt-ins). *)
Record Ctx : Type := mkCtx {
  sender : bytes;
  round : Z;
  current_application_address : bytes;
  creator_address : bytes;
  created_asset_id : Z;
  accepts : InnerTxn → bool;
}.

(** ** Statements

    A statement runs from a state to a value and a new state, or fails;
    a failure keeps the state it was raised in, so that one can tell what
    had been done before it. *)

Inductive Res (A : Type) : Type :=
| Ok (a : A) (s : State)
| Fail (e : Error) (s : State).
Arguments Ok {A} a s.
Arguments Fail {A} e s.

Definition M (A : Type) : Type := State → Res A.

Global Instance M_ret : MRet M := λ A a s, Ok a s.
Global Instance M_bind : MBind M := λ A B f m s,
  match m s with
  | Ok a s' => f a s'
  | Fail e s' => Fail e s'
  end.

Definition eval {A} (e : Ex A) : M A := λ s,
  match e with
  | Val a => Ok a s
  | Raise err => Fail err s
  end.

Definition get {A} (f : State → A) : M A := λ s, Ok (f s) s.

(** a primitive given by its transition *)
Definition prim {A} (f : State → Res A) : M A := f.

Definition Assert (c : Ex bool) (comment : string) : M unit :=
  t ← eval c; if t : bool then mret () else prim (Fail (assert_failed comment)).

Definition If {A} (c : Ex bool) (a b : M A) : M A :=
  t ← eval c; if t : bool then a else b.

Definition When (c : Ex bool) (a : M unit) : M unit := If c a (mret ()).

Definition Return {A} (e : Ex A) : M A := eval e.

Definition box_key (tag : string) (asset_id : Z) : BoxKey := (tag, asset_id).

Definition set_boxes (f : gmap BoxKey bytes → gmap BoxKey bytes) (s : State) : State :=
  mkState (f (boxes s)) (muse_treasury s) (total_volume s) (total_royalties_paid s)
          (nft_count s) (live_auctions s) (itxns s).

Definition BoxGet (key : BoxKey) : M (option bytes) := get (λ s, boxes s !! key).

(** [box.value()]: the contents, empty when the box does not exist *)
Definition value (box : option bytes) : Ex bytes := Val (default [] box).
Definition hasValue (box : option bytes) : Ex bool := Val (bool_decide (is_Some box)).

(** [Pop(BoxCreate(key, size))] *)
Definition BoxCreate (key : BoxKey) (size : nat) : M unit := λ s,
  match boxes s !! key with
  | Some b => if decide (length b = size) then Ok () s else Fail box_size_mismatch s
  | None => Ok () (set_boxes (insert key (replicate size Byte.x00)) s)
  end.

Definition BoxReplace (key : BoxKey) (off : nat) (data : Ex bytes) : M unit :=
  d ← eval data;
  prim (λ s, match boxes s !! key with
             | Some b =>
                 match replace b off d with
                 | Some b' => Ok () (set_boxes (insert key b') s)
                 | None => Fail out_of_bounds s
                 end
             | None => Fail no_such_box s
             end).

(** [Pop(BoxDelete(key))] *)
Definition BoxDelete (key : BoxKey) : M unit := λ s, Ok () (set_boxes (delete key) s).

(** [InnerTransactionBuilder.Begin(); SetField ...; Submit()] *)
Definition Submit (tx : Ex InnerTxn) (ctx : Ctx) : M unit :=
  t ← eval tx;
  prim (λ s, if accepts ctx t
             then Ok () (mkState (boxes s) (muse_treasury s) (total_volume s)
                           (total_royalties_paid s) (nft_count s) (live_auctions s)
                           (itxns s ++ [t]))
             else Fail itxn_rejected s).

Definition set_muse_treasury (e : Ex bytes) : M unit :=
  v ← eval e;
  prim (λ s, Ok () (mkState (boxes s) v (total_volume s) (total_royalties_paid s)
                (nft_count s) (live_auctions s) (itxns s))).

Definition set_total_volume (e : Ex Z) : M unit :=
  v ← eval e;
  prim (λ s, Ok () (mkState (boxes s) (muse_treasury s) v (total_royalties_paid s)
                (nft_count s) (live_auctions s) (itxns s))).

Definition set_total_royalties_paid (e : Ex Z) : M unit :=
  v ← eval e;
  prim (λ s, Ok () (mkState (boxes s) (muse_treasury s) (total_volume s) v
                (nft_count s) (live_auctions s) (itxns s))).

Definition set_nft_count (e : Ex Z) : M unit :=
  v ← eval e;
  prim (λ s, Ok () (mkState (boxes s) (muse_treasury s) (total_volume s)
                (total_royalties_paid s) v (live_auctions s) (itxns s))).

Definition set_live_auctions (e : Ex Z) : M unit :=
  v ← eval e;
  prim (λ s, Ok () (mkState (boxes s) (muse_treasury s) (total_volume s)
                (total_royalties_paid s) (nft_count s) v (itxns s))).

(** [For(i.store(0), i.load() < n, i.store(i.load() + 1), body)], with
    the scratch variable the body updates passed along as [acc] *)
Fixpoint For_ {A} (i : nat) (n : nat) (body : nat → A → M A) (acc : A) : M A :=
  match n with
  | O => mret acc
  | S k => acc' ← body i acc; For_ (S i) k body acc'
  end.

(** ** The contract *)

Section Contract.

Variable ctx : Ctx.

Local Open Scope teal_scope.

Definition Global_round : Ex Z := Int (round ctx).
Definition Global_zero_address : Ex bytes := Val zero_address.
Definition Global_current_application_address : Ex bytes :=
  Val (current_application_address ctx).
Definition Global_creator_address : Ex bytes := Val (creator_address ctx).
Definition Txn_sender : Ex bytes := Val (sender ctx).

Definition pay (rcv : Ex bytes) (amt : Ex Z) : Ex InnerTxn :=
  r ← rcv; a ← amt; Val (Payment r a).

Definition create (treasury : bytes) : M unit :=
  set_muse_treasury (Val treasury);;
  set_total_volume (Int 0);;
  set_total_royalties_paid (Int 0);;
  set_nft_count (Int 0);;
  set_live_auctions (Int 0).

Definition current_royalty_bps (asset_id : Z) : M Z :=
  let box_key := box_key "NFT" asset_id in
  box_val ← BoxGet box_key;
  let flags_val := ExtractUint64 (value box_val) 56 in
  let royalty := ExtractUint64 (value box_val) 16 in
  let floor_bps := ExtractUint64 (value box_val) 24 in
  let decay_start := ExtractUint64 (value box_val) 32 in
  let rounds_elapsed := Global_round - decay_start in
  let decay_ratio := rounds_elapsed / ROUNDS_PER_MONTH in
  let decayed := royalty - ((royalty - floor_bps) * decay_ratio / Int 100) in
  Assert (hasValue box_val) "";;
  If (BitwiseAnd flags_val FLAG_ROYALTY_WAIVED != Int 0)
     (Return (Int 0))
     (If (decay_start == Int 0)
         (Return royalty)
         (If (Global_round < decay_start)
             (Return royalty)
             (Return (IfE (decayed > floor_bps) decayed floor_bps)))).

Definition distribute_royalties (asset_id sale_price royalty_bps : Z) : M unit :=
  let spl_key := box_key "SPL" asset_id in
  let nft_key := box_key "NFT" asset_id in
  spl_box ← BoxGet spl_key;
  nft_box ← BoxGet nft_key;
  let total_royalty := Int sale_price * Int royalty_bps / BASIS_POINTS in
  let muse_fee := Int sale_price * MUSE_FEE_BPS / BASIS_POINTS in
  let creator_addr := Extract (value nft_box) 64 32 in
  treasury ← get muse_treasury;
  Submit (pay (Val treasury) muse_fee) ctx;;
  paid_to_splits ←
    If (hasValue spl_box)
       (For_ 0 4 (λ i paid_to_splits,
          let share :=
            total_royalty * ExtractUint32 (value spl_box) (i * 40 + 32)%nat / BASIS_POINTS in
          Submit (pay (Extract (value spl_box) (i * 40)%nat 32) share) ctx;;
          eval (Int paid_to_splits + share)) 0%Z)
       (mret 0%Z);
  When (total_royalty > Int paid_to_splits)
       (Submit (pay creator_addr (total_royalty - Int paid_to_splits)) ctx);;
  paid ← get total_royalties_paid;
  set_total_royalties_paid (Int paid + total_royalty).

Definition mint_nft (name unit_name metadata_url metadata_hash : bytes)
    (price_microalgos royalty_bps floor_bps decay_after_rounds buyout_price : Z) : M Z :=
  Assert (Int royalty_bps <= MAX_ROYALTY_BPS) "Royalty exceeds 20%";;
  Assert (Int floor_bps <= Int royalty_bps) "Floor must be <= royalty";;
  Submit (Val (AssetConfig 1 0 0 name unit_name metadata_url metadata_hash
                 (current_application_address ctx) None None (sender ctx)
                 (Some (String.list_byte_of_string "arc69")))) ctx;;
  let asset_id := created_asset_id ctx in
  decay_start ← eval (IfE (Int decay_after_rounds == Int 0) (Int 0)
                          (Global_round + Int decay_after_rounds));
  BoxCreate (box_key "NFT" asset_id) 128;;
  BoxReplace (box_key "NFT" asset_id) 0
    (Concat [Itob (Int asset_id); Itob (Int price_microalgos); Itob (Int royalty_bps);
             Itob (Int floor_bps); Itob (Int decay_start); Itob (Int buyout_price);
             Itob (Int 0); Itob (Int 0); Txn_sender]);;
  n ← get nft_count;
  set_nft_count (Int n + Int 1);;
  mret asset_id.

Definition mint_rwa (name unit_name metadata_url metadata_hash physical_asset_hash
                     custodian authenticator : bytes)
    (price_microalgos royalty_bps floor_bps decay_after_rounds buyout_price : Z) : M Z :=
  Assert (Int royalty_bps <= MAX_ROYALTY_BPS) "Royalty exceeds 20%";;
  Submit (Val (AssetConfig 1 0 1 name unit_name metadata_url metadata_hash
                 (current_application_address ctx)
                 (Some (current_application_address ctx))
                 (Some (current_application_address ctx)) custodian None)) ctx;;
  let asset_id := created_asset_id ctx in
  BoxCreate (box_key "NFT" asset_id) 128;;
  BoxReplace (box_key "NFT" asset_id) 0
    (Concat [Itob (Int asset_id); Itob (Int price_microalgos); Itob (Int royalty_bps);
             Itob (Int floor_bps);
             Itob (IfE (Int decay_after_rounds == Int 0) (Int 0)
                       (Global_round + Int decay_after_rounds));
             Itob (Int buyout_price); Itob (Int 0); Itob FLAG_IS_RWA; Txn_sender]);;
  BoxCreate (box_key "RWA" asset_id) 104;;
  BoxReplace (box_key "RWA" asset_id) 0
    (Concat [Val physical_asset_hash; Val custodian; Val authenticator; Itob (Int 0)]);;
  n ← get nft_count;
  set_nft_count (Int n + Int 1);;
  mret asset_id.

Definition validate_physical_asset (asset_id : Z) : M unit :=
  let rwa_key := box_key "RWA" asset_id in
  let nft_key := box_key "NFT" asset_id in
  rwa_box ← BoxGet rwa_key;
  nft_box ← BoxGet nft_key;
  let auth_addr := Extract (value rwa_box) 64 32 in
  let current_flags := ExtractUint64 (value nft_box) 56 in
  Assert (hasValue rwa_box) "Not an RWA asset";;
  Assert (hasValue nft_box) "";;
  Assert (BytesEq auth_addr Txn_sender) "Only registered authenticator can validate";;
  Assert (BitwiseAnd current_flags FLAG_RWA_AUTH == Int 0) "Already authenticated";;
  BoxReplace nft_key 56 (Itob (BitwiseOr current_flags FLAG_RWA_AUTH));;
  Submit (Val (AssetFreeze asset_id (sender ctx) 0)) ctx.

Definition redeem_physical_asset (asset_id : Z) (tracking_info : bytes) : M unit :=
  let rwa_key := box_key "RWA" asset_id in
  let nft_key := box_key "NFT" asset_id in
  rwa_box ← BoxGet rwa_key;
  nft_box ← BoxGet nft_key;
  let custodian_addr := Extract (value rwa_box) 32 32 in
  let current_flags := ExtractUint64 (value nft_box) 56 in
  Assert (hasValue rwa_box) "Not an RWA asset";;
  Assert (BytesEq custodian_addr Txn_sender) "Only custodian can redeem";;
  Assert (BitwiseAnd current_flags FLAG_RWA_REDEEMED == Int 0) "Already redeemed";;
  Assert (BitwiseAnd current_flags FLAG_RWA_AUTH != Int 0)
         "Asset must be authenticated before redemption";;
  BoxReplace rwa_key 96 (Itob Global_round);;
  BoxReplace nft_key 56
    (Itob (BitwiseAnd (BitwiseOr current_flags FLAG_RWA_REDEEMED)
                      (BitwiseNot FLAG_IN_AUCTION))).

Definition uint32_be (share_bps : Z) : Ex bytes := Extract (Itob (Int share_bps)) 4 4.
Definition zero32 : Ex bytes := Val [Byte.x00; Byte.x00; Byte.x00; Byte.x00].
Definition one32 : Ex bytes := Val [Byte.x00; Byte.x00; Byte.x00; Byte.x01].

Definition register_co_creators (asset_id : Z)
    (addr_1 : bytes) (share_bps_1 : Z) (role_1 : bytes)
    (addr_2 : bytes) (share_bps_2 : Z) (role_2 : bytes)
    (addr_3 : bytes) (share_bps_3 : Z) (role_3 : bytes)
    (addr_4 : bytes) (share_bps_4 : Z) (role_4 : bytes) : M unit :=
  let nft_key := box_key "NFT" asset_id in
  let spl_key := box_key "SPL" asset_id in
  nft_box ← BoxGet nft_key;
  let creator := Extract (value nft_box) 64 32 in
  let total_bps := Int share_bps_1 + Int share_bps_2 + Int share_bps_3 + Int share_bps_4 in
  Assert (hasValue nft_box) "";;
  Assert (BytesEq creator Txn_sender) "Only NFT creator can register co-creators";;
  Assert (total_bps <= BASIS_POINTS) "Total split exceeds 100%";;
  BoxCreate spl_key 160;;
  BoxReplace spl_key 0
    (Concat [Val addr_1; uint32_be share_bps_1; zero32;
             Val addr_2; uint32_be share_bps_2; zero32;
             Val addr_3; uint32_be share_bps_3; zero32;
             Val addr_4; uint32_be share_bps_4; zero32]);;
  BoxReplace nft_key 56
    (Itob (BitwiseOr (ExtractUint64 (value nft_box) 56) FLAG_COLLAB_PENDING)).

Definition accept_collaboration (asset_id : Z) : M unit :=
  let spl_key := box_key "SPL" asset_id in
  spl_box ← BoxGet spl_key;
  Assert (hasValue spl_box) "No co-creator registry for this NFT";;
  found ← For_ 0 4 (λ i found,
      If (BytesEq (Extract (value spl_box) (i * 40)%nat 32) Txn_sender)
         (BoxReplace spl_key (i * 40 + 36)%nat one32;; mret 1%Z)
         (mret found)) 0%Z;
  Assert (Int found != Int 0) "Caller is not a registered co-creator".

Definition buy_nft (asset_id : Z) (payment : PaymentTransaction) : M unit :=
  let nft_key := box_key "NFT" asset_id in
  nft_box ← BoxGet nft_key;
  let flags := ExtractUint64 (value nft_box) 56 in
  let price := ExtractUint64 (value nft_box) 8 in
  let transfers := ExtractUint64 (value nft_box) 48 in
  let creator := Extract (value nft_box) 64 32 in
  Assert (hasValue nft_box) "NFT does not exist";;
  Assert (price > Int 0) "NFT is auction-only";;
  Assert (BitwiseAnd flags FLAG_IN_AUCTION == Int 0) "NFT is currently in auction";;
  Assert (BitwiseAnd flags FLAG_RWA_REDEEMED == Int 0) "RWA has been physically redeemed";;
  When (BitwiseAnd flags FLAG_IS_RWA != Int 0)
       (Assert (BitwiseAnd flags FLAG_RWA_AUTH != Int 0) "RWA not yet authenticated");;
  Assert (BytesEq (Val (receiver payment)) Global_current_application_address) "";;
  Assert (Int (amount payment) == price) "Incorrect payment amount";;
  royalty_bps ← current_royalty_bps asset_id;
  When (Int royalty_bps > Int 0)
       (p ← eval price; distribute_royalties asset_id p royalty_bps);;
  net_to_seller ← eval (price
                        - (price * Int royalty_bps / BASIS_POINTS)
                        - (price * MUSE_FEE_BPS / BASIS_POINTS));
  Submit (pay creator (Int net_to_seller)) ctx;;
  Submit (Val (AssetTransfer asset_id None (sender ctx) 1)) ctx;;
  BoxReplace nft_key 48 (Itob (transfers + Int 1));;
  volume ← get total_volume;
  set_total_volume (Int volume + price).

Definition buy_out_royalty (asset_id : Z) (payment : PaymentTransaction) : M unit :=
  let nft_key := box_key "NFT" asset_id in
  nft_box ← BoxGet nft_key;
  let flags := ExtractUint64 (value nft_box) 56 in
  let buyout_price := ExtractUint64 (value nft_box) 40 in
  let creator := Extract (value nft_box) 64 32 in
  let creator_cut := buyout_price * Int 9500 / BASIS_POINTS in
  let muse_cut := buyout_price - creator_cut in
  Assert (hasValue nft_box) "";;
  Assert (buyout_price > Int 0) "Royalty buy-out not enabled for this NFT";;
  Assert (BitwiseAnd flags FLAG_ROYALTY_WAIVED == Int 0) "Royalties already waived";;
  Assert (Int (amount payment) == buyout_price) "Incorrect buy-out payment";;
  Assert (BytesEq (Val (receiver payment)) Global_current_application_address) "";;
  Submit (pay creator creator_cut) ctx;;
  treasury ← get muse_treasury;
  Submit (pay (Val treasury) muse_cut) ctx;;
  BoxReplace nft_key 56 (Itob (BitwiseOr flags FLAG_ROYALTY_WAIVED));;
  BoxReplace nft_key 40 (Itob (Int 0)).

Definition start_auction (asset_id duration_rounds reserve_price : Z) : M unit :=
  let auc_key := box_key "AUC" asset_id in
  let nft_key := box_key "NFT" asset_id in
  nft_box ← BoxGet nft_key;
  let flags := ExtractUint64 (value nft_box) 56 in
  Assert (hasValue nft_box) "";;
  Assert (BitwiseAnd flags FLAG_IN_AUCTION == Int 0) "Already in auction";;
  Assert (BitwiseAnd flags FLAG_RWA_REDEEMED == Int 0) "Redeemed RWA cannot be auctioned";;
  Assert (Int duration_rounds > Int 0) "";;
  Submit (Val (AssetTransfer asset_id (Some (sender ctx))
                 (current_application_address ctx) 1)) ctx;;
  BoxCreate auc_key 88;;
  BoxReplace auc_key 0
    (Concat [Itob (Int asset_id); Itob (Global_round + Int duration_rounds);
             Itob (Int 0); Global_zero_address; Txn_sender]);;
  BoxReplace auc_key 0 (Itob (Int reserve_price));;
  BoxReplace nft_key 56 (Itob (BitwiseOr flags FLAG_IN_AUCTION));;
  n ← get live_auctions;
  set_live_auctions (Int n + Int 1).

Definition place_bid (asset_id : Z) (payment : PaymentTransaction) : M unit :=
  let auc_key := box_key "AUC" asset_id in
  auc_box ← BoxGet auc_key;
  let end_round := ExtractUint64 (value auc_box) 8 in
  let highest_bid := ExtractUint64 (value auc_box) 16 in
  let highest_bidder := Extract (value auc_box) 24 32 in
  let new_bid := Int (amount payment) in
  let ANTI_SNIPE_ROUNDS := Int 75 in
  Assert (hasValue auc_box) "No active auction for this asset";;
  Assert (Global_round < end_round) "Auction has ended";;
  Assert (new_bid > highest_bid) "Bid must exceed current highest bid";;
  Assert (BytesEq (Val (receiver payment)) Global_current_application_address) "";;
  When (BytesNeq highest_bidder Global_zero_address)
       (Submit (pay highest_bidder highest_bid) ctx);;
  BoxReplace auc_key 16 (Itob new_bid);;
  BoxReplace auc_key 24 Txn_sender;;
  When (end_round - Global_round < ANTI_SNIPE_ROUNDS)
       (BoxReplace auc_key 8 (Itob (end_round + ANTI_SNIPE_ROUNDS))).

Definition settle_auction (asset_id : Z) : M unit :=
  let auc_key := box_key "AUC" asset_id in
  let nft_key := box_key "NFT" asset_id in
  auc_box ← BoxGet auc_key;
  nft_box ← BoxGet nft_key;
  let end_round := ExtractUint64 (value auc_box) 8 in
  let highest_bid := ExtractUint64 (value auc_box) 16 in
  let highest_bidder := Extract (value auc_box) 24 32 in
  let seller := Extract (value auc_box) 56 32 in
  let transfers := ExtractUint64 (value nft_box) 48 in
  let flags := ExtractUint64 (value nft_box) 56 in
  Assert (hasValue auc_box) "";;
  Assert (Global_round >= end_round) "Auction still running";;
  If (BytesEq highest_bidder Global_zero_address)
     (Submit (r ← seller; Val (AssetTransfer asset_id None r 1)) ctx)
     (royalty_bps ← current_royalty_bps asset_id;
      When (Int royalty_bps > Int 0)
           (bid ← eval highest_bid; distribute_royalties asset_id bid royalty_bps);;
      Submit (pay seller (highest_bid
                          - (highest_bid * Int royalty_bps / BASIS_POINTS)
                          - (highest_bid * MUSE_FEE_BPS / BASIS_POINTS))) ctx;;
      Submit (r ← highest_bidder; Val (AssetTransfer asset_id None r 1)) ctx;;
      BoxReplace nft_key 48 (Itob (transfers + Int 1));;
      volume ← get total_volume;
      set_total_volume (Int volume + highest_bid));;
  BoxReplace nft_key 56 (Itob (BitwiseAnd flags (BitwiseNot FLAG_IN_AUCTION)));;
  BoxDelete auc_key;;
  n ← get live_auctions;
  set_live_auctions (Int n - Int 1).

(** read-only views *)

Definition get_nft_info (asset_id : Z) : M (Z * Z * Z * Z * Z * Z * Z * bytes) :=
  let nft_key := box_key "NFT" asset_id in
  nft_box ← BoxGet nft_key;
  Assert (hasValue nft_box) "";;
  price ← eval (ExtractUint64 (value nft_box) 8);
  royalty ← eval (ExtractUint64 (value nft_box) 16);
  floor ← eval (ExtractUint64 (value nft_box) 24);
  decay ← eval (ExtractUint64 (value nft_box) 32);
  buyout ← eval (ExtractUint64 (value nft_box) 40);
  xfers ← eval (ExtractUint64 (value nft_box) 48);
  flags_out ← eval (ExtractUint64 (value nft_box) 56);
  creator_out ← eval (Extract (value nft_box) 64 32);
  mret (price, royalty, floor, decay, buyout, xfers, flags_out, creator_out).

Definition get_current_royalty (asset_id : Z) : M Z := current_royalty_bps asset_id.

Definition get_auction_info (asset_id : Z) : M (Z * Z * bytes * bytes) :=
  let auc_key := box_key "AUC" asset_id in
  auc_box ← BoxGet auc_key;
  Assert (hasValue auc_box) "No active auction";;
  end_r ← eval (ExtractUint64 (value auc_box) 8);
  h_bid ← eval (ExtractUint64 (value auc_box) 16);
  h_bidder ← eval (Extract (value auc_box) 24 32);
  seller_out ← eval (Extract (value auc_box) 56 32);
  mret (end_r, h_bid, h_bidder, seller_out).

Definition get_platform_stats : M (Z * Z * Z * Z) :=
  vol ← get total_volume;
  royal ← get total_royalties_paid;
  count ← get nft_count;
  aucs ← get live_auctions;
  mret (vol, royal, count, aucs).

Definition update_treasury (new_treasury : bytes) : M unit :=
  Assert (BytesEq Txn_sender Global_creator_address) "Admin only";;
  set_muse_treasury (Val new_treasury).

End Contract.

(** ** Reading the packed records *)

Definition u64_at (b : bytes) (off : nat) : Z := btoi (take 8 (drop off b)).
Definition u32_at (b : bytes) (off : nat) : Z := btoi (take 4 (drop off b)).
Definition bytes_at (b : bytes) (off len : nat) : bytes := take len (drop off b).

(** the bytes that a successful [BoxReplace] leaves in the box *)
Definition patch (b : bytes) (off : nat) (d : bytes) : bytes :=
  take off b ++ d ++ drop (off + length d) b.

(** the NFT box, [128] bytes *)
Module NFT.
Definition asset_id (b : bytes) : Z := u64_at b 0.
Definition price (b : bytes) : Z := u64_at b 8.
Definition royalty_bps (b : bytes) : Z := u64_at b 16.
Definition floor_bps (b : bytes) : Z := u64_at b 24.
Definition decay_start (b : bytes) : Z := u64_at b 32.
Definition buyout_price (b : bytes) : Z := u64_at b 40.
Definition transfers (b : bytes) : Z := u64_at b 48.
Definition flags (b : bytes) : Z := u64_at b 56.
Definition creator (b : bytes) : bytes := bytes_at b 64 32.
End NFT.

(** the auction box, [88] bytes; [start_auction] leaves the reserve price
    in the first slot *)
Module AUC.
Definition first_slot (b : bytes) : Z := u64_at b 0.
Definition end_round (b : bytes) : Z := u64_at b 8.
Definition highest_bid (b : bytes) : Z := u64_at b 16.
Definition highest_bidder (b : bytes) : bytes := bytes_at b 24 32.
Definition seller (b : bytes) : bytes := bytes_at b 56 32.
End AUC.

(** the split box, four entries of [40] bytes *)
Module SPL.
Definition address (b : bytes) (i : nat) : bytes := bytes_at b (i * 40) 32.
Definition share_bps (b : bytes) (i : nat) : Z := u32_at b (i * 40 + 32).
Definition accepted (b : bytes) (i : nat) : Z := u32_at b (i * 40 + 36).
End SPL.

(** the RWA box, [104] bytes *)
Module RWA.
Definition physical_hash (b : bytes) : bytes := bytes_at b 0 32.
Definition custodian (b : bytes) : bytes := bytes_at b 32 32.
Definition authenticator (b : bytes) : bytes := bytes_at b 64 32.
Definition redemption_round (b : bytes) : Z := u64_at b 96.
End RWA.

(** [BitwiseAnd(flags, FLAG) != Int(0)] *)
Definition flag_set (flags mask : Z) : Prop := Z.land flags mask ≠ 0.

Global Instance flag_set_dec flags mask : Decision (flag_set flags mask).
Proof. unfold flag_set. apply _. Defined.

Definition IS_RWA : Z := 1.
Definition RWA_AUTH : Z := 2.
Definition RWA_REDEEMED : Z := 4.
Definition ROYALTY_WAIVED : Z := 8.
Definition IN_AUCTION : Z := 16.
Definition COLLAB_PENDING : Z := 32.

(** the state after one more inner transaction *)
Definition add_itxn (t : InnerTxn) (s : State) : State :=
  mkState (boxes s) (muse_treasury s) (total_volume s) (total_royalties_paid s)
          (nft_count s) (live_auctions s) (itxns s ++ [t]).

Definition set_itxns (f : list InnerTxn → list InnerTxn) (s : State) : State :=
  mkState (boxes s) (muse_treasury s) (total_volume s) (total_royalties_paid s)
          (nft_count s) (live_auctions s) (f (itxns s)).

(** the auction box after an accepted bid *)
Definition place_bid_box (ctx : Ctx) (p : PaymentTransaction) (b : bytes) : bytes :=
  let b1 := patch (patch b 16 (itob (amount p))) 24 (sender ctx) in
  if decide (AUC.end_round b - round ctx < 75)
  then patch b1 8 (itob (AUC.end_round b + 75))
  else b1.

(** the refund an accepted bid sends *)
Definition refund_of (b : bytes) : list InnerTxn :=
  if decide (AUC.highest_bidder b ≠ zero_address)
  then [Payment (AUC.highest_bidder b) (AUC.highest_bid b)]
  else [].

(** the four split payments out of a total royalty *)
Definition split_payments (spl : bytes) (total_royalty : Z) : list InnerTxn :=
  map (λ i, Payment (SPL.address spl i) (total_royalty * SPL.share_bps spl i / 10000))
      [0; 1; 2; 3]%nat.

(** what the host commits: a failed call leaves the state as it was *)
Definition commit {A} (s : State) (r : Res A) : State :=
  match r with
  | Ok _ s' => s'
  | Fail _ _ => s
  end.

(** the sum of the payments among inner transactions *)
Definition paid (tx : InnerTxn) : Z :=
  match tx with
  | Payment _ a => a
  | _ => 0
  end.

Definition payments_total (txs : list InnerTxn) : Z := foldr (λ tx acc, paid tx + acc) 0 txs.

(** ** What the methods compute

    The definitions below name the outcome of a successful call, so that
    the lemmas can state it; each is proved equal to what the method does. *)

(** the value of [current_royalty_bps] on the record [b] *)
Definition royalty_of (ctx : Ctx) (b : bytes) : Ex Z :=
  let r := NFT.royalty_bps b in
  let f := NFT.floor_bps b in
  let ds := NFT.decay_start b in
  let m := (round ctx - ds) / 777600 in
  if decide (flag_set (NFT.flags b) ROYALTY_WAIVED) then Val 0
  else if decide (ds = 0) then Val r
  else if decide (round ctx < ds) then Val r
  else if decide (f ≤ r) then
    if decide ((r - f) * m ≤ uint64_max) then
      if decide ((r - f) * m / 100 ≤ r) then Val (Z.max (r - (r - f) * m / 100) f)
      else Raise underflow
    else Raise overflow
  else Raise underflow.

(** what [distribute_royalties] needs in order to succeed *)
Definition splits_of (spl : option bytes) (T : Z) : list InnerTxn :=
  match spl with
  | Some b => split_payments b T
  | None => []
  end.

Definition remainder_of (nft : option bytes) (T paid_to_splits : Z) : list InnerTxn :=
  if decide (T > paid_to_splits)
  then [Payment (NFT.creator (default [] nft)) (T - paid_to_splits)]
  else [].

Definition distribute_txns (s : State) (id price rb : Z) : list InnerTxn :=
  let T := price * rb / 10000 in
  let splits := splits_of (boxes s !! box_key "SPL" id) T in
  [Payment (muse_treasury s) (price * 250 / 10000)] ++ splits ++
  remainder_of (boxes s !! box_key "NFT" id) T (payments_total splits).

Definition distribute_ok (ctx : Ctx) (s : State) (id price rb : Z) : Prop :=
  let T := price * rb / 10000 in
  let splits := splits_of (boxes s !! box_key "SPL" id) T in
  price * rb ≤ uint64_max ∧ price * 250 ≤ uint64_max ∧
  (∀ spl, boxes s !! box_key "SPL" id = Some spl →
     (156 ≤ length spl)%nat ∧
     Forall (λ i, T * SPL.share_bps spl i ≤ uint64_max) [0; 1; 2; 3]%nat) ∧
  payments_total splits ≤ uint64_max ∧
  (T > payments_total splits →
     ∃ nft, boxes s !! box_key "NFT" id = Some nft ∧ (96 ≤ length nft)%nat) ∧
  Forall (λ t, accepts ctx t = true) (distribute_txns s id price rb) ∧
  total_royalties_paid s + T ≤ uint64_max.

Definition distribute_post (s : State) (id price rb : Z) : State :=
  mkState (boxes s) (muse_treasury s) (total_volume s)
    (total_royalties_paid s + price * rb / 10000) (nft_count s) (live_auctions s)
    (itxns s ++ distribute_txns s id price rb).

Definition buy_guards (ctx : Ctx) (p : PaymentTransaction) (b : bytes) : Prop :=
  NFT.price b > 0 ∧
  ¬ flag_set (NFT.flags b) IN_AUCTION ∧
  ¬ flag_set (NFT.flags b) RWA_REDEEMED ∧
  (flag_set (NFT.flags b) IS_RWA → flag_set (NFT.flags b) RWA_AUTH) ∧
  receiver p = current_application_address ctx ∧
  amount p = NFT.price b.

(** the inner transactions of a sale at [price] with royalty [rb]: the
    distribution when there is a royalty, the seller's net amount, the asset *)
Definition sale_txns (s : State) (id price rb : Z) (seller buyer : bytes) : list InnerTxn :=
  (if decide (rb > 0) then distribute_txns s id price rb else []) ++
  [Payment seller (price - price * rb / 10000 - price * 250 / 10000);
   AssetTransfer id None buyer 1].

Definition sale_ok (ctx : Ctx) (s : State) (id price rb : Z) (seller buyer : bytes) : Prop :=
  (rb > 0 → distribute_ok ctx s id price rb) ∧
  price * rb ≤ uint64_max ∧ price * 250 ≤ uint64_max ∧
  price * rb / 10000 ≤ price ∧
  price * 250 / 10000 ≤ price - price * rb / 10000 ∧
  Forall (λ t, accepts ctx t = true) (sale_txns s id price rb seller buyer).

Definition buy_post (ctx : Ctx) (s : State) (id : Z) (b : bytes) (rb : Z) : State :=
  mkState (<[box_key "NFT" id := patch b 48 (itob (NFT.transfers b + 1))]> (boxes s))
    (muse_treasury s)
    (total_volume s + NFT.price b)
    (total_royalties_paid s + (if decide (rb > 0) then NFT.price b * rb / 10000 else 0))
    (nft_count s) (live_auctions s)
    (itxns s ++ sale_txns s id (NFT.price b) rb (NFT.creator b) (sender ctx)).

Definition buy_ok (ctx : Ctx) (s : State) (id : Z) (p : PaymentTransaction)
    (b : bytes) (rb : Z) : Prop :=
  boxes s !! box_key "NFT" id = Some b ∧ (96 ≤ length b)%nat ∧
  buy_guards ctx p b ∧
  royalty_of ctx b = Val rb ∧
  sale_ok ctx s id (NFT.price b) rb (NFT.creator b) (sender ctx) ∧
  NFT.transfers b + 1 ≤ uint64_max ∧
  total_volume s + NFT.price b ≤ uint64_max.


(** the flags with [IN_AUCTION] cleared, as [settle_auction] writes them *)
Definition without_in_auction (flags : Z) : Z := Z.land flags (Z.lxor 16 uint64_max).

Definition settle_returned (s : State) (id : Z) (auc nft : bytes) : State :=
  mkState
    (delete (box_key "AUC" id)
       (<[box_key "NFT" id := patch nft 56 (itob (without_in_auction (NFT.flags nft)))]>
          (boxes s)))
    (muse_treasury s) (total_volume s) (total_royalties_paid s) (nft_count s)
    (live_auctions s - 1)
    (itxns s ++ [AssetTransfer id None (AUC.seller auc) 1]).

Definition settle_sold (s : State) (id : Z) (auc nft : bytes) (rb : Z) : State :=
  mkState
    (delete (box_key "AUC" id)
       (<[box_key "NFT" id :=
            patch (patch nft 48 (itob (NFT.transfers nft + 1))) 56
                  (itob (without_in_auction (NFT.flags nft)))]>
          (boxes s)))
    (muse_treasury s)
    (total_volume s + AUC.highest_bid auc)
    (total_royalties_paid s +
       (if decide (rb > 0) then AUC.highest_bid auc * rb / 10000 else 0))
    (nft_count s)
    (live_auctions s - 1)
    (itxns s ++ sale_txns s id (AUC.highest_bid auc) rb (AUC.seller auc)
                          (AUC.highest_bidder auc)).

(** [n] bids in a row, each one round before the end and one microAlgo
    above the highest bid *)
Fixpoint late_bids (who app : bytes) (id : Z) (n : nat) (s : State) : Res unit :=
  match n with
  | O => Ok () s
  | S k =>
      match boxes s !! box_key "AUC" id with
      | Some auc =>
          match place_bid (mkCtx who (AUC.end_round auc - 1) app who 0 (λ _, true)) id
                          (mkPay app (AUC.highest_bid auc + 1)) s with
          | Ok _ s' => late_bids who app id k s'
          | Fail e s' => Fail e s'
          end
      | None => Fail no_such_box s
      end
  end.

(** the spec's words for the payout of a sale: the shares registered for
    an asset, the amount of each, and the statement that the payments a
    sale adds are the fee, the shares, the remainder and the seller's net
    amount, and sum to the price *)
Definition sumZ (l : list Z) : Z := foldr Z.add 0 l.

Definition share_bps_of (spl : option bytes) : list Z :=
  match spl with
  | Some b => map (SPL.share_bps b) [0; 1; 2; 3]%nat
  | None => []
  end.

Definition share_amounts (spl : option bytes) (total_royalty : Z) : list Z :=
  map (λ bps, total_royalty * bps / 10000) (share_bps_of spl).

Definition settled_exactly (s s' : State) (id sale_price royalty_bps : Z)
    (creator seller buyer : bytes) : Prop :=
  let spl := boxes s !! box_key "SPL" id in
  let total_royalty := sale_price * royalty_bps / 10000 in
  let muse_fee := sale_price * 250 / 10000 in
  let shares := share_amounts spl total_royalty in
  let remainder := total_royalty - sumZ shares in
  let seller_net := sale_price - total_royalty - muse_fee in
  ∃ txs,
    itxns s' = itxns s ++ txs ∧
    txs = [Payment (muse_treasury s) muse_fee] ++ splits_of spl total_royalty ++
          (if decide (remainder > 0) then [Payment creator remainder] else []) ++
          [Payment seller seller_net; AssetTransfer id None buyer 1] ∧
    map paid (splits_of spl total_royalty) = shares ∧
    0 ≤ remainder ∧ 0 ≤ seller_net ∧ 0 ≤ muse_fee ∧ Forall (λ a, 0 ≤ a) shares ∧
    payments_total txs = seller_net + muse_fee + sumZ shares + remainder ∧
    payments_total txs = sale_price.

(** ** A small world to run the contract in *)

Module Example.

Definition addr (n : Z) : bytes := replicate 31 Byte.x00 ++ [byte_of_Z n].
Definition hash32 : bytes := replicate 32 Byte.x00.

Definition treasury : bytes := addr 9.
Definition app : bytes := addr 100.
Definition admin : bytes := addr 99.
Definition alice : bytes := addr 1.
Definition bob : bytes := addr 2.
Definition carol : bytes := addr 3.
Definition dave : bytes := addr 4.
Definition erin : bytes := addr 5.

(** a call by [who] at round [now]; the ledger would give [new_asset] to
    an asset created in the call and lets every inner transaction through *)
Definition call (who : bytes) (now new_asset : Z) : Ctx :=
  mkCtx who now app admin new_asset (λ _, true).

Definition genesis : State := mkState ∅ treasury 0 0 0 0 [].

(** round 10: alice mints asset 7, price 1 Algo, royalty 10%, floor 5%,
    decay from round 1010 *)
Definition minted : State :=
  commit genesis
    (mint_nft (call alice 10 7) [] [] [] hash32 1000000 1000 500 1000 0 genesis).

(** round 11: alice registers the splits 50/25/15/10 *)
Definition with_splits : State :=
  commit minted
    (register_co_creators (call alice 11 0) 7
       bob 5000 [] carol 2500 [] dave 1500 [] erin 1000 [] minted).

(** fifty months, and two hundred and one months, after the decay start *)
Definition round_50 : Z := 1010 + 777600 * 50.
Definition round_201 : Z := 1010 + 777600 * 201.

(** round 20: alice opens an auction of 100 rounds with reserve 100 *)
Definition auctioning : State :=
  commit minted (start_auction (call alice 20 0) 7 100 100 minted).

(** round 30: bob bids 150 *)
Definition bid_150 : State :=
  commit auctioning (place_bid (call bob 30 0) 7 (mkPay app 150) auctioning).

(** round 12: alice mints the RWA 8 with custodian carol and
    authenticator dave *)
Definition rwa_minted : State :=
  commit minted
    (mint_rwa (call alice 12 8) [] [] [] hash32 hash32 carol dave
              1000000 1000 500 0 0 minted).

Definition rwa_validated : State :=
  commit rwa_minted (validate_physical_asset (call dave 13 0) 8 rwa_minted).

End Example.

(** the calls the worked cases below make in that world *)
Module Cases.
Definition record (s : State) (tag : string) (id : Z) : bytes :=
  default [] (boxes s !! box_key tag id).

(** round 30: erin buys asset 7 at its price *)
Definition erin_buys : Ctx := Example.call Example.erin 30 0.
Definition full_price : PaymentTransaction := mkPay Example.app 1000000.
Definition sold : State :=
  commit Example.with_splits (buy_nft erin_buys 7 full_price Example.with_splits).

(** round 100, twenty rounds before the end: carol bids 200 over bob's 150 *)
Definition carol_bids : Ctx := Example.call Example.carol 100 0.
Definition bid_200 : State :=
  commit Example.bid_150
    (place_bid carol_bids 7 (mkPay Example.app 200) Example.bid_150).

(** round 130, after the end of the auction without a bid: it is settled *)
Definition bob_settles : Ctx := Example.call Example.bob 130 0.
Definition returned : State :=
  commit Example.auctioning (settle_auction bob_settles 7 Example.auctioning).
End Cases.

(** ** Calls

    The methods of the application as one type of calls, so that
    statements can range over every operation. *)

Inductive Call : Type :=
| Create (treasury : bytes)
| MintNft (name unit_name metadata_url metadata_hash : bytes)
    (price_microalgos royalty_bps floor_bps decay_after_rounds buyout_price : Z)
| MintRwa (name unit_name metadata_url metadata_hash physical_asset_hash
           custodian authenticator : bytes)
    (price_microalgos royalty_bps floor_bps decay_after_rounds buyout_price : Z)
| ValidatePhysicalAsset (asset_id : Z)
| RedeemPhysicalAsset (asset_id : Z) (tracking_info : bytes)
| RegisterCoCreators (asset_id : Z)
    (addr_1 : bytes) (share_bps_1 : Z) (role_1 : bytes)
    (addr_2 : bytes) (share_bps_2 : Z) (role_2 : bytes)
    (addr_3 : bytes) (share_bps_3 : Z) (role_3 : bytes)
    (addr_4 : bytes) (share_bps_4 : Z) (role_4 : bytes)
| AcceptCollaboration (asset_id : Z)
| BuyNft (asset_id : Z) (payment : PaymentTransaction)
| BuyOutRoyalty (asset_id : Z) (payment : PaymentTransaction)
| StartAuction (asset_id duration_rounds reserve_price : Z)
| PlaceBid (asset_id : Z) (payment : PaymentTransaction)
| SettleAuction (asset_id : Z)
| GetNftInfo (asset_id : Z)
| GetCurrentRoyalty (asset_id : Z)
| GetAuctionInfo (asset_id : Z)
| GetPlatformStats
| UpdateTreasury (new_treasury : bytes).

(** a method run for its effect *)
Definition void {A} (m : M A) : M unit := m ≫= λ _, mret ().

Definition invoke (ctx : Ctx) (c : Call) : M unit :=
  match c with
  | Create t => create t
  | MintNft n u url h p r f d bo => void (mint_nft ctx n u url h p r f d bo)
  | MintRwa n u url h ph cu au p r f d bo =>
      void (mint_rwa ctx n u url h ph cu au p r f d bo)
  | ValidatePhysicalAsset id => validate_physical_asset ctx id
  | RedeemPhysicalAsset id info => redeem_physical_asset ctx id info
  | RegisterCoCreators id a1 s1 r1 a2 s2 r2 a3 s3 r3 a4 s4 r4 =>
      register_co_creators ctx id a1 s1 r1 a2 s2 r2 a3 s3 r3 a4 s4 r4
  | AcceptCollaboration id => accept_collaboration ctx id
  | BuyNft id p => buy_nft ctx id p
  | BuyOutRoyalty id p => buy_out_royalty ctx id p
  | StartAuction id d r => start_auction ctx id d r
  | PlaceBid id p => place_bid ctx id p
  | SettleAuction id => settle_auction ctx id
  | GetNftInfo id => void (get_nft_info id)
  | GetCurrentRoyalty id => void (get_current_royalty ctx id)
  | GetAuctionInfo id => void (get_auction_info id)
  | GetPlatformStats => void get_platform_stats
  | UpdateTreasury t => update_treasury ctx t
  end.

(** the ledger gives a created asset an id that no asset had before, so
    that no record is stored under it yet *)
Definition fresh_asset (ctx : Ctx) (c : Call) (s : State) : Prop :=
  match c with
  | MintNft _ _ _ _ _ _ _ _ _ | MintRwa _ _ _ _ _ _ _ _ _ _ _ _ =>
      boxes s !! box_key "NFT" (created_asset_id ctx) = None
  | _ => True
  end.

(** one successful call; a failed one leaves the state as it was *)
Inductive step (s s' : State) : Prop :=
| step_call ctx c : fresh_asset ctx c s → invoke ctx c s = Ok () s' → step s s'.

Definition reachable_from : State → State → Prop := rtc step.

Definition authenticated (b : bytes) : Prop := flag_set (NFT.flags b) RWA_AUTH.
Definition redeemed (b : bytes) : Prop := flag_set (NFT.flags b) RWA_REDEEMED.

Definition fails {A} (r : Res A) : Prop :=
  match r with
  | Ok _ _ => False
  | Fail _ _ => True
  end.

(** the two lifecycle flags of a record are as in another one *)
Definition same_stage (b b' : bytes) : Prop :=
  (authenticated b' ↔ authenticated b) ∧ (redeemed b' ↔ redeemed b).

(** a computation that leaves the box [k] as it is *)
Definition keeps {A} (k : BoxKey) (m : M A) : Prop :=
  ∀ s a s', m s = Ok a s' → boxes s' !! k = boxes s !! k.

(** ** Outcomes of the other methods

    Records, guards and states that the lemmas on minting, the co-creator
    registry, the buy-out and the opening of an auction are stated with. *)

(** the round [decay_after_rounds] turns into when a record is minted *)
Definition decay_start_of (ctx : Ctx) (decay_after_rounds : Z) : Z :=
  if decide (decay_after_rounds = 0) then 0 else round ctx + decay_after_rounds.

(** the header a mint writes over the first 96 bytes of the new box *)
Definition nft_header (asset_id price royalty_bps floor_bps decay_start buyout_price
    transfers flags : Z) (creator : bytes) : bytes :=
  itob asset_id ++ itob price ++ itob royalty_bps ++ itob floor_bps ++ itob decay_start ++
  itob buyout_price ++ itob transfers ++ itob flags ++ creator.

(** the entries [register_co_creators] writes: address, share as a
    big-endian uint32, and the acceptance word, zero *)
Definition spl_entry (addr : bytes) (share_bps : Z) : bytes :=
  addr ++ itob_n 4 share_bps ++ [Byte.x00; Byte.x00; Byte.x00; Byte.x00].

(** the acceptance word [accept_collaboration] writes *)
Definition accepted_word : bytes := [Byte.x00; Byte.x00; Byte.x00; Byte.x01].

(** entry [i] accepted when it is registered to [who] in [spl0] *)
Definition accept_entry (who spl0 : bytes) (spl : bytes) (i : nat) : bytes :=
  if decide (SPL.address spl0 i = who) then patch spl (i * 40 + 36) accepted_word else spl.

Definition accepted_by (who spl : bytes) : bytes :=
  foldl (accept_entry who spl) spl [0; 1; 2; 3]%nat.

(** [who] is the address of one of the four entries *)
Definition registered (who spl : bytes) : Prop :=
  Exists (λ i, SPL.address spl i = who) [0; 1; 2; 3]%nat.

(** the record after a royalty buy-out *)
Definition bought_out (nft : bytes) : bytes :=
  patch (patch nft 56 (itob (Z.lor (NFT.flags nft) ROYALTY_WAIVED))) 40 (itob 0).

Definition buy_out_txns (s : State) (nft : bytes) : list InnerTxn :=
  [Payment (NFT.creator nft) (NFT.buyout_price nft * 9500 / 10000);
   Payment (muse_treasury s)
           (NFT.buyout_price nft - NFT.buyout_price nft * 9500 / 10000)].

(** the auction box that [start_auction] leaves: the reserve price is
    written over the asset id *)
Definition auction_record (ctx : Ctx) (duration_rounds reserve_price : Z) : bytes :=
  itob reserve_price ++ itob (round ctx + duration_rounds) ++ itob 0 ++
  zero_address ++ sender ctx.

Definition start_guards (ctx : Ctx) (s : State) (a d : Z) (nft : bytes) : Prop :=
  (64 ≤ length nft)%nat ∧
  ¬ flag_set (NFT.flags nft) IN_AUCTION ∧
  ¬ flag_set (NFT.flags nft) RWA_REDEEMED ∧
  d > 0 ∧ round ctx + d ≤ uint64_max ∧
  accepts ctx (AssetTransfer a (Some (sender ctx)) (current_application_address ctx) 1)
  = true ∧
  (∀ old, boxes s !! box_key "AUC" a = Some old → length old = 88%nat) ∧
  live_auctions s + 1 ≤ uint64_max.

Definition start_post (ctx : Ctx) (s : State) (a d r : Z) (nft : bytes) : State :=
  mkState
    (<[box_key "NFT" a := patch nft 56 (itob (Z.lor (NFT.flags nft) IN_AUCTION))]>
       (<[box_key "AUC" a := auction_record ctx d r]> (boxes s)))
    (muse_treasury s) (total_volume s) (total_royalties_paid s) (nft_count s)
    (live_auctions s + 1)
    (itxns s ++ [AssetTransfer a (Some (sender ctx)) (current_application_address ctx) 1]).

(** the record [b'] has the terms of [b]: the bytes before the buy-out
    price (asset id, price, royalty, floor, decay start) and from the
    creator on are the same, and a waived royalty stays waived *)
Definition same_terms (b b' : bytes) : Prop :=
  length b' = length b ∧ take 40 b' = take 40 b ∧ drop 64 b' = drop 64 b ∧
  (flag_set (NFT.flags b) ROYALTY_WAIVED → flag_set (NFT.flags b') ROYALTY_WAIVED).

(** the arguments of a call as the ABI decodes them: an [abi.Address] has
    32 bytes, an [abi.Uint32] is below 2^32 *)
Definition abi_typed (c : Call) : Prop :=
  match c with
  | RegisterCoCreators _ a1 s1 _ a2 s2 _ a3 s3 _ a4 s4 _ =>
      (length a1 = 32%nat ∧ length a2 = 32%nat ∧ length a3 = 32%nat ∧
       length a4 = 32%nat) ∧
      (0 ≤ s1 < 2 ^ 32 ∧ 0 ≤ s2 < 2 ^ 32 ∧ 0 ≤ s3 < 2 ^ 32 ∧ 0 ≤ s4 < 2 ^ 32)
  | _ => True
  end.

(** one successful call with arguments of their ABI types *)
Inductive typed_step (s s' : State) : Prop :=
| typed_step_call ctx c : abi_typed c → invoke ctx c s = Ok () s' → typed_step s s'.

(** every registry has 160 bytes and shares of at most 10000 in total *)
Definition shares_bounded (s : State) : Prop :=
  ∀ id spl, boxes s !! box_key "SPL" id = Some spl →
    length spl = 160%nat ∧ sumZ (share_bps_of (Some spl)) ≤ 10000.

(** the record after a redemption: [RWA_REDEEMED] set, [IN_AUCTION] cleared *)
Definition redeemed_record (nft : bytes) : bytes :=
  patch nft 56 (itob (without_in_auction (Z.lor (NFT.flags nft) RWA_REDEEMED))).

(** further calls in the world of [Example] *)
Module Sample.
(** round 12: bob, a registered co-creator of asset 7, accepts *)
Definition bob_accepts : Ctx := Example.call Example.bob 12 0.
Definition accepted : State :=
  commit Example.with_splits (accept_collaboration bob_accepts 7 Example.with_splits).

(** round 10: alice mints asset 7 as in [Example.minted], with a royalty
    buy-out price of 0.4 Algo *)
Definition with_buyout : State :=
  commit Example.genesis
    (mint_nft (Example.call Example.alice 10 7) [] [] [] Example.hash32
              1000000 1000 500 1000 400000 Example.genesis).

(** round 15: bob pays the buy-out *)
Definition bob_buys_out : Ctx := Example.call Example.bob 15 0.
Definition waived : State :=
  commit with_buyout
    (buy_out_royalty bob_buys_out 7 (mkPay Example.app 400000) with_buyout).

(** round 30: erin buys the asset, its royalty being waived *)
Definition sold_waived : State :=
  commit waived (buy_nft Cases.erin_buys 7 Cases.full_price waived).

(** round 30: the royalty of a sale of asset 7 at 1 Algo is distributed *)
Definition distributed : State :=
  commit Example.with_splits
    (distribute_royalties Cases.erin_buys 7 1000000 1000 Example.with_splits).

(** round 14: carol, the custodian of the validated RWA 8, redeems it *)
Definition carol_redeems : Ctx := Example.call Example.carol 14 0.
Definition rwa_redeemed : State :=
  commit Example.rwa_validated
    (redeem_physical_asset carol_redeems 8 [] Example.rwa_validated).


(** round 10: alice mints asset 9 at 1 Algo with a royalty of 0 *)
Definition royalty_free : State :=
  commit Example.genesis
    (mint_nft (Example.call Example.alice 10 9) [] [] [] Example.hash32
              1000000 0 0 0 0 Example.genesis).

(** round 30: erin buys asset 9 at its price *)
Definition sold_royalty_free : State :=
  commit royalty_free (buy_nft Cases.erin_buys 9 Cases.full_price royalty_free).

(** or else asset 9 is auctioned: opened by alice at round 20 for 100
    rounds, bob bids 1000 at round 30, settled at round 130 *)
Definition royalty_free_auction : State :=
  commit royalty_free
    (start_auction (Example.call Example.alice 20 0) 9 100 100 royalty_free).
Definition royalty_free_bid : State :=
  commit royalty_free_auction
    (place_bid (Example.call Example.bob 30 0) 9 (mkPay Example.app 1000)
               royalty_free_auction).
Definition royalty_free_settled : State :=
  commit royalty_free_bid (settle_auction Cases.bob_settles 9 royalty_free_bid).
End Sample.

(** reduction is kept away from the byte-level reads and from whole
    methods; they are rewritten with their equations instead *)
Arguments box_key : simpl never.
Arguments Extract : simpl never.
Arguments ExtractUint64 : simpl never.
Arguments ExtractUint32 : simpl never.
Arguments u64_at : simpl never.
Arguments u32_at : simpl never.
Arguments bytes_at : simpl never.
Arguments patch : simpl never.
Arguments itob : simpl never.
Arguments btoi : simpl never.
Arguments current_royalty_bps : simpl never.
Arguments distribute_royalties : simpl never.
Arguments zero_address : simpl never.
Arguments Global_round ctx /.
Arguments Global_zero_address /.
Arguments Global_current_application_address ctx /.
Arguments Global_creator_address ctx /.
Arguments Txn_sender ctx /.
Arguments Int n /.
Arguments Add !a !b /.
Arguments Minus !a !b /.
Arguments Mul !a !b /.
Arguments Div !a !b /.
Arguments Lt !a !b /.
Arguments Gt !a !b /.
Arguments Le !a !b /.
Arguments Ge !a !b /.
Arguments Eq !a !b /.
Arguments Neq !a !b /.
Arguments BitwiseAnd !a !b /.
Arguments BitwiseOr !a !b /.
Arguments BitwiseNot !a /.
Arguments BytesEq !a !b /.
Arguments BytesNeq !a !b /.
Arguments Itob !a /.
Arguments IfE {A} !c a b /.
Arguments pay !rcv !amt /.

(** ** Basic facts *)

Section Facts.

Implicit Types (b d : bytes) (s : State) (off len : nat).

Lemma Z_of_byte_of_Z z : Z_of_byte (byte_of_Z z) = z mod 256.
Proof.
  unfold Z_of_byte, byte_of_Z.
  destruct (Byte.of_N (Z.to_N (z mod 256))) as [b|] eqn:E.
  - apply Byte.to_of_N in E. simpl. rewrite E.
    rewrite Z2N.id; [done|]. apply Z.mod_pos_bound. lia.
  - apply Byte.of_N_None_iff in E.
    pose proof (Z.mod_pos_bound z 256). lia.
Qed.

Lemma Z_of_byte_range (x : byte) : 0 ≤ Z_of_byte x < 256.
Proof.
  unfold Z_of_byte. pose proof (Byte.to_N_bounded x). lia.
Qed.

Lemma btoi_acc_app acc l1 l2 :
  btoi_acc acc (l1 ++ l2) = btoi_acc (btoi_acc acc l1) l2.
Proof. revert acc. induction l1 as [|x l1 IH]; intros acc; simpl; [done|]. apply IH. Qed.

Lemma length_itob_n n v : length (itob_n n v) = n.
Proof.
  revert v. induction n as [|n IH]; intros v; simpl; [done|].
  rewrite length_app, IH. simpl. lia.
Qed.

Lemma length_itob v : length (itob v) = 8%nat.
Proof. apply length_itob_n. Qed.

Lemma btoi_itob_n n v : btoi (itob_n n v) = v mod 256 ^ Z.of_nat n.
Proof.
  unfold btoi. revert v. induction n as [|n IH]; intros v.
  - simpl. by rewrite Z.mod_1_r.
  - cbn [itob_n]. rewrite btoi_acc_app, IH. cbn [btoi_acc].
    rewrite Z_of_byte_of_Z, Nat2Z.inj_succ, Z.pow_succ_r by lia.
    rewrite Z.rem_mul_r by lia.
    lia.
Qed.

Lemma btoi_itob v : 0 ≤ v < 2 ^ 64 → btoi (itob v) = v.
Proof.
  intros Hv. unfold itob. rewrite btoi_itob_n.
  change (256 ^ Z.of_nat 8) with (2 ^ 64). by apply Z.mod_small.
Qed.

Lemma btoi_acc_range acc bs :
  0 ≤ acc → 0 ≤ btoi_acc acc bs < (acc + 1) * 256 ^ Z.of_nat (length bs).
Proof.
  revert acc. induction bs as [|x bs IH]; intros acc Hacc.
  - simpl. lia.
  - cbn [btoi_acc length]. pose proof (Z_of_byte_range x).
    specialize (IH (acc * 256 + Z_of_byte x)).
    rewrite Nat2Z.inj_succ, Z.pow_succ_r by lia.
    assert (0 < 256 ^ Z.of_nat (length bs)) by (apply Z.pow_pos_nonneg; lia).
    split; [lia|]. nia.
Qed.

Lemma btoi_range bs n :
  length bs = n → 0 ≤ btoi bs < 256 ^ Z.of_nat n.
Proof.
  intros <-. pose proof (btoi_acc_range 0 bs). unfold btoi. lia.
Qed.

Lemma extract_Some b off len d :
  extract b off len = Some d →
  (off + len ≤ length b)%nat ∧ d = take len (drop off b).
Proof. unfold extract. case_decide; naive_solver. Qed.

Lemma replace_Some b off d b' :
  replace b off d = Some b' →
  (off + length d ≤ length b)%nat ∧ b' = take off b ++ d ++ drop (off + length d) b.
Proof. unfold replace. case_decide; naive_solver. Qed.

Lemma replace_patch b off d :
  (off + length d ≤ length b)%nat → replace b off d = Some (patch b off d).
Proof. intros H. unfold replace, patch. by rewrite decide_True. Qed.

Lemma replace_Some_patch b off d b' :
  replace b off d = Some b' → b' = patch b off d ∧ (off + length d ≤ length b)%nat.
Proof. intros [? ->]%replace_Some. done. Qed.

Lemma length_patch b off d :
  (off + length d ≤ length b)%nat → length (patch b off d) = length b.
Proof.
  intros H. unfold patch. rewrite !length_app, length_take, length_drop. lia.
Qed.

Lemma bytes_at_patch_eq b off d :
  (off ≤ length b)%nat → bytes_at (patch b off d) off (length d) = d.
Proof.
  intros H. unfold bytes_at, patch.
  rewrite drop_app_length'; [|rewrite length_take; lia].
  by rewrite take_app_length.
Qed.

Lemma bytes_at_patch_ne b off d off' len :
  (off + length d ≤ length b)%nat →
  (off' + len ≤ off ∨ off + length d ≤ off')%nat →
  bytes_at (patch b off d) off' len = bytes_at b off' len.
Proof.
  intros Hle Hdisj. unfold bytes_at, patch. destruct Hdisj as [Hd|Hd].
  - rewrite drop_app_le by (rewrite length_take; lia).
    rewrite take_app_le by (rewrite length_drop, length_take; lia).
    rewrite skipn_firstn_comm, take_take. f_equal. lia.
  - rewrite app_assoc.
    rewrite drop_app_ge by (rewrite length_app, length_take; lia).
    rewrite length_app, length_take, drop_drop. f_equal. f_equal. lia.
Qed.

Lemma u64_at_patch_eq b off v :
  (off ≤ length b)%nat → 0 ≤ v < 2 ^ 64 → u64_at (patch b off (itob v)) off = v.
Proof.
  intros H Hv. unfold u64_at.
  pose proof (bytes_at_patch_eq b off (itob v) H) as E.
  unfold bytes_at in E. rewrite length_itob in E. rewrite E. by apply btoi_itob.
Qed.

Lemma u64_at_patch_ne b off d off' :
  (off + length d ≤ length b)%nat →
  (off' + 8 ≤ off ∨ off + length d ≤ off')%nat →
  u64_at (patch b off d) off' = u64_at b off'.
Proof.
  intros H Hd. unfold u64_at.
  pose proof (bytes_at_patch_ne b off d off' 8 H Hd) as E.
  unfold bytes_at in E. by rewrite E.
Qed.

Lemma u64_at_range b off : 0 ≤ u64_at b off < 2 ^ 64.
Proof.
  unfold u64_at. pose proof (btoi_acc_range 0 (take 8 (drop off b))) as H.
  unfold btoi. rewrite length_take in H.
  assert (256 ^ Z.of_nat (8 `min` length (drop off b)) ≤ 256 ^ 8)
    by (apply Z.pow_le_mono_r; lia).
  change (256 ^ 8) with (2 ^ 64) in *. lia.
Qed.

Lemma u32_at_range b off : 0 ≤ u32_at b off < 2 ^ 32.
Proof.
  unfold u32_at. pose proof (btoi_acc_range 0 (take 4 (drop off b))) as H.
  unfold btoi. rewrite length_take in H.
  assert (256 ^ Z.of_nat (4 `min` length (drop off b)) ≤ 256 ^ 4)
    by (apply Z.pow_le_mono_r; lia).
  change (256 ^ 4) with (2 ^ 32) in *. lia.
Qed.

(** expressions over a box whose length is known *)

Lemma Extract_Val b off len :
  (off + len ≤ length b)%nat → Extract (Val b) off len = Val (bytes_at b off len).
Proof. intros H. unfold Extract, extract. cbn. by rewrite decide_True. Qed.

Lemma Extract_oob b off len :
  ¬ (off + len ≤ length b)%nat → Extract (Val b) off len = Raise out_of_bounds.
Proof. intros H. unfold Extract, extract. cbn. by rewrite decide_False. Qed.

Lemma ExtractUint64_Val b off :
  (off + 8 ≤ length b)%nat → ExtractUint64 (Val b) off = Val (u64_at b off).
Proof. intros H. unfold ExtractUint64. by rewrite Extract_Val. Qed.

Lemma ExtractUint32_Val b off :
  (off + 4 ≤ length b)%nat → ExtractUint32 (Val b) off = Val (u32_at b off).
Proof. intros H. unfold ExtractUint32. by rewrite Extract_Val. Qed.

Lemma ExtractUint64_oob b off :
  ¬ (off + 8 ≤ length b)%nat → ExtractUint64 (Val b) off = Raise out_of_bounds.
Proof. intros H. unfold ExtractUint64. by rewrite Extract_oob. Qed.

Lemma ExtractUint32_oob b off :
  ¬ (off + 4 ≤ length b)%nat → ExtractUint32 (Val b) off = Raise out_of_bounds.
Proof. intros H. unfold ExtractUint32. by rewrite Extract_oob. Qed.

Lemma ExtractUint32_inv b off v :
  ExtractUint32 (Val b) off = Val v → (off + 4 ≤ length b)%nat ∧ v = u32_at b off.
Proof.
  unfold ExtractUint32, Extract, extract. cbn. case_decide; [|done]. intros [= <-]. done.
Qed.

Lemma Extract_inv b off len d :
  Extract (Val b) off len = Val d → (off + len ≤ length b)%nat ∧ d = bytes_at b off len.
Proof.
  unfold Extract, extract. cbn. case_decide; [|done]. intros [= <-]. done.
Qed.

Lemma ExtractUint64_inv b off v :
  ExtractUint64 (Val b) off = Val v → (off + 8 ≤ length b)%nat ∧ v = u64_at b off.
Proof.
  unfold ExtractUint64, Extract, extract. cbn. case_decide; [|done]. intros [= <-]. done.
Qed.

Lemma value_Some b : value (Some b) = Val b.
Proof. reflexivity. Qed.

Lemma value_None : value None = Val [].
Proof. reflexivity. Qed.

Lemma hasValue_Some b : hasValue (Some b) = Val true.
Proof. reflexivity. Qed.

Lemma hasValue_None : hasValue None = Val false.
Proof. reflexivity. Qed.

Lemma Return_eq {A} (e : Ex A) : Return e = eval e.
Proof. reflexivity. Qed.

Lemma hasValue_true box : hasValue box = Val true → ∃ b, box = Some b.
Proof. destruct box; [eauto|done]. Qed.

Lemma hasValue_false box : hasValue box = Val false → box = None.
Proof. destruct box; [done|eauto]. Qed.

(** running a sequence: the first statement decides *)

Lemma run_bind {A B} (m : M A) (f : A → M B) s :
  (m ≫= f) s = match m s with Ok a s' => f a s' | Fail e s' => Fail e s' end.
Proof. reflexivity. Qed.

Lemma bind_Ok {A B} (m : M A) (f : A → M B) s x s' :
  (m ≫= f) s = Ok x s' → ∃ a s1, m s = Ok a s1 ∧ f a s1 = Ok x s'.
Proof. rewrite run_bind. destruct (m s) as [a s1|]; [eauto|done]. Qed.

Lemma eval_Ok {A} (e : Ex A) s a s' : eval e s = Ok a s' → e = Val a ∧ s' = s.
Proof. destruct e; cbn; [|done]. by intros [= -> ->]. Qed.

Lemma eval_Val {A} (a : A) s : eval (Val a) s = Ok a s.
Proof. reflexivity. Qed.

Lemma eval_Raise {A} e s : eval (@Raise A e) s = Fail e s.
Proof. reflexivity. Qed.

Lemma get_Ok {A} (g : State → A) s a s' : get g s = Ok a s' → a = g s ∧ s' = s.
Proof. by intros [= <- <-]. Qed.

Lemma get_run {A} (g : State → A) s : get g s = Ok (g s) s.
Proof. reflexivity. Qed.

Lemma Assert_Ok c msg s u s' : Assert c msg s = Ok u s' → c = Val true ∧ s' = s.
Proof. destruct c as [[]|]; cbn; [|done..]. by intros [= <-]. Qed.

Lemma Assert_true msg s : Assert (Val true) msg s = Ok () s.
Proof. reflexivity. Qed.

Lemma Assert_false msg s : Assert (Val false) msg s = Fail (assert_failed msg) s.
Proof. reflexivity. Qed.

Lemma If_true {A} (a b' : M A) : If (Val true) a b' = a.
Proof. reflexivity. Qed.

Lemma If_false {A} (a b' : M A) : If (Val false) a b' = b'.
Proof. reflexivity. Qed.

Lemma If_Ok {A} c (a b' : M A) s x s' :
  If c a b' s = Ok x s' →
  (c = Val true ∧ a s = Ok x s') ∨ (c = Val false ∧ b' s = Ok x s').
Proof. destruct c as [[]|]; cbn; [auto..|done]. Qed.

Lemma When_true a : When (Val true) a = a.
Proof. reflexivity. Qed.

Lemma When_false a s : When (Val false) a s = Ok () s.
Proof. reflexivity. Qed.

Lemma When_Ok c a s u s' :
  When c a s = Ok u s' → (c = Val true ∧ a s = Ok u s') ∨ (c = Val false ∧ s' = s).
Proof.
  intros [H|[H1 H2]]%If_Ok; [auto|]. right. split; [done|]. by injection H2.
Qed.

Lemma BoxGet_run key s : BoxGet key s = Ok (boxes s !! key) s.
Proof. reflexivity. Qed.

Lemma BoxReplace_Ok key off data s u s' :
  BoxReplace key off data s = Ok u s' →
  ∃ d b, data = Val d ∧ boxes s !! key = Some b ∧ (off + length d ≤ length b)%nat ∧
         s' = set_boxes (insert key (patch b off d)) s.
Proof.
  unfold BoxReplace. intros (d & s1 & [-> ->]%eval_Ok & H)%bind_Ok.
  unfold prim in H. destruct (boxes s !! key) as [b|]; [|done].
  destruct (replace b off d) as [b'|] eqn:E; [|done].
  apply replace_Some_patch in E as [-> ?]. injection H as <-. eauto 10.
Qed.

Lemma BoxReplace_run key off d b s :
  boxes s !! key = Some b → (off + length d ≤ length b)%nat →
  BoxReplace key off (Val d) s = Ok () (set_boxes (insert key (patch b off d)) s).
Proof.
  intros Hb Hl. unfold BoxReplace. rewrite run_bind, eval_Val. unfold prim.
  by rewrite Hb, replace_patch.
Qed.

Lemma BoxCreate_Ok key size s u s' :
  BoxCreate key size s = Ok u s' →
  (is_Some (boxes s !! key) ∧ s' = s) ∨
  (boxes s !! key = None ∧ s' = set_boxes (insert key (replicate size Byte.x00)) s).
Proof.
  unfold BoxCreate. destruct (boxes s !! key) as [b|].
  - case_decide; [|done]. intros [= <-]. eauto.
  - intros [= <-]. eauto.
Qed.

Lemma BoxDelete_run key s : BoxDelete key s = Ok () (set_boxes (delete key) s).
Proof. reflexivity. Qed.

Lemma Submit_Ok tx ctx s u s' :
  Submit tx ctx s = Ok u s' →
  ∃ t, tx = Val t ∧ accepts ctx t = true ∧ s' = add_itxn t s.
Proof.
  unfold Submit. intros (t & s1 & [-> ->]%eval_Ok & H)%bind_Ok.
  unfold prim in H. destruct (accepts ctx t) eqn:E; [|done].
  injection H as <-. eauto.
Qed.

Lemma Submit_run t ctx s :
  accepts ctx t = true → Submit (Val t) ctx s = Ok () (add_itxn t s).
Proof.
  intros H. unfold Submit. rewrite run_bind, eval_Val. unfold prim. by rewrite H.
Qed.

Lemma Submit_rejected t ctx s :
  accepts ctx t = false → Submit (Val t) ctx s = Fail itxn_rejected s.
Proof.
  intros H. unfold Submit. rewrite run_bind, eval_Val. unfold prim. by rewrite H.
Qed.

Lemma mret_Ok {A} (a : A) s x s' : mret (M := M) a s = Ok x s' → x = a ∧ s' = s.
Proof. by intros [= <- <-]. Qed.

Lemma set_muse_treasury_Ok e s u s' :
  set_muse_treasury e s = Ok u s' →
  ∃ v, e = Val v ∧ s' = mkState (boxes s) v (total_volume s) (total_royalties_paid s)
                          (nft_count s) (live_auctions s) (itxns s).
Proof.
  unfold set_muse_treasury. intros (v & s1 & [-> ->]%eval_Ok & H)%bind_Ok.
  injection H as <-. eauto.
Qed.

Lemma set_total_volume_Ok e s u s' :
  set_total_volume e s = Ok u s' →
  ∃ v, e = Val v ∧ s' = mkState (boxes s) (muse_treasury s) v (total_royalties_paid s)
                          (nft_count s) (live_auctions s) (itxns s).
Proof.
  unfold set_total_volume. intros (v & s1 & [-> ->]%eval_Ok & H)%bind_Ok.
  injection H as <-. eauto.
Qed.

Lemma set_total_royalties_paid_Ok e s u s' :
  set_total_royalties_paid e s = Ok u s' →
  ∃ v, e = Val v ∧ s' = mkState (boxes s) (muse_treasury s) (total_volume s) v
                          (nft_count s) (live_auctions s) (itxns s).
Proof.
  unfold set_total_royalties_paid. intros (v & s1 & [-> ->]%eval_Ok & H)%bind_Ok.
  injection H as <-. eauto.
Qed.

Lemma set_nft_count_Ok e s u s' :
  set_nft_count e s = Ok u s' →
  ∃ v, e = Val v ∧ s' = mkState (boxes s) (muse_treasury s) (total_volume s)
                          (total_royalties_paid s) v (live_auctions s) (itxns s).
Proof.
  unfold set_nft_count. intros (v & s1 & [-> ->]%eval_Ok & H)%bind_Ok.
  injection H as <-. eauto.
Qed.

Lemma set_live_auctions_Ok e s u s' :
  set_live_auctions e s = Ok u s' →
  ∃ v, e = Val v ∧ s' = mkState (boxes s) (muse_treasury s) (total_volume s)
                          (total_royalties_paid s) (nft_count s) v (itxns s).
Proof.
  unfold set_live_auctions. intros (v & s1 & [-> ->]%eval_Ok & H)%bind_Ok.
  injection H as <-. eauto.
Qed.

Lemma set_total_volume_run v s :
  set_total_volume (Val v) s =
    Ok () (mkState (boxes s) (muse_treasury s) v (total_royalties_paid s)
             (nft_count s) (live_auctions s) (itxns s)).
Proof. reflexivity. Qed.

Lemma set_total_royalties_paid_run v s :
  set_total_royalties_paid (Val v) s =
    Ok () (mkState (boxes s) (muse_treasury s) (total_volume s) v
             (nft_count s) (live_auctions s) (itxns s)).
Proof. reflexivity. Qed.

Lemma set_live_auctions_run v s :
  set_live_auctions (Val v) s =
    Ok () (mkState (boxes s) (muse_treasury s) (total_volume s)
             (total_royalties_paid s) (nft_count s) v (itxns s)).
Proof. reflexivity. Qed.

(** expressions whose operands are values *)

Lemma Ex_bind_Val {A B} (m : Ex A) (f : A → Ex B) v :
  m ≫= f = Val v → ∃ a, m = Val a ∧ f a = Val v.
Proof. destruct m; cbn; [eauto|done]. Qed.

Lemma pay_Val rcv amt t :
  pay rcv amt = Val t → ∃ r a, rcv = Val r ∧ amt = Val a ∧ t = Payment r a.
Proof.
  unfold pay. intros (r & -> & (a & -> & [= <-])%Ex_bind_Val)%Ex_bind_Val. eauto.
Qed.

End Facts.

(** symbolic execution: [run] steps through the statements whose
    expressions have been evaluated, [cbn] evaluates expressions over
    values *)
Create Rewrite HintDb run.
Hint Rewrite @run_bind BoxGet_run @get_run @eval_Val @eval_Raise Assert_true Assert_false
  @If_true @If_false When_true When_false value_Some value_None hasValue_Some
  hasValue_None @Return_eq BoxDelete_run : run.
Hint Rewrite ExtractUint64_Val ExtractUint32_Val Extract_Val using (simpl; lia) : run.

Ltac run := repeat (progress (autorewrite with run; cbv beta iota)).
Ltac run_in H := repeat (progress (autorewrite with run in H; cbv beta iota in H)).

(** inversion of a successful run, statement by statement *)
Ltac inv_ok H :=
  cbv beta in H;
  lazymatch type of H with
  | (_ ≫= _) _ = Ok _ _ =>
      let H1 := fresh "Hrun" in
      apply bind_Ok in H as (? & ? & H1 & H); inv_ok H1; inv_ok H
  | BoxGet _ _ = Ok _ _ => rewrite BoxGet_run in H; injection H as <- <-
  | get _ _ = Ok _ _ => apply get_Ok in H as [-> ->]
  | mret _ _ = Ok _ _ => apply mret_Ok in H as [-> ->]
  | eval _ _ = Ok _ _ => apply eval_Ok in H as [H ->]
  | Return _ _ = Ok _ _ => apply eval_Ok in H as [H ->]
  | Assert _ _ _ = Ok _ _ => apply Assert_Ok in H as [H ->]
  | Submit _ _ _ = Ok _ _ =>
      let Hacc := fresh "Hacc" in
      apply Submit_Ok in H as (? & H & Hacc & ->)
  | BoxReplace _ _ _ _ = Ok _ _ =>
      let Hbox := fresh "Hbox" in let Hlen := fresh "Hlen" in
      apply BoxReplace_Ok in H as (? & ? & H & Hbox & Hlen & ->)
  | BoxDelete _ _ = Ok _ _ => rewrite BoxDelete_run in H; injection H as <-
  | For_ _ _ _ _ _ = Ok _ _ => cbn [For_] in H; inv_ok H
  | _ => idtac
  end.

Ltac val_inv H :=
  lazymatch type of H with
  | Val (bool_decide _) = Val true => injection H as H; apply bool_decide_eq_true_1 in H
  | Val (bool_decide _) = Val false => injection H as H; apply bool_decide_eq_false_1 in H
  | Val _ = Val _ => injection H as H
  | Raise _ = Val _ => discriminate H
  end.

Ltac vals :=
  repeat match goal with
         | H : Val _ = Val _ |- _ => val_inv H
         | H : Raise _ = Val _ |- _ => discriminate H
         end.

Ltac has_box H b Hb :=
  apply hasValue_true in H as [b Hb]; rewrite ?Hb in *; rewrite ?value_Some in *.

(** ** The royalty computation *)

Lemma current_royalty_bps_eq ctx id s b :
  boxes s !! box_key "NFT" id = Some b → (64 ≤ length b)%nat →
  current_royalty_bps ctx id s = eval (royalty_of ctx b) s.
Proof.
  intros Hb Hl. unfold current_royalty_bps, royalty_of. run. rewrite Hb. run. cbn.
  fold (NFT.decay_start b) (NFT.royalty_bps b) (NFT.floor_bps b) (NFT.flags b).
  pose proof (u64_at_range b 32) as Hds. fold (NFT.decay_start b) in Hds.
  destruct (decide (flag_set (NFT.flags b) ROYALTY_WAIVED)) as [Hw|Hw].
  { rewrite bool_decide_eq_true_2 by done. by run. }
  rewrite bool_decide_eq_false_2 by done. run.
  destruct (decide (NFT.decay_start b = 0)) as [E|E].
  { rewrite bool_decide_eq_true_2 by done. by run. }
  rewrite bool_decide_eq_false_2 by done. run.
  destruct (decide (round ctx < NFT.decay_start b)) as [Hlt|Hlt].
  { rewrite bool_decide_eq_true_2 by done. by run. }
  rewrite bool_decide_eq_false_2 by done. run.
  rewrite (decide_True (P := NFT.decay_start b ≤ round ctx)) by lia.
  destruct (decide (NFT.floor_bps b ≤ NFT.royalty_bps b)); cbn; run; [|done].
  destruct (decide (_ ≤ uint64_max)); cbn; run; [|done].
  destruct (decide (_ ≤ NFT.royalty_bps b)); cbn; run; [|done].
  case_bool_decide; cbn; run.
  - rewrite Z.max_l by lia. done.
  - rewrite Z.max_r by lia. done.
Qed.

Lemma royalty_of_nonneg ctx b rb : royalty_of ctx b = Val rb → 0 ≤ rb.
Proof.
  unfold royalty_of. pose proof (u64_at_range b 16). pose proof (u64_at_range b 24).
  unfold NFT.royalty_bps, NFT.floor_bps.
  repeat case_decide; intros [= <-]; lia.
Qed.

(** ** Distribution of a sale *)

Section Distribute.
Context (ctx : Ctx) (id price rb : Z).
Hypothesis Hp : 0 ≤ price.
Hypothesis Hr : 0 ≤ rb.

Lemma split_step_Ok spl i acc s1 acc' s2 :
  let total_royalty := (Int price * Int rb / BASIS_POINTS)%teal in
  (Submit (pay (Extract (Val spl) (i * 40) 32)
             (total_royalty * ExtractUint32 (Val spl) (i * 40 + 32) / BASIS_POINTS)%teal) ctx
   ≫= λ _, eval (Int acc + total_royalty * ExtractUint32 (Val spl) (i * 40 + 32)
                   / BASIS_POINTS)%teal) s1 = Ok acc' s2 →
  let a := (price * rb / 10000) * SPL.share_bps spl i / 10000 in
  s2 = add_itxn (Payment (SPL.address spl i) a) s1 ∧ acc' = acc + a ∧
  accepts ctx (Payment (SPL.address spl i) a) = true ∧
  (i * 40 + 36 ≤ length spl)%nat ∧
  price * rb ≤ uint64_max ∧
  (price * rb / 10000) * SPL.share_bps spl i ≤ uint64_max ∧
  acc + a ≤ uint64_max.
Proof using Hp Hr.
  intros tr H a. inv_ok H. subst tr.
  apply pay_Val in Hrun as (r & amt & Hr1 & Ha & ->).
  apply Extract_inv in Hr1 as [Hl1 ->].
  destruct (ExtractUint32 (Val spl) (i * 40 + 32)) as [sh|] eqn:Hsh; cycle 1.
  { cbn in Ha. case_decide; cbn in Ha; done. }
  apply ExtractUint32_inv in Hsh as [Hl2 ->].
  cbn in Ha, H.
  destruct (decide (price * rb ≤ uint64_max)); cbn in Ha, H; [|done].
  fold (SPL.share_bps spl i) in *.
  destruct (decide (_ * SPL.share_bps spl i ≤ uint64_max)); cbn in Ha, H; [|done].
  case_decide; [|done]. vals. subst. repeat split; try done. lia.
Qed.

Lemma split_step_run spl i acc s1 :
  let a := (price * rb / 10000) * SPL.share_bps spl i / 10000 in
  (i * 40 + 36 ≤ length spl)%nat →
  price * rb ≤ uint64_max →
  (price * rb / 10000) * SPL.share_bps spl i ≤ uint64_max →
  acc + a ≤ uint64_max →
  accepts ctx (Payment (SPL.address spl i) a) = true →
  let total_royalty := (Int price * Int rb / BASIS_POINTS)%teal in
  (Submit (pay (Extract (Val spl) (i * 40) 32)
             (total_royalty * ExtractUint32 (Val spl) (i * 40 + 32) / BASIS_POINTS)%teal) ctx
   ≫= λ _, eval (Int acc + total_royalty * ExtractUint32 (Val spl) (i * 40 + 32)
                   / BASIS_POINTS)%teal) s1
  = Ok (acc + a) (add_itxn (Payment (SPL.address spl i) a) s1).
Proof using Hp Hr.
  intros a Hl H1 H2 H3 Hacc tr. subst tr. run.
  rewrite ?Extract_Val, ?ExtractUint32_Val by lia. cbn.
  rewrite (decide_True (P := price * rb ≤ uint64_max)) by done. cbn.
  fold (SPL.share_bps spl i) (SPL.address spl i).
  rewrite (decide_True (P := _ * SPL.share_bps spl i ≤ uint64_max)) by done. cbn.
  rewrite Submit_run by done.
  rewrite decide_True by done. done.
Qed.

Lemma share_nonneg spl i : 0 ≤ (price * rb / 10000) * SPL.share_bps spl i / 10000.
Proof using Hp Hr.
  pose proof (u32_at_range spl (i * 40 + 32)) as Hs. unfold SPL.share_bps.
  apply Z.div_pos; [|lia]. apply Z.mul_nonneg_nonneg; [|lia].
  apply Z.div_pos; lia.
Qed.

Context (s : State).

Lemma distribute_royalties_Ok s' :
  distribute_royalties ctx id price rb s = Ok () s' →
  distribute_ok ctx s id price rb ∧ s' = distribute_post s id price rb.
Proof using Hp Hr.
  intros H. unfold distribute_royalties in H. inv_ok H.
  apply set_total_royalties_paid_Ok in H as (v & Hv & ->).
  unfold distribute_ok, distribute_post, distribute_txns.
  remember (price * rb / 10000) as T eqn:HTdef.
  set (fee := price * 250 / 10000).
  assert (price * rb ≤ uint64_max) as Hpr.
  { cbn in Hv. destruct (decide (price * rb ≤ uint64_max)); [done|]. cbn in Hv. done. }
  assert ((Int price * Int rb / BASIS_POINTS)%teal = Val T) as HT.
  { cbn. rewrite decide_True by done. by subst T. }
  rewrite HT in Hv, Hrun1.
  cbn in Hrun. destruct (decide (price * 250 ≤ uint64_max)) as [Hfee|]; cbn in Hrun; [|done].
  vals. subst x1. fold fee in Hacc.
  set (splits := splits_of (boxes s !! box_key "SPL" id) T).
  assert ((∀ spl, boxes s !! box_key "SPL" id = Some spl →
            (156 ≤ length spl)%nat ∧
            Forall (λ i, T * SPL.share_bps spl i ≤ uint64_max) [0; 1; 2; 3]%nat) ∧
          payments_total splits ≤ uint64_max ∧
          x0 = payments_total splits ∧
          Forall (λ t, accepts ctx t = true) splits ∧
          x2 = set_itxns (λ l, l ++ splits) (add_itxn (Payment (muse_treasury s) fee) s))
    as (Hspl & Htot & -> & Haccs & ->).
  { subst splits. apply If_Ok in Hrun0 as [[Hc Hloop]|[Hc Hret]].
    - has_box Hc spl Hspl. cbn [splits_of].
      cbn [For_] in Hloop.
      apply bind_Ok in Hloop as (a0 & s0 & (-> & -> & ? & ? & ? & ? & ?)%split_step_Ok & Hloop).
      apply bind_Ok in Hloop as (a1 & s1 & (-> & -> & ? & ? & ? & ? & ?)%split_step_Ok & Hloop).
      apply bind_Ok in Hloop as (a2 & s2 & (-> & -> & ? & ? & ? & ? & ?)%split_step_Ok & Hloop).
      apply bind_Ok in Hloop as (a3 & s3 & (-> & -> & ? & ? & ? & ? & ?)%split_step_Ok & Hloop).
      injection Hloop as <- <-. rewrite <-HTdef in *.
      split. { intros ? [= <-]. split; [lia|]. by repeat constructor. }
      unfold split_payments. cbn [map].
      split; [cbn; lia|]. split; [cbn; lia|]. split. { repeat constructor. all: assumption. }
      unfold set_itxns, add_itxn, split_payments; cbn. rewrite <-!app_assoc; reflexivity.
    - apply hasValue_false in Hc. rewrite Hc. cbn [splits_of].
      injection Hret as <- <-. split; [done|]. split; [cbn; unfold uint64_max; lia|].
      repeat split; [done|].
      unfold set_itxns, add_itxn; cbn. rewrite app_nil_r; reflexivity. }
  set (rem := remainder_of (boxes s !! box_key "NFT" id) T (payments_total splits)).
  assert ((T > payments_total splits →
             ∃ nft, boxes s !! box_key "NFT" id = Some nft ∧ (96 ≤ length nft)%nat) ∧
          Forall (λ t, accepts ctx t = true) rem ∧
          x4 = set_itxns (λ l, l ++ rem)
                 (set_itxns (λ l, l ++ splits) (add_itxn (Payment (muse_treasury s) fee) s)))
    as (Hrem & Haccr & ->).
  { subst rem. unfold remainder_of.
    apply When_Ok in Hrun1 as [[Hc Hsub]|[Hc ->]]; cbn in Hc; vals.
    - inv_ok Hsub.
      apply pay_Val in Hsub as (r & a & Hr1 & Ha & ->).
      destruct (boxes s !! box_key "NFT" id) as [nft|] eqn:Hnft; cycle 1.
      { rewrite value_None in Hr1. rewrite Extract_oob in Hr1 by (simpl; lia). done. }
      rewrite value_Some in Hr1. apply Extract_inv in Hr1 as [? ->].
      cbn in Ha. rewrite decide_True in Ha by lia. vals. subst a.
      rewrite decide_True by done.
      split; [eauto|]. split; [by repeat constructor|done].
    - rewrite decide_False by done. split; [done|]. split; [done|].
      unfold set_itxns, add_itxn; cbn. rewrite app_nil_r; reflexivity. }
  cbn in Hv. destruct (decide (total_royalties_paid s + T ≤ uint64_max)); [|done].
  vals. subst v.
  split.
  - repeat (split; [done|]). split; [|done].
    constructor; [done|]. by apply Forall_app.
  - unfold set_itxns, add_itxn; cbn. rewrite <-!app_assoc; reflexivity.
Qed.

Lemma distribute_royalties_run :
  distribute_ok ctx s id price rb →
  distribute_royalties ctx id price rb s = Ok () (distribute_post s id price rb).
Proof using Hp Hr.
  unfold distribute_ok, distribute_post, distribute_txns.
  remember (price * rb / 10000) as T eqn:HTdef.
  set (fee := price * 250 / 10000).
  set (splits := splits_of (boxes s !! box_key "SPL" id) T).
  set (rem := remainder_of (boxes s !! box_key "NFT" id) T (payments_total splits)).
  intros (Hpr & Hfee & Hspl & Htot & Hrem & Hacc & Htrp).
  apply Forall_cons in Hacc as [Hacc0 [Haccs Haccr]%Forall_app].
  assert ((Int price * Int rb / BASIS_POINTS)%teal = Val T) as HT.
  { cbn. rewrite decide_True by done. by subst T. }
  unfold distribute_royalties. run. rewrite HT.
  assert (pay (Val (muse_treasury s)) (Int price * MUSE_FEE_BPS / BASIS_POINTS)%teal
          = Val (Payment (muse_treasury s) fee)) as ->.
  { cbn. by rewrite decide_True by done. }
  rewrite Submit_run by done. run.
  assert (If (hasValue (boxes s !! box_key "SPL" id))
            (For_ 0 4 (λ i paid_to_splits,
               Submit (pay (Extract (value (boxes s !! box_key "SPL" id)) (i * 40) 32)
                         (Val T * ExtractUint32 (value (boxes s !! box_key "SPL" id))
                                    (i * 40 + 32) / BASIS_POINTS)%teal) ctx
               ≫= λ _, eval (Int paid_to_splits +
                       Val T * ExtractUint32 (value (boxes s !! box_key "SPL" id))
                                    (i * 40 + 32) / BASIS_POINTS)%teal) 0)
            (mret 0) (add_itxn (Payment (muse_treasury s) fee) s)
          = Ok (payments_total splits)
              (set_itxns (λ l, l ++ splits) (add_itxn (Payment (muse_treasury s) fee) s)))
    as ->.
  { subst splits. destruct (boxes s !! box_key "SPL" id) as [spl|] eqn:Hb; run.
    - destruct (Hspl spl eq_refl) as [Hl Hshares].
      cbn [splits_of] in *. unfold split_payments in *. cbn [map] in *.
      rewrite <-HT. cbn [For_].
      pose proof (share_nonneg spl 0). pose proof (share_nonneg spl 1).
      pose proof (share_nonneg spl 2). pose proof (share_nonneg spl 3).
      rewrite <-HTdef in *. cbn in Htot.
      repeat match goal with H : Forall _ (_ :: _) |- _ => apply Forall_cons in H as [? H] end.
      rewrite run_bind, split_step_run by (rewrite <-?HTdef; done || lia).
      rewrite run_bind, split_step_run by (rewrite <-?HTdef; done || lia).
      rewrite run_bind, split_step_run by (rewrite <-?HTdef; done || lia).
      rewrite run_bind, split_step_run by (rewrite <-?HTdef; done || lia).
      rewrite <-HTdef. cbn. f_equal; [lia|].
      unfold set_itxns, add_itxn; cbn. rewrite <-!app_assoc; reflexivity.
    - cbn. unfold set_itxns, add_itxn; cbn. rewrite app_nil_r; reflexivity. }
  run.
  assert (When (Val T > Int (payments_total splits))%teal
            (Submit (pay (Extract (value (boxes s !! box_key "NFT" id)) 64 32)
                       (Val T - Int (payments_total splits))%teal) ctx)
            (set_itxns (λ l, l ++ splits) (add_itxn (Payment (muse_treasury s) fee) s))
          = Ok () (set_itxns (λ l, l ++ rem)
                (set_itxns (λ l, l ++ splits) (add_itxn (Payment (muse_treasury s) fee) s))))
    as ->.
  { subst rem. unfold remainder_of in *. cbn. case_decide.
    - rewrite bool_decide_eq_true_2 by done. run.
      destruct Hrem as (nft & Hnft & Hl); [done|]. rewrite Hnft in *. run. cbn.
      rewrite decide_True by lia. cbn. fold (NFT.creator nft).
      apply Submit_run. by inversion Haccr.
    - rewrite bool_decide_eq_false_2 by done. run.
      unfold set_itxns, add_itxn; cbn. rewrite app_nil_r; reflexivity. }
  run. cbn. rewrite decide_True by done. cbn.
  rewrite set_total_royalties_paid_run. cbn. rewrite <-!app_assoc; reflexivity.
Qed.
End Distribute.

(** ** Fixed-price purchase *)

Lemma When_Assert_run (c1 c2 : bool) msg s :
  (c1 = true → c2 = true) → When (Val c1) (Assert (Val c2) msg) s = Ok () s.
Proof. destruct c1, c2; intros H; try done. by specialize (H eq_refl). Qed.

Section Buy.
Context (ctx : Ctx) (id : Z) (p : PaymentTransaction) (s : State).

Lemma buy_nft_Ok s' :
  buy_nft ctx id p s = Ok () s' →
  ∃ b rb, buy_ok ctx s id p b rb ∧ s' = buy_post ctx s id b rb.
Proof.
  intros H. unfold buy_nft in H. inv_ok H.
  has_box Hrun b Hb. exists b.
  apply pay_Val in Hrun9 as (r & a & [Hl ->]%Extract_inv & Ha & ->).
  fold (NFT.creator b) in *.
  autorewrite with run in *.
  fold (NFT.price b) (NFT.flags b) (NFT.transfers b) in *.
  pose proof (u64_at_range b 8) as Hprice. fold (NFT.price b) in Hprice.
  cbn in Hrun0, Hrun1, Hrun2, Hrun4, Hrun5, Ha, Hrun10. vals. subst a x16.
  assert (x4 = s ∧ (flag_set (NFT.flags b) IS_RWA → flag_set (NFT.flags b) RWA_AUTH))
    as [-> Hrwa].
  { apply When_Ok in Hrun3 as [[Hc Ha]|[Hc ->]]; cbn in Hc; vals.
    - inv_ok Ha. cbn in Ha. vals. done.
    - split; [done|]. intros ?. done. }
  rewrite (current_royalty_bps_eq _ _ _ b) in Hrun6 by (done || lia).
  apply eval_Ok in Hrun6 as [Hroy ->]. rename x7 into rb. exists rb.
  pose proof (royalty_of_nonneg _ _ _ Hroy) as Hrb.
  assert ((rb > 0 → distribute_ok ctx s id (NFT.price b) rb) ∧
          x10 = (if decide (rb > 0) then distribute_post s id (NFT.price b) rb else s))
    as [Hdist ->].
  { apply When_Ok in Hrun7 as [[Hc Hd]|[Hc ->]]; cbn in Hc; vals.
    - rewrite decide_True by done. run_in Hd. destruct x9.
      apply distribute_royalties_Ok in Hd as [? ->]; [done|lia..].
    - rewrite decide_False by done. done. }
  cbn in Hrun8.
  destruct (decide (NFT.price b * rb ≤ uint64_max)); cbn in Hrun8; [|done].
  destruct (decide (NFT.price b * rb / 10000 ≤ NFT.price b)); cbn in Hrun8; [|done].
  destruct (decide (NFT.price b * 250 ≤ uint64_max)); cbn in Hrun8; [|done].
  destruct (decide (NFT.price b * 250 / 10000 ≤ _)); cbn in Hrun8; [|done].
  vals. subst x11.
  cbn in Hrun11.
  destruct (decide (NFT.transfers b + 1 ≤ uint64_max)); cbn in Hrun11; [|done].
  vals. subst x18.
  assert (x19 = b) as ->.
  { case_decide; cbn in Hbox; rewrite Hb in Hbox; by injection Hbox. }
  apply set_total_volume_Ok in H as (v & Hv & ->).
  assert (v = total_volume s + NFT.price b ∧ total_volume s + NFT.price b ≤ uint64_max)
    as [-> Hvol].
  { case_decide; cbn in Hv; case_decide; cbn in Hv; vals; done. }
  split.
  - unfold buy_ok, buy_guards, sale_ok, sale_txns, flag_set in *.
    split_and!; try (done || lia); try (intros Hn; apply Hn; assumption).
    apply Forall_app. split.
    + case_decide; [|done]. by destruct Hdist as (_ & _ & _ & _ & _ & ? & _).
    + repeat constructor; assumption.
  - unfold buy_post, sale_txns, distribute_post, set_boxes, add_itxn.
    case_decide; cbn; f_equal; try lia;
      rewrite <-?app_assoc; cbn; rewrite <-?app_assoc; reflexivity.
Qed.

Lemma buy_nft_run b rb :
  buy_ok ctx s id p b rb →
  buy_nft ctx id p s = Ok () (buy_post ctx s id b rb).
Proof.
  intros (Hb & Hl & (Hprice & Hauc & Hred & Hrwa & Hrcv & Hamt) & Hroy &
          (Hdist & Hpr & Hfee & HT & Hnet & Hacc) & Htr & Hvol).
  pose proof (royalty_of_nonneg _ _ _ Hroy) as Hrb.
  unfold flag_set, IN_AUCTION, RWA_REDEEMED, IS_RWA, RWA_AUTH in *.
  unfold buy_nft. run. rewrite Hb. run. cbn.
  fold (NFT.price b) (NFT.flags b) (NFT.transfers b) (NFT.creator b).
  rewrite bool_decide_eq_true_2 by done. run.
  rewrite (bool_decide_eq_true_2 (Z.land _ 16 = 0)) by (by apply dec_stable). run.
  rewrite (bool_decide_eq_true_2 (Z.land _ 4 = 0)) by (by apply dec_stable). run.
  cbn.
  rewrite When_Assert_run; cycle 1.
  { intros ?%bool_decide_eq_true_1. apply bool_decide_eq_true_2. auto. }
  run. rewrite bool_decide_eq_true_2 by done. run.
  rewrite bool_decide_eq_true_2 by done. run.
  rewrite (current_royalty_bps_eq _ _ _ b) by (done || lia). rewrite Hroy. run.
  unfold sale_txns in Hacc.
  apply Forall_app in Hacc as [_ Hacc].
  apply Forall_cons in Hacc as [Hacc1 Hacc2]. apply Forall_cons in Hacc2 as [Hacc2 _].
  unfold buy_post, sale_txns.
  destruct (decide (rb > 0)) as [Hpos|Hpos]; cbn.
  - rewrite bool_decide_eq_true_2 by done. run.
    rewrite distribute_royalties_run by (lia || auto). run.
    rewrite (decide_True (P := NFT.price b * rb ≤ uint64_max)) by done. cbn.
    rewrite (decide_True (P := _ ≤ NFT.price b)) by done. cbn.
    rewrite (decide_True (P := NFT.price b * 250 ≤ uint64_max)) by done. cbn.
    rewrite (decide_True (P := NFT.price b * 250 / 10000 ≤ _)) by done. cbn.
    run. rewrite Submit_run by done. run. rewrite Submit_run by done. run.
    rewrite (decide_True (P := NFT.transfers b + 1 ≤ uint64_max)) by done. cbn.
    erewrite BoxReplace_run; [|exact Hb|rewrite length_itob; lia]. run.
    cbn. rewrite decide_True by done. cbn.
    rewrite set_total_volume_run.
    unfold distribute_post, set_boxes, add_itxn. cbn. do 2 f_equal.
    rewrite <-?app_assoc; cbn; rewrite <-?app_assoc; reflexivity.
  - rewrite bool_decide_eq_false_2 by done. run.
    rewrite (decide_True (P := NFT.price b * rb ≤ uint64_max)) by done. cbn.
    rewrite (decide_True (P := _ ≤ NFT.price b)) by done. cbn.
    rewrite (decide_True (P := NFT.price b * 250 ≤ uint64_max)) by done. cbn.
    rewrite (decide_True (P := NFT.price b * 250 / 10000 ≤ _)) by done. cbn.
    run. rewrite Submit_run by done. run. rewrite Submit_run by done. run.
    rewrite (decide_True (P := NFT.transfers b + 1 ≤ uint64_max)) by done. cbn.
    erewrite BoxReplace_run; [|exact Hb|rewrite length_itob; lia]. run.
    cbn. rewrite decide_True by done. cbn.
    rewrite set_total_volume_run.
    unfold set_boxes, add_itxn. cbn. do 2 f_equal; [lia|].
    rewrite <-?app_assoc; cbn; rewrite <-?app_assoc; reflexivity.
Qed.
End Buy.

(** ** Bids *)

Section Bid.
Context (ctx : Ctx) (id : Z) (p : PaymentTransaction) (s s' : State).

Lemma place_bid_Ok :
  place_bid ctx id p s = Ok () s' →
  length (sender ctx) = 32%nat →
  ∃ b, boxes s !! box_key "AUC" id = Some b ∧ (56 ≤ length b)%nat ∧
    round ctx < AUC.end_round b ∧
    AUC.highest_bid b < amount p ∧
    receiver p = current_application_address ctx ∧
    Forall (λ t, accepts ctx t = true) (refund_of b) ∧
    (AUC.end_round b - round ctx < 75 → AUC.end_round b + 75 ≤ uint64_max) ∧
    s' = set_boxes (insert (box_key "AUC" id) (place_bid_box ctx p b))
           (set_itxns (λ l, l ++ refund_of b) s).
Proof.
  intros H Hs. unfold place_bid in H. inv_ok H.
  has_box Hrun b Hb. exists b. split; [done|].
  destruct (decide (56 ≤ length b)%nat) as [Hl|Hl]; cycle 1.
  { apply When_Ok in Hrun3 as [[Hc _]|[Hc _]];
      rewrite Extract_oob in Hc by lia; done. }
  autorewrite with run in *. cbn in Hrun0, Hrun1, Hrun2, Hrun4, Hrun5. vals. subst.
  fold (AUC.end_round b) (AUC.highest_bid b) (AUC.highest_bidder b) in *.
  assert (x4 = set_itxns (λ l, l ++ refund_of b) s ∧
          Forall (λ t, accepts ctx t = true) (refund_of b)) as [-> Hacc'].
  { unfold refund_of. apply When_Ok in Hrun3 as [[Hc Hsub]|[Hc ->]]; cbn in Hc; vals.
    - rewrite decide_True by done. inv_ok Hsub. cbn in Hsub. vals. subst.
      split; [done|]. by constructor.
    - rewrite decide_False by done. split; [|done].
      destruct s; unfold set_itxns; cbn. by rewrite app_nil_r. }
  cbn in Hbox. rewrite Hb in Hbox. injection Hbox as <-.
  cbn in Hbox0. rewrite lookup_insert_eq in Hbox0. injection Hbox0 as <-.
  rewrite length_itob in Hlen.
  repeat (split; [done || lia|]).
  unfold place_bid_box.
  apply When_Ok in H as [[Hc Hrep]|[Hc ->]]; cbn in Hc.
  - rewrite decide_True in Hc by lia. cbn in Hc. vals.
    rewrite decide_True by done. inv_ok Hrep. cbn in Hrep.
    case_decide; cbn in Hrep; vals. subst. split; [done|].
    cbn in Hbox. rewrite lookup_insert_eq in Hbox. injection Hbox as <-.
    unfold set_boxes, set_itxns; cbn. by rewrite !insert_insert_eq.
  - rewrite decide_True in Hc by lia. cbn in Hc. vals.
    rewrite decide_False by done. split; [done|].
    unfold set_boxes, set_itxns; cbn. by rewrite !insert_insert_eq.
Qed.

Lemma place_bid_run b :
  boxes s !! box_key "AUC" id = Some b →
  (56 ≤ length b)%nat →
  length (sender ctx) = 32%nat →
  round ctx < AUC.end_round b →
  AUC.highest_bid b < amount p →
  receiver p = current_application_address ctx →
  Forall (λ t, accepts ctx t = true) (refund_of b) →
  (AUC.end_round b - round ctx < 75 → AUC.end_round b + 75 ≤ uint64_max) →
  place_bid ctx id p s =
    Ok () (set_boxes (insert (box_key "AUC" id) (place_bid_box ctx p b))
             (set_itxns (λ l, l ++ refund_of b) s)).
Proof.
  intros Hb Hl Hs Hround Hbid Hrcv Hacc Hext.
  unfold place_bid. run. rewrite Hb. run. cbn.
  fold (AUC.end_round b) (AUC.highest_bid b) (AUC.highest_bidder b).
  rewrite bool_decide_eq_true_2 by done. run.
  rewrite bool_decide_eq_true_2 by lia. run.
  rewrite bool_decide_eq_true_2 by done. run. cbn.
  assert (When (Val (bool_decide (AUC.highest_bidder b ≠ zero_address)))
            (Submit (Val (Payment (AUC.highest_bidder b) (AUC.highest_bid b))) ctx) s
          = Ok () (set_itxns (λ l, l ++ refund_of b) s)) as ->.
  { unfold refund_of in *. case_decide.
    - rewrite bool_decide_eq_true_2 by done. run.
      apply Submit_run. by inversion Hacc.
    - rewrite bool_decide_eq_false_2 by (intros Hn; contradiction). run.
      destruct s; unfold set_itxns; cbn. by rewrite app_nil_r. }
  run.
  assert (length (patch b 16 (itob (amount p))) = length b) as Hl1
    by (apply length_patch; rewrite length_itob; lia).
  assert (length (patch (patch b 16 (itob (amount p))) 24 (sender ctx)) = length b) as Hl2
    by (rewrite length_patch; lia).
  erewrite BoxReplace_run; [|exact Hb|rewrite length_itob; lia]. run.
  erewrite BoxReplace_run; [|cbn; apply lookup_insert_eq|lia].
  rewrite decide_True by lia. cbn.
  unfold place_bid_box. destruct (decide (AUC.end_round b - round ctx < 75)).
  - rewrite bool_decide_eq_true_2 by done. run.
    rewrite decide_True by auto. cbn.
    erewrite BoxReplace_run; [|cbn; apply lookup_insert_eq|rewrite length_itob; lia].
    unfold set_boxes, set_itxns; cbn. by rewrite !insert_insert_eq.
  - rewrite bool_decide_eq_false_2 by done. run.
    unfold set_boxes, set_itxns; cbn. by rewrite !insert_insert_eq.
Qed.
End Bid.

(** ** Settlement *)

Section Settle.
Context (ctx : Ctx) (id : Z) (s : State).

Lemma settle_auction_Ok s' :
  settle_auction ctx id s = Ok () s' →
  ∃ auc nft,
    boxes s !! box_key "AUC" id = Some auc ∧
    boxes s !! box_key "NFT" id = Some nft ∧
    (56 ≤ length auc)%nat ∧ (64 ≤ length nft)%nat ∧
    AUC.end_round auc ≤ round ctx ∧
    1 ≤ live_auctions s ∧
    if decide (AUC.highest_bidder auc = zero_address)
    then (88 ≤ length auc)%nat ∧
         accepts ctx (AssetTransfer id None (AUC.seller auc) 1) = true ∧
         s' = settle_returned s id auc nft
    else ∃ rb, (88 ≤ length auc)%nat ∧
         royalty_of ctx nft = Val rb ∧
         sale_ok ctx s id (AUC.highest_bid auc) rb (AUC.seller auc) (AUC.highest_bidder auc) ∧
         NFT.transfers nft + 1 ≤ uint64_max ∧
         total_volume s + AUC.highest_bid auc ≤ uint64_max ∧
         s' = settle_sold s id auc nft rb.
Proof.
  intros H. unfold settle_auction in H. inv_ok H.
  has_box Hrun auc Hauc. exists auc.
  apply set_live_auctions_Ok in H as (v & Hv & ->). subst x7.
  destruct (boxes s !! box_key "NFT" id) as [nft|] eqn:Hnft; cycle 1.
  { rewrite value_None, ExtractUint64_oob in Hrun2 by (simpl; lia). done. }
  exists nft. rewrite value_Some in *.
  destruct (decide (64 ≤ length nft)%nat) as [Hl|Hl]; cycle 1.
  { rewrite ExtractUint64_oob in Hrun2 by lia. done. }
  destruct (decide (56 ≤ length auc)%nat) as [Hla|Hla]; cycle 1.
  { apply If_Ok in Hrun1 as [[Hc _]|[Hc _]]; rewrite Extract_oob in Hc by lia; done. }
  autorewrite with run in *.
  fold (AUC.end_round auc) (AUC.highest_bid auc) (AUC.highest_bidder auc)
       (NFT.flags nft) (NFT.transfers nft) in *.
  cbn in Hrun0, Hrun2. vals. subst x5.
  fold (without_in_auction (NFT.flags nft)) in *.
  do 4 (split; [done || lia|]). split; [lia|].
  apply If_Ok in Hrun1 as [[Hc Hr]|[Hc Hr]]; cbn in Hc; vals.
  - rewrite decide_True by done.
    inv_ok Hr. apply Ex_bind_Val in Hr as (r & [Hls ->]%Extract_inv & Hr). vals. subst.
    fold (AUC.seller auc) in *.
    cbn in Hbox. rewrite Hnft in Hbox. injection Hbox as <-.
    cbn in Hv. case_decide; cbn in Hv; [|done]. vals. subst v.
    split_and!; [done|lia|done|]. reflexivity.
  - rewrite decide_False by done.
    inv_ok Hr.
    rewrite (current_royalty_bps_eq ctx id s nft Hnft Hl) in Hrun.
    apply eval_Ok in Hrun as [Hroy ->].
    match type of Hroy with _ = Val ?r => rename r into rb end.
    pose proof (royalty_of_nonneg _ _ _ Hroy) as Hrb.
    pose proof (u64_at_range auc 16) as Hbid. fold (AUC.highest_bid auc) in Hbid.
    apply pay_Val in Hrun2 as (r & a & [Hls ->]%Extract_inv & Ha & ->).
    cbn in Hrun3. vals. subst.
    fold (AUC.seller auc) (AUC.highest_bidder auc) in *.
    assert ((rb > 0 → distribute_ok ctx s id (AUC.highest_bid auc) rb) ∧
            x8 = (if decide (rb > 0)
                  then distribute_post s id (AUC.highest_bid auc) rb else s))
      as [Hdist ->].
    { apply When_Ok in Hrun1 as [[Hc' Hd]|[Hc' ->]]; cbn in Hc'; vals.
      - rewrite decide_True by done. run_in Hd. destruct x7.
        apply distribute_royalties_Ok in Hd as [? ->]; [done|lia..].
      - rewrite decide_False by done. done. }
    cbn in Ha.
    destruct (decide (AUC.highest_bid auc * rb ≤ uint64_max)); cbn in Ha; [|done].
    destruct (decide (AUC.highest_bid auc * rb / 10000 ≤ AUC.highest_bid auc));
      cbn in Ha; [|done].
    destruct (decide (AUC.highest_bid auc * 250 ≤ uint64_max)); cbn in Ha; [|done].
    destruct (decide (AUC.highest_bid auc * 250 / 10000 ≤ _)); cbn in Ha; [|done].
    vals. subst.
    cbn in Hrun4.
    destruct (decide (NFT.transfers nft + 1 ≤ uint64_max)); cbn in Hrun4; [|done].
    vals. subst.
    match goal with H : boxes _ !! box_key "NFT" id = Some ?y |- _ =>
      assert (y = nft) as -> by
        (case_decide; cbn in H; rewrite Hnft in H; by injection H) end.
    apply set_total_volume_Ok in Hr as (tv & Htv & ->).
    assert (tv = total_volume s + AUC.highest_bid auc ∧
            total_volume s + AUC.highest_bid auc ≤ uint64_max) as [-> Hvol].
    { case_decide; cbn in Htv; case_decide; cbn in Htv; vals; done. }
    cbn in Hbox. rewrite lookup_insert_eq in Hbox. injection Hbox as <-.
    cbn in Hv. destruct (decide (1 ≤ _)) as [Hlive|]; cbn in Hv; [|done]. vals. subst v.
    cbn in Hlive.
    split; [by case_decide|]. exists rb.
    split_and!; try (done || lia).
    + unfold sale_ok, sale_txns. split_and!; try (done || lia).
      apply Forall_app. split.
      * case_decide; [|done]. by destruct Hdist as (_ & _ & _ & _ & _ & ? & _).
      * repeat constructor; assumption.
    + lazy [boxes muse_treasury total_volume total_royalties_paid nft_count
            live_auctions itxns set_boxes add_itxn set_itxns settle_sold
            distribute_post sale_txns].
      case_decide; lazy beta iota; f_equal; try lia;
        rewrite ?insert_insert_eq; try reflexivity;
        rewrite <-?app_assoc; cbn [app]; rewrite <-?app_assoc; reflexivity.
Qed.
End Settle.

Section BidBox.
Context (ctx : Ctx) (p : PaymentTransaction) (b : bytes).
Hypothesis Hl : (56 ≤ length b)%nat.
Hypothesis Hs : length (sender ctx) = 32%nat.
Hypothesis Ha : 0 ≤ amount p < 2 ^ 64.

Lemma length_bid_written : length (patch b 16 (itob (amount p))) = length b.
Proof using All. apply length_patch. rewrite length_itob. lia. Qed.

Lemma length_bidder_written :
  length (patch (patch b 16 (itob (amount p))) 24 (sender ctx)) = length b.
Proof using All. rewrite length_patch; rewrite length_bid_written; lia. Qed.

Lemma length_place_bid_box : length (place_bid_box ctx p b) = length b.
Proof using All.
  unfold place_bid_box. case_decide; [|apply length_bidder_written].
  rewrite length_patch; rewrite ?length_itob, length_bidder_written; lia.
Qed.

Lemma place_bid_box_highest_bid : AUC.highest_bid (place_bid_box ctx p b) = amount p.
Proof using All.
  pose proof length_bid_written. pose proof length_bidder_written.
  unfold place_bid_box, AUC.highest_bid.
  assert (u64_at (patch (patch b 16 (itob (amount p))) 24 (sender ctx)) 16 = amount p) as E.
  { rewrite u64_at_patch_ne by lia. apply u64_at_patch_eq; lia. }
  case_decide; [|done].
  rewrite u64_at_patch_ne; [done|rewrite length_itob; lia..].
Qed.

Lemma place_bid_box_highest_bidder : AUC.highest_bidder (place_bid_box ctx p b) = sender ctx.
Proof using All.
  pose proof length_bid_written. pose proof length_bidder_written.
  unfold place_bid_box, AUC.highest_bidder.
  assert (bytes_at (patch (patch b 16 (itob (amount p))) 24 (sender ctx)) 24 32
          = sender ctx) as E.
  { pose proof (bytes_at_patch_eq (patch b 16 (itob (amount p))) 24 (sender ctx)) as E.
    rewrite Hs in E. apply E. lia. }
  case_decide; [|done].
  rewrite bytes_at_patch_ne; [done|rewrite length_itob; lia..].
Qed.

Lemma place_bid_box_seller : AUC.seller (place_bid_box ctx p b) = AUC.seller b.
Proof using All.
  pose proof length_bid_written. pose proof length_bidder_written.
  unfold place_bid_box, AUC.seller.
  assert (bytes_at (patch (patch b 16 (itob (amount p))) 24 (sender ctx)) 56 32
          = bytes_at b 56 32) as E.
  { rewrite !bytes_at_patch_ne; [done|rewrite ?length_itob; lia..]. }
  case_decide; [|done].
  rewrite bytes_at_patch_ne; [done|rewrite length_itob; lia..].
Qed.

Lemma place_bid_box_first_slot : AUC.first_slot (place_bid_box ctx p b) = AUC.first_slot b.
Proof using All.
  pose proof length_bid_written. pose proof length_bidder_written.
  unfold place_bid_box, AUC.first_slot.
  assert (u64_at (patch (patch b 16 (itob (amount p))) 24 (sender ctx)) 0 = u64_at b 0) as E.
  { rewrite !u64_at_patch_ne; [done|rewrite ?length_itob; lia..]. }
  case_decide; [|done].
  rewrite u64_at_patch_ne; [done|rewrite length_itob; lia..].
Qed.

Lemma place_bid_box_end_round :
  (AUC.end_round b - round ctx < 75 → AUC.end_round b + 75 ≤ uint64_max) →
  AUC.end_round (place_bid_box ctx p b) =
    if decide (AUC.end_round b - round ctx < 75)
    then AUC.end_round b + 75 else AUC.end_round b.
Proof using All.
  intros Hext. pose proof length_bid_written. pose proof length_bidder_written.
  pose proof (u64_at_range b 8) as Hr. fold (AUC.end_round b) in Hr.
  unfold place_bid_box. case_decide.
  - unfold AUC.end_round at 1. apply u64_at_patch_eq; [lia|].
    specialize (Hext ltac:(done)). unfold uint64_max in *. lia.
  - unfold AUC.end_round at 1.
    rewrite !u64_at_patch_ne; [done|rewrite ?length_itob; lia..].
Qed.
End BidBox.

Lemma Assert_Val (c : bool) msg s :
  Assert (Val c) msg s = if c then Ok () s else Fail (assert_failed msg) s.
Proof. by destruct c. Qed.

Lemma Assert_Raise e msg s : Assert (Raise e) msg s = Fail e s.
Proof. reflexivity. Qed.

(** a guard that is decided either way: go on when it holds, stop when
    it fails *)
Ltac decide_guard P :=
  destruct (decide P);
  [ rewrite (bool_decide_eq_true_2 P) by done; run
  | rewrite (bool_decide_eq_false_2 P) by done; run; eauto ].

Section Bids.
Context (ctx : Ctx) (id : Z) (p : PaymentTransaction) (s : State) (auc : bytes).
Hypothesis Hauc : boxes s !! box_key "AUC" id = Some auc.

Lemma place_bid_refund_rejected :
  AUC.highest_bidder auc ≠ zero_address →
  accepts ctx (Payment (AUC.highest_bidder auc) (AUC.highest_bid auc)) = false →
  ∃ e, place_bid ctx id p s = Fail e s.
Proof using All.
  intros Hprev Hrej. unfold place_bid. run. rewrite Hauc. run.
  destruct (decide (16 ≤ length auc)%nat) as [Hl1|Hl1]; cycle 1.
  { rewrite (ExtractUint64_oob _ 8) by lia. cbn. eauto. }
  run. cbn. decide_guard (round ctx < u64_at auc 8).
  destruct (decide (24 ≤ length auc)%nat) as [Hl2|Hl2]; cycle 1.
  { rewrite (ExtractUint64_oob _ 16) by lia. cbn. eauto. }
  run. cbn. decide_guard (amount p > u64_at auc 16).
  decide_guard (receiver p = current_application_address ctx).
  destruct (decide (56 ≤ length auc)%nat) as [Hl|Hl]; cycle 1.
  { rewrite Extract_oob by lia. cbn. eauto. }
  run. cbn. fold (AUC.highest_bidder auc) (AUC.highest_bid auc).
  rewrite bool_decide_eq_true_2 by done. run.
  rewrite Submit_rejected by done. eauto.
Qed.

Hypothesis Hs : length (sender ctx) = 32%nat.
Hypothesis Ha : 0 ≤ amount p < 2 ^ 64.

Lemma place_bid_Ok_fields s' :
  place_bid ctx id p s = Ok () s' →
  ∃ auc',
    boxes s' !! box_key "AUC" id = Some auc' ∧
    AUC.highest_bid auc' = amount p ∧
    AUC.highest_bidder auc' = sender ctx ∧
    AUC.seller auc' = AUC.seller auc ∧
    AUC.first_slot auc' = AUC.first_slot auc ∧
    AUC.end_round auc' =
      (if decide (AUC.end_round auc - round ctx < 75)
       then AUC.end_round auc + 75 else AUC.end_round auc) ∧
    length auc' = length auc ∧
    itxns s' = itxns s ++ refund_of auc ∧
    AUC.highest_bid auc < amount p ∧
    round ctx < AUC.end_round auc ∧
    (∀ k, k ≠ box_key "AUC" id → boxes s' !! k = boxes s !! k) ∧
    muse_treasury s' = muse_treasury s ∧ total_volume s' = total_volume s ∧
    total_royalties_paid s' = total_royalties_paid s ∧ nft_count s' = nft_count s ∧
    live_auctions s' = live_auctions s.
Proof using All.
  intros H.
  apply place_bid_Ok in H as (auc0 & Hb & Hl & Hround & Hbid & Hrcv & Hacc & Hext & ->);
    [|done].
  rewrite Hauc in Hb. injection Hb as <-.
  exists (place_bid_box ctx p auc). cbn. rewrite lookup_insert_eq.
  split_and!; try done.
  - by apply place_bid_box_highest_bid.
  - by apply place_bid_box_highest_bidder.
  - by apply place_bid_box_seller.
  - by apply place_bid_box_first_slot.
  - by apply place_bid_box_end_round.
  - by apply length_place_bid_box.
  - intros k Hk. by rewrite lookup_insert_ne.
Qed.
End Bids.

Lemma late_bids_extend who app id n : ∀ s auc,
  boxes s !! box_key "AUC" id = Some auc →
  (56 ≤ length auc)%nat →
  length who = 32%nat →
  0 < AUC.end_round auc →
  AUC.end_round auc + 75 * Z.of_nat n ≤ uint64_max →
  AUC.highest_bid auc + Z.of_nat n ≤ uint64_max →
  ∃ s' auc',
    late_bids who app id n s = Ok () s' ∧
    boxes s' !! box_key "AUC" id = Some auc' ∧
    AUC.end_round auc' = AUC.end_round auc + 75 * Z.of_nat n.
Proof.
  induction n as [|n IH]; intros s auc Hauc Hl Hw Hpos Hend Hbid.
  - exists s, auc. cbn. split_and!; [done..|lia].
  - cbn [late_bids]. rewrite Hauc.
    pose proof (u64_at_range auc 8) as Hr. fold (AUC.end_round auc) in Hr.
    pose proof (u64_at_range auc 16) as Hb. fold (AUC.highest_bid auc) in Hb.
    set (ctx := mkCtx who (AUC.end_round auc - 1) app who 0 (λ _, true)).
    set (p := mkPay app (AUC.highest_bid auc + 1)).
    assert (0 ≤ amount p < 2 ^ 64) as Ha by (cbn; unfold uint64_max in *; lia).
    rewrite (place_bid_run ctx id p s auc); cbn; try (done || lia); cycle 1.
    { unfold refund_of. case_decide; by repeat constructor. }
    destruct (IH (set_boxes (insert (box_key "AUC" id) (place_bid_box ctx p auc))
                    (set_itxns (λ l, l ++ refund_of auc) s))
                 (place_bid_box ctx p auc)) as (s' & auc' & Hrun & Hbox & Hend').
    + cbn. apply lookup_insert_eq.
    + by rewrite length_place_bid_box.
    + done.
    + rewrite place_bid_box_end_round by (done || (cbn; lia)).
      cbn. rewrite decide_True by lia. lia.
    + rewrite place_bid_box_end_round by (done || (cbn; lia)).
      cbn. rewrite decide_True by lia. lia.
    + rewrite place_bid_box_highest_bid by done. cbn. lia.
    + exists s', auc'. split_and!; [done..|].
      rewrite Hend'. rewrite place_bid_box_end_round by (done || (cbn; lia)).
      cbn. rewrite decide_True by lia. lia.
Qed.

(** C5: a successful bid on an auction that has a highest bidder submits
    exactly one inner payment, the previous highest bid to the previous
    highest bidder, and records the new bid; when the host does not let
    that refund through the call fails with nothing applied; the state the
    host commits is the old one or has both the refund and the new bid. *)
Theorem place_bid_refunds_previous_bidder ctx id p s auc :
  boxes s !! box_key "AUC" id = Some auc →
  AUC.highest_bidder auc ≠ zero_address →
  length (sender ctx) = 32%nat →
  0 ≤ amount p < 2 ^ 64 →
  let refund := Payment (AUC.highest_bidder auc) (AUC.highest_bid auc) in
  let applied (s' : State) :=
    itxns s' = itxns s ++ [refund] ∧
    ∃ auc', boxes s' !! box_key "AUC" id = Some auc' ∧
            AUC.highest_bid auc' = amount p ∧
            AUC.highest_bidder auc' = sender ctx in
  (∀ s', place_bid ctx id p s = Ok () s' → applied s') ∧
  (accepts ctx refund = false → ∃ e, place_bid ctx id p s = Fail e s) ∧
  (commit s (place_bid ctx id p s) = s ∨ applied (commit s (place_bid ctx id p s))).
Proof.
  intros Hauc Hprev Hs Ha refund applied.
  assert (∀ s', place_bid ctx id p s = Ok () s' → applied s') as Hok.
  { intros s' H.
    destruct (place_bid_Ok_fields ctx id p s auc Hauc Hs Ha s' H)
      as (auc' & Hbox & Hbid & Hbidder & _ & _ & _ & _ & Htx & _).
    unfold refund_of in Htx. rewrite decide_True in Htx by done.
    split; [done|]. eauto. }
  split_and!; [done| |].
  - intros Hrej. by eapply place_bid_refund_rejected.
  - destruct (place_bid ctx id p s) as [[] s'|e s'] eqn:E; cbn; [|by left].
    right. by apply Hok.
Qed.

(** C6: an accepted bid that arrives with [end_round - now < 75] moves
    [end_round] to [end_round + 75], any other accepted bid leaves it as it
    is; the check is made again on every bid: [n] late bids in a row move
    the end by [75 * n], for every [n] the 64-bit round counter has room
    for. *)
Theorem place_bid_anti_snipe :
  (∀ ctx id p s s' auc,
     boxes s !! box_key "AUC" id = Some auc →
     length (sender ctx) = 32%nat →
     0 ≤ amount p < 2 ^ 64 →
     place_bid ctx id p s = Ok () s' →
     ∃ auc', boxes s' !! box_key "AUC" id = Some auc' ∧
       AUC.end_round auc' =
         if decide (AUC.end_round auc - round ctx < 75)
         then AUC.end_round auc + 75
         else AUC.end_round auc) ∧
  (∀ who app id n s auc,
     boxes s !! box_key "AUC" id = Some auc →
     (56 ≤ length auc)%nat →
     length who = 32%nat →
     0 < AUC.end_round auc →
     AUC.end_round auc + 75 * Z.of_nat n ≤ uint64_max →
     AUC.highest_bid auc + Z.of_nat n ≤ uint64_max →
     ∃ s' auc',
       late_bids who app id n s = Ok () s' ∧
       boxes s' !! box_key "AUC" id = Some auc' ∧
       AUC.end_round auc' = AUC.end_round auc + 75 * Z.of_nat n).
Proof.
  split.
  - intros ctx id p s s' auc Hauc Hs Ha H.
    destruct (place_bid_Ok_fields ctx id p s auc Hauc Hs Ha s' H)
      as (auc' & Hbox & _ & _ & _ & _ & Hend & _).
    eauto.
  - intros. by apply late_bids_extend.
Qed.

(** ** The guards of a purchase *)

Section BuyGuards.
Context (ctx : Ctx) (id : Z) (p : PaymentTransaction) (s : State).

Lemma buy_nft_no_record :
  boxes s !! box_key "NFT" id = None →
  buy_nft ctx id p s = Fail (assert_failed "NFT does not exist") s.
Proof. intros Hb. unfold buy_nft. run. rewrite Hb. by run. Qed.

Context (b : bytes).
Hypothesis Hb : boxes s !! box_key "NFT" id = Some b.

(** with a record shorter than its fields the call fails as well *)
Lemma buy_nft_short_record :
  ¬ (64 ≤ length b)%nat → ∃ e, buy_nft ctx id p s = Fail e s.
Proof using All.
  intros Hl. unfold buy_nft. run. rewrite Hb. run.
  destruct (decide (16 ≤ length b)%nat) as [Hl1|Hl1]; cycle 1.
  { rewrite (ExtractUint64_oob _ 8) by lia. cbn. eauto. }
  run. cbn. decide_guard (u64_at b 8 > 0).
  rewrite (ExtractUint64_oob _ 56) by lia. cbn. eauto.
Qed.

Hypothesis Hl : (64 ≤ length b)%nat.

Lemma buy_nft_auction_only :
  NFT.price b = 0 →
  buy_nft ctx id p s = Fail (assert_failed "NFT is auction-only") s.
Proof using All.
  intros Hp. unfold buy_nft. run. rewrite Hb. run. cbn.
  fold (NFT.price b). rewrite bool_decide_eq_false_2 by lia. by run.
Qed.

Lemma buy_nft_in_auction :
  NFT.price b ≠ 0 → flag_set (NFT.flags b) IN_AUCTION →
  buy_nft ctx id p s = Fail (assert_failed "NFT is currently in auction") s.
Proof using All.
  intros Hp Hf. unfold buy_nft. run. rewrite Hb. run. cbn.
  pose proof (u64_at_range b 8). fold (NFT.price b) (NFT.flags b) in *.
  rewrite bool_decide_eq_true_2 by lia. run.
  rewrite (bool_decide_eq_false_2 (Z.land _ 16 = 0)) by done. by run.
Qed.

Lemma buy_nft_redeemed :
  NFT.price b ≠ 0 → ¬ flag_set (NFT.flags b) IN_AUCTION →
  flag_set (NFT.flags b) RWA_REDEEMED →
  buy_nft ctx id p s = Fail (assert_failed "RWA has been physically redeemed") s.
Proof using All.
  intros Hp Ha Hf. unfold buy_nft. run. rewrite Hb. run. cbn.
  pose proof (u64_at_range b 8). fold (NFT.price b) (NFT.flags b) in *.
  rewrite bool_decide_eq_true_2 by lia. run.
  rewrite (bool_decide_eq_true_2 (Z.land _ 16 = 0)) by (by apply dec_stable). run.
  rewrite (bool_decide_eq_false_2 (Z.land _ 4 = 0)) by done. by run.
Qed.

Lemma buy_nft_not_authenticated :
  NFT.price b ≠ 0 → ¬ flag_set (NFT.flags b) IN_AUCTION →
  ¬ flag_set (NFT.flags b) RWA_REDEEMED →
  flag_set (NFT.flags b) IS_RWA → ¬ flag_set (NFT.flags b) RWA_AUTH →
  buy_nft ctx id p s = Fail (assert_failed "RWA not yet authenticated") s.
Proof using All.
  intros Hp Ha Hr Hf Hn. unfold buy_nft. run. rewrite Hb. run. cbn.
  pose proof (u64_at_range b 8). fold (NFT.price b) (NFT.flags b) in *.
  rewrite bool_decide_eq_true_2 by lia. run.
  rewrite (bool_decide_eq_true_2 (Z.land _ 16 = 0)) by (by apply dec_stable). run.
  rewrite (bool_decide_eq_true_2 (Z.land _ 4 = 0)) by (by apply dec_stable). run.
  rewrite (bool_decide_eq_true_2 (Z.land _ 1 ≠ 0)) by done. run.
  rewrite (bool_decide_eq_false_2 (Z.land _ 2 ≠ 0)) by done. by run.
Qed.

Lemma buy_nft_wrong_amount :
  NFT.price b ≠ 0 → ¬ flag_set (NFT.flags b) IN_AUCTION →
  ¬ flag_set (NFT.flags b) RWA_REDEEMED →
  (flag_set (NFT.flags b) IS_RWA → flag_set (NFT.flags b) RWA_AUTH) →
  amount p ≠ NFT.price b →
  buy_nft ctx id p s =
    Fail (assert_failed (if decide (receiver p = current_application_address ctx)
                         then "Incorrect payment amount" else "")) s.
Proof using All.
  intros Hp Ha Hr Hf Hn. unfold buy_nft. run. rewrite Hb. run. cbn.
  pose proof (u64_at_range b 8). fold (NFT.price b) (NFT.flags b) in *.
  rewrite bool_decide_eq_true_2 by lia. run.
  rewrite (bool_decide_eq_true_2 (Z.land _ 16 = 0)) by (by apply dec_stable). run.
  rewrite (bool_decide_eq_true_2 (Z.land _ 4 = 0)) by (by apply dec_stable). run.
  rewrite When_Assert_run; cycle 1.
  { intros ?%bool_decide_eq_true_1. apply bool_decide_eq_true_2. by apply Hf. }
  run. destruct (decide (receiver p = current_application_address ctx)).
  - rewrite (bool_decide_eq_true_2 (receiver p = _)) by done. run.
    rewrite (bool_decide_eq_false_2 (amount p = _)) by done. by run.
  - rewrite (bool_decide_eq_false_2 (receiver p = _)) by done. by run.
Qed.
End BuyGuards.

(** C7: [buy_nft] fails, in the state it was called in (no box written, no
    inner transaction submitted), when the record is missing, the price is
    zero, the asset is in auction, redeemed, an unauthenticated RWA, or the
    payment differs from the price; the guards are tried in this order, the
    first one that fails gives the error. *)
Theorem buy_nft_guards_fail ctx id p s :
  let result := buy_nft ctx id p s in
  let box := boxes s !! box_key "NFT" id in
  (box = None ∨
   (∃ b, box = Some b ∧
      (NFT.price b = 0 ∨ flag_set (NFT.flags b) IN_AUCTION ∨
       flag_set (NFT.flags b) RWA_REDEEMED ∨
       (flag_set (NFT.flags b) IS_RWA ∧ ¬ flag_set (NFT.flags b) RWA_AUTH) ∨
       amount p ≠ NFT.price b)) →
   ∃ e, result = Fail e s) ∧
  (box = None → result = Fail (assert_failed "NFT does not exist") s) ∧
  (∀ b, box = Some b → (64 ≤ length b)%nat →
     (NFT.price b = 0 → result = Fail (assert_failed "NFT is auction-only") s) ∧
     (NFT.price b ≠ 0 → flag_set (NFT.flags b) IN_AUCTION →
        result = Fail (assert_failed "NFT is currently in auction") s) ∧
     (NFT.price b ≠ 0 → ¬ flag_set (NFT.flags b) IN_AUCTION →
        flag_set (NFT.flags b) RWA_REDEEMED →
        result = Fail (assert_failed "RWA has been physically redeemed") s) ∧
     (NFT.price b ≠ 0 → ¬ flag_set (NFT.flags b) IN_AUCTION →
        ¬ flag_set (NFT.flags b) RWA_REDEEMED →
        flag_set (NFT.flags b) IS_RWA → ¬ flag_set (NFT.flags b) RWA_AUTH →
        result = Fail (assert_failed "RWA not yet authenticated") s) ∧
     (NFT.price b ≠ 0 → ¬ flag_set (NFT.flags b) IN_AUCTION →
        ¬ flag_set (NFT.flags b) RWA_REDEEMED →
        (flag_set (NFT.flags b) IS_RWA → flag_set (NFT.flags b) RWA_AUTH) →
        receiver p = current_application_address ctx →
        amount p ≠ NFT.price b →
        result = Fail (assert_failed "Incorrect payment amount") s)).
Proof.
  intros result box. subst result box. split_and!.
  - intros [Hnone|(b & Hb & Hcase)].
    { eexists. by apply buy_nft_no_record. }
    destruct (decide (64 ≤ length b)%nat) as [Hl|Hl]; cycle 1.
    { by eapply buy_nft_short_record. }
    destruct (decide (NFT.price b = 0)).
    { eexists. by eapply buy_nft_auction_only. }
    destruct (decide (flag_set (NFT.flags b) IN_AUCTION)).
    { eexists. by eapply buy_nft_in_auction. }
    destruct (decide (flag_set (NFT.flags b) RWA_REDEEMED)).
    { eexists. by eapply buy_nft_redeemed. }
    destruct (decide (flag_set (NFT.flags b) IS_RWA ∧ ¬ flag_set (NFT.flags b) RWA_AUTH))
      as [[Hrwa Hauth]|Hrwa].
    { eexists. by eapply buy_nft_not_authenticated. }
    assert (amount p ≠ NFT.price b) as Hamt
      by (destruct Hcase as [?|[?|[?|[?|?]]]]; done).
    eexists. eapply buy_nft_wrong_amount; try done.
    intros ?. apply dec_stable. intros ?. by apply Hrwa.
  - apply buy_nft_no_record.
  - intros b Hb Hl. split_and!.
    + by apply buy_nft_auction_only.
    + by apply buy_nft_in_auction.
    + by apply buy_nft_redeemed.
    + by apply buy_nft_not_authenticated.
    + intros. erewrite buy_nft_wrong_amount by done. by rewrite decide_True.
Qed.

(** ** The royalty over time *)

Section RoyaltyFacts.
Context (b : bytes).
Hypothesis Hw : ¬ flag_set (NFT.flags b) ROYALTY_WAIVED.
Hypothesis Hfr : NFT.floor_bps b ≤ NFT.royalty_bps b.

(** where the computation returns, the result is the decay formula *)
Lemma royalty_of_decay ctx v :
  0 < NFT.decay_start b ≤ round ctx →
  royalty_of ctx b = Val v →
  v = Z.max (NFT.royalty_bps b
             - (NFT.royalty_bps b - NFT.floor_bps b)
               * ((round ctx - NFT.decay_start b) / 777600) / 100)
            (NFT.floor_bps b).
Proof using All.
  intros Hd. unfold royalty_of.
  rewrite decide_False by done. rewrite decide_False by lia.
  rewrite decide_False by lia. rewrite decide_True by done.
  repeat case_decide; intros [= <-]; done.
Qed.

(** it returns as long as the decayed part does not exceed the royalty *)
Lemma royalty_of_decay_returns ctx :
  0 < NFT.decay_start b ≤ round ctx →
  round ctx ≤ uint64_max →
  NFT.royalty_bps b ≤ 2000 →
  (NFT.royalty_bps b - NFT.floor_bps b)
    * ((round ctx - NFT.decay_start b) / 777600) / 100 ≤ NFT.royalty_bps b →
  ∃ v, royalty_of ctx b = Val v.
Proof using All.
  intros Hd Hr Hmax Hq. unfold royalty_of.
  rewrite decide_False by done. rewrite decide_False by lia.
  rewrite decide_False by lia. rewrite decide_True by done.
  pose proof (u64_at_range b 24) as Hf. fold (NFT.floor_bps b) in Hf.
  assert (0 ≤ (round ctx - NFT.decay_start b) / 777600) as Hm
    by (apply Z.div_pos; lia).
  pose proof (Z.mul_div_le (round ctx - NFT.decay_start b) 777600 ltac:(lia)) as Hm'.
  rewrite decide_True by (unfold uint64_max in *; nia).
  rewrite decide_True by done. eauto.
Qed.

(** and it fails when the decayed part exceeds the royalty *)
Lemma royalty_of_decay_underflow ctx :
  0 < NFT.decay_start b ≤ round ctx →
  NFT.royalty_bps b
    < (NFT.royalty_bps b - NFT.floor_bps b)
      * ((round ctx - NFT.decay_start b) / 777600) / 100 →
  ∃ e, royalty_of ctx b = Raise e.
Proof using All.
  intros Hd Hq. unfold royalty_of.
  rewrite decide_False by done. rewrite decide_False by lia.
  rewrite decide_False by lia. rewrite decide_True by done.
  case_decide; [|eauto]. rewrite decide_False by lia. eauto.
Qed.

Lemma royalty_of_floor ctx v :
  royalty_of ctx b = Val v → NFT.floor_bps b ≤ v.
Proof using All.
  unfold royalty_of. rewrite decide_False by done.
  repeat case_decide; intros [= <-]; lia.
Qed.

Lemma royalty_of_le ctx v :
  royalty_of ctx b = Val v → v ≤ NFT.royalty_bps b.
Proof using All.
  unfold royalty_of. rewrite decide_False by done.
  pose proof (u64_at_range b 16) as Hr. fold (NFT.royalty_bps b) in Hr.
  repeat case_decide; intros [= <-]; try lia.
  assert (0 ≤ (NFT.royalty_bps b - NFT.floor_bps b)
              * ((round ctx - NFT.decay_start b) / 777600) / 100).
  { apply Z.div_pos; [|lia]. apply Z.mul_nonneg_nonneg; [lia|].
    apply Z.div_pos; lia. }
  lia.
Qed.

Lemma royalty_of_monotone ctx1 ctx2 v1 v2 :
  round ctx1 ≤ round ctx2 →
  royalty_of ctx1 b = Val v1 →
  royalty_of ctx2 b = Val v2 →
  v2 ≤ v1.
Proof using All.
  intros Hle H1 H2.
  pose proof (royalty_of_le _ _ H2) as Hv2.
  revert H1. unfold royalty_of. rewrite decide_False by done.
  case_decide; [by intros [= <-]|].
  case_decide; [by intros [= <-]|].
  intros H1.
  assert (0 < NFT.decay_start b ≤ round ctx1) as Hd1.
  { pose proof (u64_at_range b 32) as Hds. fold (NFT.decay_start b) in Hds. lia. }
  assert (royalty_of ctx1 b = Val v1) as H1'.
  { unfold royalty_of. rewrite decide_False by done. by rewrite !decide_False by lia. }
  rewrite (royalty_of_decay ctx1 v1) by done.
  rewrite (royalty_of_decay ctx2 v2) by (done || lia).
  assert ((round ctx1 - NFT.decay_start b) / 777600
          ≤ (round ctx2 - NFT.decay_start b) / 777600)
    by (apply Z.div_le_mono; lia).
  assert ((NFT.royalty_bps b - NFT.floor_bps b)
            * ((round ctx1 - NFT.decay_start b) / 777600) / 100
          ≤ (NFT.royalty_bps b - NFT.floor_bps b)
            * ((round ctx2 - NFT.decay_start b) / 777600) / 100)
    by (apply Z.div_le_mono; [lia|]; apply Z.mul_le_mono_nonneg_l; lia).
  lia.
Qed.
End RoyaltyFacts.

Lemma royalty_of_waived ctx b :
  flag_set (NFT.flags b) ROYALTY_WAIVED → royalty_of ctx b = Val 0.
Proof. intros H. unfold royalty_of. by rewrite decide_True. Qed.

Lemma royalty_of_no_decay ctx b :
  ¬ flag_set (NFT.flags b) ROYALTY_WAIVED →
  NFT.decay_start b = 0 ∨ round ctx < NFT.decay_start b →
  royalty_of ctx b = Val (NFT.royalty_bps b).
Proof.
  intros Hw Hd. unfold royalty_of. rewrite decide_False by done.
  case_decide; [done|]. rewrite decide_True by (destruct Hd; done). done.
Qed.


(** C2 (the code differs): on the record Example.minted in [Example.minted]
    (royalty 1000, floor 500, decay start 1010, not waived) and at round
    [1010 + 201 * 777600] the specified formula gives the floor, 500;
    [current_royalty_bps] does not return: the subtraction
    [royalty - (royalty - floor) * 201 / 100] underflows and fails the call. *)
Theorem current_royalty_bps_late_decay_underflows :
  ∃ b, boxes Example.minted !! box_key "NFT" 7 = Some b ∧
    ¬ flag_set (NFT.flags b) ROYALTY_WAIVED ∧
    NFT.royalty_bps b = 1000 ∧ NFT.floor_bps b = 500 ∧ NFT.decay_start b = 1010 ∧
    NFT.decay_start b ≤ Example.round_201 ∧
    Z.max (NFT.royalty_bps b
           - (NFT.royalty_bps b - NFT.floor_bps b)
             * ((Example.round_201 - NFT.decay_start b) / 777600) / 100)
          (NFT.floor_bps b) = 500 ∧
    current_royalty_bps (Example.call Example.bob Example.round_201 0) 7 Example.minted
    = Fail underflow Example.minted.
Proof.
  eexists. split; [vm_compute; reflexivity|].
  split; [by vm_compute|]. repeat split; by vm_compute.
Qed.

(** C4 (the code differs): on the same record the royalty at round
    [1010 + 50 * 777600] is 750, and at the later round
    [1010 + 201 * 777600] the computation fails, so that there is no royalty
    at or above the floor there. *)
Theorem current_royalty_bps_fails_after_decay :
  ∃ b, boxes Example.minted !! box_key "NFT" 7 = Some b ∧
    ¬ flag_set (NFT.flags b) ROYALTY_WAIVED ∧
    0 < NFT.decay_start b ∧
    NFT.floor_bps b ≤ NFT.royalty_bps b ≤ 2000 ∧
    Example.round_50 ≤ Example.round_201 ∧
    current_royalty_bps (Example.call Example.bob Example.round_50 0) 7 Example.minted
    = Ok 750 Example.minted ∧
    current_royalty_bps (Example.call Example.bob Example.round_201 0) 7 Example.minted
    = Fail underflow Example.minted.
Proof.
  eexists. split; [vm_compute; reflexivity|].
  split; [by vm_compute|]. repeat split; by vm_compute.
Qed.

(** C3 (the code differs): the auction opened in [Example.auctioning] has
    reserve 100 and no bid; a bid of 50 is accepted and recorded. *)
Theorem place_bid_below_reserve_accepted :
  ∃ auc s' auc',
    boxes Example.auctioning !! box_key "AUC" 7 = Some auc ∧
    AUC.first_slot auc = 100 ∧ AUC.highest_bid auc = 0 ∧
    AUC.highest_bidder auc = zero_address ∧
    place_bid (Example.call Example.bob 30 0) 7 (mkPay Example.app 50) Example.auctioning
    = Ok () s' ∧
    boxes s' !! box_key "AUC" 7 = Some auc' ∧
    AUC.highest_bid auc' = 50 ∧ AUC.highest_bidder auc' = Example.bob.
Proof.
  eexists _, _, _. split; [vm_compute; reflexivity|].
  do 3 (split; [by vm_compute|]).
  split; [vm_compute; reflexivity|].
  split; [vm_compute; reflexivity|].
  split; by vm_compute.
Qed.

(** ** Flag bits and patched records *)

Lemma land_range f m : 0 ≤ f < 2 ^ 64 → 0 ≤ Z.land f m < 2 ^ 64.
Proof.
  intros Hf. rewrite <-(Z.mod_small f (2 ^ 64)) by lia.
  rewrite <-Z.land_ones by lia.
  rewrite <-Z.land_assoc, (Z.land_comm (Z.ones 64) m), Z.land_assoc, Z.land_ones by lia.
  apply Z.mod_pos_bound. lia.
Qed.

Lemma lor_range f m : 0 ≤ f < 2 ^ 64 → 0 ≤ m < 2 ^ 64 → 0 ≤ Z.lor f m < 2 ^ 64.
Proof.
  intros Hf Hm. rewrite <-(Z.mod_small f (2 ^ 64)), <-(Z.mod_small m (2 ^ 64)) by lia.
  rewrite <-!Z.land_ones by lia. rewrite <-Z.land_lor_distr_l, Z.land_ones by lia.
  apply Z.mod_pos_bound. lia.
Qed.

Lemma flag_set_lor f x m : flag_set f m → flag_set (Z.lor f x) m.
Proof.
  unfold flag_set. intros H. rewrite Z.land_lor_distr_l.
  intros [? _]%Z.lor_eq_0_iff. done.
Qed.

Lemma land_without_in_auction f m :
  Z.land m 16 = 0 → 0 ≤ m < 2 ^ 64 → Z.land (without_in_auction f) m = Z.land f m.
Proof.
  intros Hm Hr. unfold without_in_auction. rewrite <-Z.land_assoc. f_equal.
  change (Z.lxor 16 uint64_max) with (Z.lxor 16 (Z.ones 64)).
  rewrite Z.land_comm. rewrite <-(Z.land_ones_low m 64) at 2; cycle 1.
  { lia. } { destruct (decide (m = 0)) as [->|]; [done|]. apply Z.log2_lt_pow2; lia. }
  apply Z.bits_inj'. intros k Hk.
  rewrite !Z.land_spec, Z.lxor_spec.
  destruct (Z.testbit m k) eqn:Em; [|done]. cbn.
  assert (Z.testbit 16 k = false) as ->; [|by destruct (Z.testbit (Z.ones 64) k)].
  assert (Z.testbit (Z.land m 16) k = false) as Hb by (rewrite Hm; apply Z.bits_0).
  rewrite Z.land_spec, Em in Hb. done.
Qed.

Lemma without_in_auction_clear f : ¬ flag_set (without_in_auction f) IN_AUCTION.
Proof.
  unfold flag_set, without_in_auction. intros H. apply H.
  rewrite <-Z.land_assoc. change (Z.land (Z.lxor 16 uint64_max) IN_AUCTION) with 0.
  apply Z.land_0_r.
Qed.

Lemma take_patch b off d : (off ≤ length b)%nat → take off (patch b off d) = take off b.
Proof.
  intros H. unfold patch. rewrite take_app_le by (rewrite length_take; lia).
  rewrite take_take. f_equal. lia.
Qed.

Lemma drop_patch b off d :
  (off + length d ≤ length b)%nat →
  drop (off + length d) (patch b off d) = drop (off + length d) b.
Proof.
  intros H. unfold patch. rewrite app_assoc.
  rewrite drop_app_ge by (rewrite length_app, length_take; lia).
  rewrite length_app, length_take.
  replace (off + length d - (off `min` length b + length d))%nat with 0%nat by lia.
  reflexivity.
Qed.

(** ** The payments of a sale *)

Lemma payments_total_app l1 l2 :
  payments_total (l1 ++ l2) = payments_total l1 + payments_total l2.
Proof. unfold payments_total. induction l1 as [|t l1 IH]; cbn; [done|]. rewrite IH. lia. Qed.

Lemma payments_total_paid l : payments_total l = sumZ (map paid l).
Proof. unfold payments_total, sumZ. induction l as [|t l IH]; cbn; [done|]. by rewrite IH. Qed.

Lemma paid_splits_of spl T : map paid (splits_of spl T) = share_amounts spl T.
Proof. destruct spl as [b|]; reflexivity. Qed.

Lemma share_bps_of_nonneg spl : Forall (λ a, 0 ≤ a) (share_bps_of spl).
Proof.
  destruct spl as [b|]; cbn; [|constructor].
  repeat constructor; apply u32_at_range.
Qed.

(** truncated shares of [T] along basis points that sum to at most
    [10000] sum to at most [T] *)
Lemma sum_shares_le T l :
  0 ≤ T → Forall (λ a, 0 ≤ a) l → sumZ l ≤ 10000 →
  10000 * sumZ (map (λ bps, T * bps / 10000) l) ≤ T * sumZ l.
Proof.
  intros HT Hl _. unfold sumZ. induction Hl as [|a l Ha Hl IH]; cbn [map foldr]; [lia|].
  pose proof (Z.mul_div_le (T * a) 10000 eq_refl). lia.
Qed.

Lemma share_amounts_le spl T :
  0 ≤ T → sumZ (share_bps_of spl) ≤ 10000 → sumZ (share_amounts spl T) ≤ T.
Proof.
  intros HT Hs. pose proof (sum_shares_le T _ HT (share_bps_of_nonneg spl) Hs) as H.
  unfold share_amounts. nia.
Qed.

Lemma share_amounts_nonneg spl T : 0 ≤ T → Forall (λ a, 0 ≤ a) (share_amounts spl T).
Proof.
  intros HT. unfold share_amounts. apply Forall_map.
  eapply Forall_impl; [apply share_bps_of_nonneg|]. cbn. intros a Ha.
  apply Z.div_pos; [|lia]. by apply Z.mul_nonneg_nonneg.
Qed.

Lemma sale_txns_settled ctx s s' id price rb nft seller buyer :
  boxes s !! box_key "NFT" id = Some nft →
  0 ≤ price → rb > 0 →
  sale_ok ctx s id price rb seller buyer →
  sumZ (share_bps_of (boxes s !! box_key "SPL" id)) ≤ 10000 →
  itxns s' = itxns s ++ sale_txns s id price rb seller buyer →
  settled_exactly s s' id price rb (NFT.creator nft) seller buyer.
Proof.
  intros Hnft Hp Hrb (_ & _ & _ & HT & Hnet & _) Hsum Htx.
  unfold settled_exactly.
  set (spl := boxes s !! box_key "SPL" id) in *.
  set (T := price * rb / 10000) in *.
  assert (0 ≤ T) as HT0 by (apply Z.div_pos; nia).
  pose proof (share_amounts_le spl T HT0 Hsum) as Hle.
  assert (0 ≤ price * 250 / 10000) as Hfee by (apply Z.div_pos; lia).
  eexists. split; [exact Htx|].
  assert (sale_txns s id price rb seller buyer =
          [Payment (muse_treasury s) (price * 250 / 10000)] ++ splits_of spl T ++
          (if decide (T - sumZ (share_amounts spl T) > 0)
           then [Payment (NFT.creator nft) (T - sumZ (share_amounts spl T))] else []) ++
          [Payment seller (price - T - price * 250 / 10000);
           AssetTransfer id None buyer 1]) as ->.
  { unfold sale_txns, distribute_txns, remainder_of. rewrite decide_True by done.
    fold spl T. rewrite Hnft, payments_total_paid, paid_splits_of. cbn [default].
    destruct (decide (T > sumZ (share_amounts spl T)));
      [rewrite decide_True by lia|rewrite decide_False by lia];
      rewrite <-?app_assoc; reflexivity. }
  split; [reflexivity|]. split; [apply paid_splits_of|].
  split; [lia|]. split; [lia|]. split; [lia|].
  split; [by apply share_amounts_nonneg|].
  assert (payments_total
            ([Payment (muse_treasury s) (price * 250 / 10000)] ++ splits_of spl T ++
             (if decide (T - sumZ (share_amounts spl T) > 0)
              then [Payment (NFT.creator nft) (T - sumZ (share_amounts spl T))] else []) ++
             [Payment seller (price - T - price * 250 / 10000);
              AssetTransfer id None buyer 1]) = price) as E.
  { rewrite !payments_total_app, (payments_total_paid (splits_of _ _)), paid_splits_of.
    case_decide; cbn; lia. }
  split; [rewrite E; lia|exact E].
Qed.

(** with a positive effective royalty the sale goes through the royalty
    distribution: with the registered shares summing to at most 10000
    basis points it pays out the platform fee, the four shares, the
    remainder to the record's creator and the seller's net amount, and
    these payments sum to the sale price *)
Lemma sale_payments_sum_to_price ctx id s s' rb nft :
  boxes s !! box_key "NFT" id = Some nft →
  current_royalty_bps ctx id s = Ok rb s →
  rb > 0 →
  sumZ (share_bps_of (boxes s !! box_key "SPL" id)) ≤ 10000 →
  (∀ p, buy_nft ctx id p s = Ok () s' →
        amount p = NFT.price nft ∧
        settled_exactly s s' id (amount p) rb (NFT.creator nft) (NFT.creator nft)
                        (sender ctx)) ∧
  (∀ auc, settle_auction ctx id s = Ok () s' →
          boxes s !! box_key "AUC" id = Some auc →
          AUC.highest_bidder auc ≠ zero_address →
          settled_exactly s s' id (AUC.highest_bid auc) rb (NFT.creator nft)
                          (AUC.seller auc) (AUC.highest_bidder auc)).
Proof.
  intros Hnft Hroy Hrb Hsum. split.
  - intros p H. apply buy_nft_Ok in H as (b & rb' & Hok & ->).
    destruct Hok as (Hb & Hl & Hg & Hr & Hsale & _ & _).
    rewrite Hnft in Hb. injection Hb as <-.
    rewrite (current_royalty_bps_eq ctx id s nft Hnft) in Hroy by lia.
    apply eval_Ok in Hroy as [Hroy _]. rewrite Hr in Hroy. injection Hroy as ->.
    destruct Hg as (Hprice & _ & _ & _ & _ & Hamt). split; [done|]. rewrite Hamt.
    eapply (sale_txns_settled ctx);
      [exact Hnft|lia|exact Hrb|exact Hsale|exact Hsum|reflexivity].
  - intros auc H Hauc Hbidder.
    apply settle_auction_Ok in H
      as (auc0 & nft0 & Hauc0 & Hnft0 & Hla & Hl & Hend & Hlive & H).
    rewrite Hauc in Hauc0. injection Hauc0 as <-.
    rewrite Hnft in Hnft0. injection Hnft0 as <-.
    rewrite decide_False in H by done.
    destruct H as (rb' & Hls & Hr & Hsale & _ & _ & ->).
    rewrite (current_royalty_bps_eq ctx id s nft Hnft) in Hroy by lia.
    apply eval_Ok in Hroy as [Hroy _]. rewrite Hr in Hroy. injection Hroy as ->.
    pose proof (u64_at_range auc 16) as Hbid. fold (AUC.highest_bid auc) in Hbid.
    eapply (sale_txns_settled ctx);
      [exact Hnft|lia|exact Hrb|exact Hsale|exact Hsum|reflexivity].
Qed.

Lemma zero_royalty_sale_txns s id price seller buyer :
  sale_txns s id price 0 seller buyer
  = [Payment seller (price - price * 250 / 10000); AssetTransfer id None buyer 1].
Proof.
  unfold sale_txns. rewrite decide_False by lia. cbn [app].
  rewrite Z.mul_0_r. change (0 / 10000) with 0. by rewrite Z.sub_0_r.
Qed.

(** C1 (the code differs): a sale whose effective royalty is 0 (a royalty
    of 0 at mint, or a waived one) does not go through
    [distribute_royalties], where the platform fee is paid.  [buy_nft] and
    [settle_auction] still deduct the fee from the seller's amount, so the
    payments of the sale are the seller's [price - price * 250 / 10000]
    alone and the fee stays with the application.  On asset 9, minted with
    royalty 0 at the price of 1000000, the purchase pays out 975000; its
    auction at 1000 pays out 975. *)
Theorem zero_royalty_sale_withholds_fee :
  (∀ ctx id p s s' b,
     buy_nft ctx id p s = Ok () s' →
     boxes s !! box_key "NFT" id = Some b →
     current_royalty_bps ctx id s = Ok 0 s →
     itxns s' = itxns s ++
       [Payment (NFT.creator b) (amount p - amount p * 250 / 10000);
        AssetTransfer id None (sender ctx) 1]) ∧
  (∀ ctx id s s' auc,
     settle_auction ctx id s = Ok () s' →
     boxes s !! box_key "AUC" id = Some auc →
     AUC.highest_bidder auc ≠ zero_address →
     current_royalty_bps ctx id s = Ok 0 s →
     itxns s' = itxns s ++
       [Payment (AUC.seller auc)
          (AUC.highest_bid auc - AUC.highest_bid auc * 250 / 10000);
        AssetTransfer id None (AUC.highest_bidder auc) 1]) ∧
  buy_nft Cases.erin_buys 9 Cases.full_price Sample.royalty_free
  = Ok () Sample.sold_royalty_free ∧
  itxns Sample.sold_royalty_free
  = itxns Sample.royalty_free ++
    [Payment Example.alice 975000; AssetTransfer 9 None Example.erin 1] ∧
  settle_auction Cases.bob_settles 9 Sample.royalty_free_bid
  = Ok () Sample.royalty_free_settled ∧
  itxns Sample.royalty_free_settled
  = itxns Sample.royalty_free_bid ++
    [Payment Example.alice 975; AssetTransfer 9 None Example.bob 1].
Proof.
  split_and!.
  - intros ctx id p s s' b H Hb Hroy.
    apply buy_nft_Ok in H as (b0 & rb & Hok & ->).
    destruct Hok as (Hb0 & Hl & Hg & Hr & _).
    rewrite Hb in Hb0. injection Hb0 as <-.
    rewrite (current_royalty_bps_eq ctx id s b Hb) in Hroy by lia.
    rewrite Hr in Hroy. apply eval_Ok in Hroy as [Hroy _].
    assert (rb = 0) as -> by congruence.
    destruct Hg as (_ & _ & _ & _ & _ & Hamt).
    cbn [itxns buy_post]. by rewrite zero_royalty_sale_txns, Hamt.
  - intros ctx id s s' auc H Hauc Hbidder Hroy.
    apply settle_auction_Ok in H
      as (auc0 & nft & Hauc0 & Hnft & _ & Hl & _ & _ & H).
    rewrite Hauc in Hauc0. injection Hauc0 as <-.
    rewrite decide_False in H by done.
    destruct H as (rb & _ & Hr & _ & _ & _ & ->).
    rewrite (current_royalty_bps_eq ctx id s nft Hnft) in Hroy by lia.
    rewrite Hr in Hroy. apply eval_Ok in Hroy as [Hroy _].
    assert (rb = 0) as -> by congruence.
    cbn [itxns settle_sold]. by rewrite zero_royalty_sale_txns.
  - vm_compute. reflexivity.
  - vm_compute. reflexivity.
  - vm_compute. reflexivity.
  - vm_compute. reflexivity.
Qed.

(** ** Buying again *)

Section Rebuy.
Context (ctx : Ctx) (id : Z) (p : PaymentTransaction) (s : State) (b : bytes) (rb : Z).
Hypothesis Hok : buy_ok ctx s id p b rb.

Lemma buy_post_record :
  boxes (buy_post ctx s id b rb) !! box_key "NFT" id
  = Some (patch b 48 (itob (NFT.transfers b + 1))).
Proof using Type. cbn. apply lookup_insert_eq. Qed.

Lemma bought_fields :
  let b' := patch b 48 (itob (NFT.transfers b + 1)) in
  length b' = length b ∧
  take 48 b' = take 48 b ∧ drop 56 b' = drop 56 b ∧
  NFT.asset_id b' = NFT.asset_id b ∧ NFT.price b' = NFT.price b ∧
  NFT.royalty_bps b' = NFT.royalty_bps b ∧ NFT.floor_bps b' = NFT.floor_bps b ∧
  NFT.decay_start b' = NFT.decay_start b ∧ NFT.buyout_price b' = NFT.buyout_price b ∧
  NFT.flags b' = NFT.flags b ∧ NFT.creator b' = NFT.creator b ∧
  NFT.transfers b' = NFT.transfers b + 1.
Proof using Hok.
  destruct Hok as (Hb & Hl & _ & _ & _ & Htr & _).
  pose proof (u64_at_range b 48) as Hr. fold (NFT.transfers b) in Hr.
  pose proof (drop_patch b 48 (itob (NFT.transfers b + 1))) as Hd.
  rewrite length_itob in Hd.
  cbn zeta. split_and!.
  - apply length_patch. rewrite length_itob. lia.
  - apply take_patch. lia.
  - apply Hd. lia.
  - apply u64_at_patch_ne; rewrite length_itob; lia.
  - apply u64_at_patch_ne; rewrite length_itob; lia.
  - apply u64_at_patch_ne; rewrite length_itob; lia.
  - apply u64_at_patch_ne; rewrite length_itob; lia.
  - apply u64_at_patch_ne; rewrite length_itob; lia.
  - apply u64_at_patch_ne; rewrite length_itob; lia.
  - apply u64_at_patch_ne; rewrite length_itob; lia.
  - apply bytes_at_patch_ne; rewrite length_itob; lia.
  - apply u64_at_patch_eq; unfold uint64_max in Htr; lia.
Qed.

Lemma bought_royalty :
  royalty_of ctx (patch b 48 (itob (NFT.transfers b + 1))) = royalty_of ctx b.
Proof using Hok.
  destruct bought_fields as (_ & _ & _ & _ & _ & Er & Ef & Ed & _ & Efl & _).
  unfold royalty_of. by rewrite Er, Ef, Ed, Efl.
Qed.

Lemma bought_distribute_txns price :
  distribute_txns (buy_post ctx s id b rb) id price rb = distribute_txns s id price rb.
Proof using Hok.
  destruct bought_fields as (_ & _ & _ & _ & _ & _ & _ & _ & _ & _ & Ec & _).
  destruct Hok as (Hb & _).
  unfold distribute_txns. rewrite buy_post_record, Hb.
  unfold remainder_of. cbn [from_option Datatypes.id]. rewrite Ec.
  assert (boxes (buy_post ctx s id b rb) !! box_key "SPL" id = boxes s !! box_key "SPL" id)
    as -> by (cbn; by rewrite lookup_insert_ne).
  reflexivity.
Qed.

Lemma bought_sale_txns price seller buyer :
  sale_txns (buy_post ctx s id b rb) id price rb seller buyer
  = sale_txns s id price rb seller buyer.
Proof using Hok. unfold sale_txns. by rewrite bought_distribute_txns. Qed.

Lemma buy_ok_again :
  NFT.transfers b + 2 ≤ uint64_max →
  total_volume s + 2 * NFT.price b ≤ uint64_max →
  total_royalties_paid s + 2 * NFT.price b ≤ uint64_max →
  buy_ok ctx (buy_post ctx s id b rb) id p (patch b 48 (itob (NFT.transfers b + 1))) rb.
Proof using Hok.
  intros Htr2 Hvol2 Hroy2.
  destruct bought_fields as (El & _ & _ & _ & Ep & _ & _ & _ & _ & Efl & Ec & Et).
  pose proof Hok as (Hb & Hl & Hg & Hr & Hsale & Htr & Hvol).
  destruct Hsale as (Hdist & Hpr & Hfee & HT & Hnet & Hacc).
  unfold buy_ok. rewrite buy_post_record, bought_royalty, El, Ep, Ec, Et.
  split; [done|]. split; [done|].
  split. { unfold buy_guards. by rewrite Ep, Efl. }
  split; [done|].
  split; [|cbn; lia].
  unfold sale_ok. rewrite bought_sale_txns. split_and!; try done.
  intros Hpos. specialize (Hdist Hpos).
  destruct Hdist as (H1 & H2 & H3 & H4 & H5 & H6 & H7).
  unfold distribute_ok. rewrite bought_distribute_txns, buy_post_record.
  assert (boxes (buy_post ctx s id b rb) !! box_key "SPL" id = boxes s !! box_key "SPL" id)
    as -> by (cbn; by rewrite lookup_insert_ne).
  split_and!; try done.
  - intros _. eexists. split; [reflexivity|]. lia.
  - cbn. rewrite decide_True by done. lia.
Qed.
End Rebuy.

Section Next.
Context (ctx : Ctx) (id : Z) (p : PaymentTransaction) (s : State) (b : bytes) (rb : Z).
Hypothesis Hok : buy_ok ctx s id p b rb.

End Next.


(** ** Every call and the asset records

    What each method writes to the record of an asset, and that it
    writes to no other; the lifecycle of an RWA follows. *)

Lemma Val_inj {A} (a b : A) : Val a = Val b → a = b.
Proof. by intros [=]. Qed.

Lemma bytes_at_app_mid pre d rest :
  bytes_at (pre ++ d ++ rest) (length pre) (length d) = d.
Proof. unfold bytes_at. rewrite drop_app_length. apply take_app_length. Qed.

Lemma u64_at_app_mid pre v rest :
  0 ≤ v < 2 ^ 64 → u64_at (pre ++ itob v ++ rest) (length pre) = v.
Proof.
  intros Hv. unfold u64_at. rewrite drop_app_length.
  rewrite <-(length_itob v) at 1. rewrite take_app_length. by apply btoi_itob.
Qed.

(** the fields of a record laid out as the auction box is *)
Lemma auction_layout (p1 p2 p3 p4 p5 rest : bytes) :
  length p1 = 8%nat → length p2 = 8%nat → length p3 = 8%nat →
  length p4 = 32%nat → length p5 = 32%nat →
  bytes_at (p1 ++ p2 ++ p3 ++ p4 ++ p5 ++ rest) 56 32 = p5 ∧
  bytes_at (p1 ++ p2 ++ p3 ++ p4 ++ p5 ++ rest) 24 32 = p4 ∧
  u64_at (p1 ++ p2 ++ p3 ++ p4 ++ p5 ++ rest) 16 = btoi p3.
Proof.
  intros H1 H2 H3 H4 H5. unfold bytes_at, u64_at. split_and!.
  - do 4 (rewrite drop_app_ge by lia). rewrite H1, H2, H3, H4. cbn [Nat.sub]. rewrite drop_0.
    by rewrite take_app_length'.
  - do 3 (rewrite drop_app_ge by lia). rewrite H1, H2, H3. cbn [Nat.sub]. rewrite drop_0.
    by rewrite take_app_length'.
  - do 2 (rewrite drop_app_ge by lia). rewrite H1, H2. cbn [Nat.sub]. rewrite drop_0.
    by rewrite take_app_length'.
Qed.

Lemma length_zero_address : length zero_address = 32%nat.
Proof. reflexivity. Qed.

Lemma box_key_tag_ne t1 t2 a1 a2 : t1 ≠ t2 → box_key t1 a1 ≠ box_key t2 a2.
Proof. unfold box_key. congruence. Qed.

Lemma box_key_id_ne t a1 a2 : a1 ≠ a2 → box_key t a1 ≠ box_key t a2.
Proof. unfold box_key. congruence. Qed.

Lemma flags_written b v :
  (64 ≤ length b)%nat → 0 ≤ v < 2 ^ 64 → NFT.flags (patch b 56 (itob v)) = v.
Proof. intros. apply u64_at_patch_eq; lia. Qed.

Lemma flags_kept b off d :
  (off + length d ≤ length b)%nat → (off + length d ≤ 56)%nat →
  NFT.flags (patch b off d) = NFT.flags b.
Proof. intros. apply u64_at_patch_ne; lia. Qed.

(** *** Calls that leave a box alone *)

Section Keeps.
Context (k : BoxKey).

Lemma keeps_bind {A B} (m : M A) (f : A → M B) :
  keeps k m → (∀ a, keeps k (f a)) → keeps k (m ≫= f).
Proof.
  intros Hm Hf s b s' (a & s1 & H1 & H2)%bind_Ok.
  rewrite (Hf _ _ _ _ H2). eauto.
Qed.

Lemma keeps_mret {A} (a : A) : keeps k (mret a).
Proof. by intros s b s' [-> ->]%mret_Ok. Qed.

Lemma keeps_eval {A} (e : Ex A) : keeps k (eval e).
Proof. by intros s b s' [_ ->]%eval_Ok. Qed.

Lemma keeps_Return {A} (e : Ex A) : keeps k (Return e).
Proof. apply keeps_eval. Qed.

Lemma keeps_get {A} (g : State → A) : keeps k (get g).
Proof. by intros s b s' [_ ->]%get_Ok. Qed.

Lemma keeps_BoxGet key : keeps k (BoxGet key).
Proof. apply keeps_get. Qed.

Lemma keeps_Assert c msg : keeps k (Assert c msg).
Proof. by intros s b s' [_ ->]%Assert_Ok. Qed.

Lemma keeps_If {A} c (m1 m2 : M A) : keeps k m1 → keeps k m2 → keeps k (If c m1 m2).
Proof. intros H1 H2 s b s' [[_ H]|[_ H]]%If_Ok; eauto. Qed.

Lemma keeps_When c m : keeps k m → keeps k (When c m).
Proof. intros H. apply keeps_If; [done|apply keeps_mret]. Qed.

Lemma keeps_Submit tx ctx : keeps k (Submit tx ctx).
Proof. by intros s b s' (t & _ & _ & ->)%Submit_Ok. Qed.

Lemma keeps_BoxReplace key off d : key ≠ k → keeps k (BoxReplace key off d).
Proof.
  intros Hk s b s' (d' & b' & _ & _ & _ & ->)%BoxReplace_Ok. cbn.
  by rewrite lookup_insert_ne.
Qed.

Lemma keeps_BoxCreate key n : key ≠ k → keeps k (BoxCreate key n).
Proof.
  intros Hk s b s' [[_ ->]|[_ ->]]%BoxCreate_Ok; [done|]. cbn.
  by rewrite lookup_insert_ne.
Qed.

Lemma keeps_BoxDelete key : key ≠ k → keeps k (BoxDelete key).
Proof.
  intros Hk s [] s' H. rewrite BoxDelete_run in H. injection H as <-. cbn.
  by rewrite lookup_delete_ne.
Qed.

Lemma keeps_set_muse_treasury e : keeps k (set_muse_treasury e).
Proof. by intros s b s' (v & _ & ->)%set_muse_treasury_Ok. Qed.

Lemma keeps_set_total_volume e : keeps k (set_total_volume e).
Proof. by intros s b s' (v & _ & ->)%set_total_volume_Ok. Qed.

Lemma keeps_set_total_royalties_paid e : keeps k (set_total_royalties_paid e).
Proof. by intros s b s' (v & _ & ->)%set_total_royalties_paid_Ok. Qed.

Lemma keeps_set_nft_count e : keeps k (set_nft_count e).
Proof. by intros s b s' (v & _ & ->)%set_nft_count_Ok. Qed.

Lemma keeps_set_live_auctions e : keeps k (set_live_auctions e).
Proof. by intros s b s' (v & _ & ->)%set_live_auctions_Ok. Qed.

Lemma keeps_For_ {A} (body : nat → A → M A) n : ∀ i acc,
  (∀ j x, keeps k (body j x)) → keeps k (For_ i n body acc).
Proof.
  induction n as [|n IH]; intros i acc Hbody; cbn [For_].
  - apply keeps_mret.
  - apply keeps_bind; [apply Hbody|]. intros x. by apply IH.
Qed.

Lemma keeps_void {A} (m : M A) : keeps k m → keeps k (void m).
Proof. intros H. apply keeps_bind; [done|]. intros _. apply keeps_mret. Qed.

End Keeps.

Ltac keeps_key := first [by apply box_key_tag_ne | by apply box_key_id_ne].

Ltac keeps_step :=
  lazymatch goal with
  | |- keeps _ (Assert _ _) => apply keeps_Assert
  | |- keeps _ (If _ _ _) => apply keeps_If
  | |- keeps _ (When _ _) => apply keeps_When
  | |- keeps _ (Submit _ _) => apply keeps_Submit
  | |- keeps _ (BoxGet _) => apply keeps_BoxGet
  | |- keeps _ (BoxReplace _ _ _) => apply keeps_BoxReplace; keeps_key
  | |- keeps _ (BoxCreate _ _) => apply keeps_BoxCreate; keeps_key
  | |- keeps _ (BoxDelete _) => apply keeps_BoxDelete; keeps_key
  | |- keeps _ (set_muse_treasury _) => apply keeps_set_muse_treasury
  | |- keeps _ (set_total_volume _) => apply keeps_set_total_volume
  | |- keeps _ (set_total_royalties_paid _) => apply keeps_set_total_royalties_paid
  | |- keeps _ (set_nft_count _) => apply keeps_set_nft_count
  | |- keeps _ (set_live_auctions _) => apply keeps_set_live_auctions
  | |- keeps _ (For_ _ _ _ _) => apply keeps_For_; intros ? ?
  | |- keeps _ (void _) => apply keeps_void
  | |- keeps _ (eval _) => apply keeps_eval
  | |- keeps _ (Return _) => apply keeps_Return
  | |- keeps _ (get _) => apply keeps_get
  | |- keeps _ (mret _) => apply keeps_mret
  | |- keeps _ (_ ≫= _) => apply keeps_bind; [|intros ?]
  end.

Ltac keeps := cbv beta zeta; repeat (keeps_step; cbv beta zeta).

Lemma keeps_current_royalty_bps ctx k a : keeps k (current_royalty_bps ctx a).
Proof. unfold current_royalty_bps. keeps. Qed.

Lemma keeps_distribute_royalties ctx k a price rb :
  keeps k (distribute_royalties ctx a price rb).
Proof. unfold distribute_royalties. keeps. Qed.

(** no call on another asset, and no call that only reads or only writes
    other kinds of boxes, touches the record of [id] *)
Lemma invoke_keeps_other ctx c id :
  match c with
  | MintNft _ _ _ _ _ _ _ _ _ | MintRwa _ _ _ _ _ _ _ _ _ _ _ _ => created_asset_id ctx ≠ id
  | ValidatePhysicalAsset a | RedeemPhysicalAsset a _
  | RegisterCoCreators a _ _ _ _ _ _ _ _ _ _ _ _
  | BuyNft a _ | BuyOutRoyalty a _ | StartAuction a _ _ | SettleAuction a => a ≠ id
  | _ => True
  end →
  keeps (box_key "NFT" id) (invoke ctx c).
Proof.
  destruct c; cbn [invoke]; intros Hne.
  all: unfold create, mint_nft, mint_rwa, validate_physical_asset, redeem_physical_asset,
    register_co_creators, accept_collaboration, buy_nft, buy_out_royalty, start_auction,
    place_bid, settle_auction, get_nft_info, get_current_royalty, get_auction_info,
    get_platform_stats, update_treasury.
  all: keeps.
  all: try apply keeps_current_royalty_bps.
  all: try apply keeps_distribute_royalties.
  all: keeps.
Qed.

(** *** What the methods write to the record of their asset *)

Section Validate.
Context (ctx : Ctx) (a : Z) (s s' : State).

Lemma validate_physical_asset_Ok :
  validate_physical_asset ctx a s = Ok () s' →
  ∃ rwa nft,
    boxes s !! box_key "RWA" a = Some rwa ∧
    boxes s !! box_key "NFT" a = Some nft ∧
    (64 ≤ length nft)%nat ∧
    RWA.authenticator rwa = sender ctx ∧
    ¬ flag_set (NFT.flags nft) RWA_AUTH ∧
    s' = add_itxn (AssetFreeze a (sender ctx) 0)
           (set_boxes (insert (box_key "NFT" a)
                         (patch nft 56 (itob (Z.lor (NFT.flags nft) 2)))) s).
Proof.
  intros H. unfold validate_physical_asset in H. inv_ok H.
  has_box Hrun rwa Hrwa. has_box Hrun0 nft Hnft.
  exists rwa, nft.
  injection Hbox as <-.
  destruct (decide (64 ≤ length nft)%nat) as [Hl|Hl]; cycle 1.
  { rewrite ExtractUint64_oob in Hrun2 by lia. done. }
  destruct (decide (96 ≤ length rwa)%nat) as [Hlr|Hlr]; cycle 1.
  { rewrite Extract_oob in Hrun1 by lia. done. }
  autorewrite with run in *. cbn in Hrun1, Hrun2, Hrun3. vals. subst.
  split_and!; try done. unfold flag_set, RWA_AUTH. intros Hn. by apply Hn.
Qed.
End Validate.

Section Redeem.
Context (ctx : Ctx) (a : Z) (info : bytes) (s s' : State).

Lemma redeem_physical_asset_Ok :
  redeem_physical_asset ctx a info s = Ok () s' →
  ∃ rwa nft,
    boxes s !! box_key "RWA" a = Some rwa ∧
    boxes s !! box_key "NFT" a = Some nft ∧
    (64 ≤ length nft)%nat ∧
    RWA.custodian rwa = sender ctx ∧
    ¬ flag_set (NFT.flags nft) RWA_REDEEMED ∧
    flag_set (NFT.flags nft) RWA_AUTH ∧
    boxes s' !! box_key "NFT" a
    = Some (patch nft 56 (itob (without_in_auction (Z.lor (NFT.flags nft) 4)))).
Proof.
  intros H. unfold redeem_physical_asset in H. inv_ok H.
  has_box Hrun rwa Hrwa. exists rwa.
  destruct (boxes s !! box_key "NFT" a) as [nft|] eqn:Hnft; cycle 1.
  { rewrite value_None, ExtractUint64_oob in Hrun1 by (simpl; lia). done. }
  exists nft. rewrite value_Some in *.
  destruct (decide (64 ≤ length nft)%nat) as [Hl|Hl]; cycle 1.
  { rewrite ExtractUint64_oob in Hrun1 by lia. done. }
  destruct (decide (64 ≤ length rwa)%nat) as [Hlr|Hlr]; cycle 1.
  { rewrite Extract_oob in Hrun0 by lia. done. }
  autorewrite with run in *. cbn in Hrun0, Hrun1, Hrun2, Hrun3, H. vals. subst.
  cbn in Hbox0. rewrite lookup_insert_ne in Hbox0 by (by apply box_key_tag_ne).
  rewrite Hnft in Hbox0. injection Hbox0 as <-.
  split_and!; try done.
  - unfold flag_set, RWA_REDEEMED. intros Hn. by apply Hn.
  - cbn. by rewrite lookup_insert_eq.
Qed.
End Redeem.

Section Register.
Context (ctx : Ctx) (a : Z) (s s' : State).

Lemma register_co_creators_Ok a1 s1 r1 a2 s2 r2 a3 s3 r3 a4 s4 r4 :
  register_co_creators ctx a a1 s1 r1 a2 s2 r2 a3 s3 r3 a4 s4 r4 s = Ok () s' →
  ∃ nft,
    boxes s !! box_key "NFT" a = Some nft ∧
    (64 ≤ length nft)%nat ∧
    boxes s' !! box_key "NFT" a
    = Some (patch nft 56 (itob (Z.lor (NFT.flags nft) 32))).
Proof.
  intros H. unfold register_co_creators in H. inv_ok H.
  has_box Hrun nft Hnft. exists nft.
  destruct (decide (64 ≤ length nft)%nat) as [Hl|Hl]; cycle 1.
  { rewrite ExtractUint64_oob in H by lia. done. }
  autorewrite with run in *. cbn in H. vals. subst.
  assert (boxes x3 !! box_key "NFT" a = Some nft) as Hnft3.
  { assert (box_key "SPL" a ≠ box_key "NFT" a) as Hk by (by apply box_key_tag_ne).
    by rewrite (keeps_BoxCreate _ _ _ Hk _ _ _ Hrun2). }
  cbn in Hbox0. rewrite lookup_insert_ne in Hbox0 by (by apply box_key_tag_ne).
  rewrite Hnft3 in Hbox0. injection Hbox0 as <-.
  split_and!; try done. cbn. by rewrite lookup_insert_eq.
Qed.
End Register.

Section BuyOut.
Context (ctx : Ctx) (a : Z) (p : PaymentTransaction) (s s' : State).

Lemma buy_out_royalty_Ok :
  buy_out_royalty ctx a p s = Ok () s' →
  ∃ nft,
    boxes s !! box_key "NFT" a = Some nft ∧
    (64 ≤ length nft)%nat ∧
    boxes s' !! box_key "NFT" a
    = Some (patch (patch nft 56 (itob (Z.lor (NFT.flags nft) 8))) 40 (itob 0)).
Proof.
  intros H. unfold buy_out_royalty in H. inv_ok H.
  has_box Hrun nft Hnft. exists nft.
  destruct (decide (64 ≤ length nft)%nat) as [Hl|Hl]; cycle 1.
  { rewrite ExtractUint64_oob in Hrun1 by lia. done. }
  autorewrite with run in *. cbn in Hrun6, H. vals. subst.
  cbn in Hbox. rewrite Hnft in Hbox. injection Hbox as <-.
  cbn in Hbox0. rewrite lookup_insert_eq in Hbox0. injection Hbox0 as <-.
  split_and!; try done. cbn. by rewrite lookup_insert_eq.
Qed.
End BuyOut.

Section StartAuction.
Context (ctx : Ctx) (a d r : Z) (s s' : State).

Lemma start_auction_Ok :
  start_auction ctx a d r s = Ok () s' →
  ∃ nft,
    boxes s !! box_key "NFT" a = Some nft ∧
    (64 ≤ length nft)%nat ∧
    boxes s' !! box_key "NFT" a
    = Some (patch nft 56 (itob (Z.lor (NFT.flags nft) 16))) ∧
    (length (sender ctx) = 32%nat →
     ∃ auc, boxes s' !! box_key "AUC" a = Some auc ∧ AUC.seller auc = sender ctx ∧
            AUC.highest_bidder auc = zero_address ∧ AUC.highest_bid auc = 0).
Proof.
  intros H. unfold start_auction in H. inv_ok H.
  has_box Hrun nft Hnft. exists nft.
  destruct (decide (64 ≤ length nft)%nat) as [Hl|Hl]; cycle 1.
  { rewrite ExtractUint64_oob in Hrun0 by lia. done. }
  autorewrite with run in *. cbn in Hrun3, Hrun6, Hrun7. vals. subst.
  apply set_live_auctions_Ok in H as (v & _ & ->).
  assert (box_key "AUC" a ≠ box_key "NFT" a) as Hk by (by apply box_key_tag_ne).
  assert (boxes x6 !! box_key "NFT" a = Some nft) as Hnft6.
  { by rewrite (keeps_BoxCreate _ _ _ Hk _ _ _ Hrun4). }
  cbn in Hbox0. rewrite lookup_insert_eq in Hbox0. injection Hbox0 as <-.
  cbn in Hbox1. rewrite !lookup_insert_ne in Hbox1 by done.
  rewrite Hnft6 in Hbox1. injection Hbox1 as <-.
  split_and!; try done.
  { cbn. by rewrite lookup_insert_eq. }
  intros Hs. eexists. split.
  { cbn. rewrite lookup_insert_ne by done. by rewrite lookup_insert_eq. }
  cbn -[itob app] in Hrun5.
  destruct (decide (round ctx + d ≤ uint64_max)); cbn -[itob app] in Hrun5; [|done].
  apply Val_inj in Hrun5. subst x9. rewrite app_nil_r in *.
  rewrite !length_app, !length_itob, length_zero_address, Hs in Hlen.
  unfold AUC.seller, AUC.highest_bidder, AUC.highest_bid.
  rewrite !(bytes_at_patch_ne _ 0 (itob r)), (u64_at_patch_ne _ 0 (itob r))
    by (first [exact Hlen0 | rewrite length_itob; lia]).
  unfold patch. rewrite take_0, app_nil_l, <-!app_assoc.
  match goal with
  | |- context [sender ctx ++ ?rest] =>
      pose proof (auction_layout (itob a) (itob (round ctx + d)) (itob 0) zero_address
                    (sender ctx) rest) as L
  end.
  rewrite !length_itob, length_zero_address in L.
  destruct (L eq_refl eq_refl eq_refl eq_refl Hs) as (E1 & E2 & E3).
  rewrite E1, E2, E3. by rewrite btoi_itob.
Qed.
End StartAuction.

(** *** Settlement without a bidder *)

(** C9: settling an auction without a bidder sends the asset back to the
    seller in the auction record, who is the caller of the [start_auction]
    that opened it, and submits nothing else (no payment); it deletes the
    auction record, clears [IN_AUCTION] and nothing else in the asset
    record ([transfers] included), and lowers [live_auctions] by one, the
    other statistics being as before. *)
Theorem settle_auction_without_bidder ctx id s s' auc :
  settle_auction ctx id s = Ok () s' →
  boxes s !! box_key "AUC" id = Some auc →
  AUC.highest_bidder auc = zero_address →
  ∃ nft nft',
    boxes s !! box_key "NFT" id = Some nft ∧
    AUC.end_round auc ≤ round ctx ∧
    itxns s' = itxns s ++ [AssetTransfer id None (AUC.seller auc) 1] ∧
    boxes s' !! box_key "AUC" id = None ∧
    boxes s' !! box_key "NFT" id = Some nft' ∧
    (∀ k, k ≠ box_key "AUC" id → k ≠ box_key "NFT" id → boxes s' !! k = boxes s !! k) ∧
    ¬ flag_set (NFT.flags nft') IN_AUCTION ∧
    (∀ m, Z.land m IN_AUCTION = 0 → 0 ≤ m < 2 ^ 64 →
          Z.land (NFT.flags nft') m = Z.land (NFT.flags nft) m) ∧
    take 56 nft' = take 56 nft ∧ drop 64 nft' = drop 64 nft ∧
    NFT.transfers nft' = NFT.transfers nft ∧
    live_auctions s' = live_auctions s - 1 ∧
    total_volume s' = total_volume s ∧
    total_royalties_paid s' = total_royalties_paid s ∧
    nft_count s' = nft_count s ∧
    muse_treasury s' = muse_treasury s ∧
    (∀ seller_ctx s0 duration reserve,
       start_auction seller_ctx id duration reserve s0 = Ok () s →
       length (sender seller_ctx) = 32%nat →
       AUC.seller auc = sender seller_ctx).
Proof.
  intros H Hauc Hnone.
  apply settle_auction_Ok in H
    as (auc0 & nft & Hauc0 & Hnft & Hla & Hl & Hend & Hlive & H).
  rewrite Hauc in Hauc0. injection Hauc0 as <-.
  rewrite decide_True in H by done. destruct H as (Hls & Hacc & ->).
  pose proof (u64_at_range nft 56) as Hf. fold (NFT.flags nft) in Hf.
  pose proof (land_range (NFT.flags nft) (Z.lxor 16 uint64_max) Hf) as Hw.
  fold (without_in_auction (NFT.flags nft)) in Hw.
  assert (NFT.flags (patch nft 56 (itob (without_in_auction (NFT.flags nft))))
          = without_in_auction (NFT.flags nft)) as Hflags
    by (apply u64_at_patch_eq; lia).
  exists nft, (patch nft 56 (itob (without_in_auction (NFT.flags nft)))).
  cbn. split_and!; try done.
  - apply lookup_delete_eq.
  - rewrite lookup_delete_ne by done. apply lookup_insert_eq.
  - intros k Hk1 Hk2. rewrite lookup_delete_ne by done. by rewrite lookup_insert_ne.
  - rewrite Hflags. apply without_in_auction_clear.
  - intros m Hm Hr. rewrite Hflags. by apply land_without_in_auction.
  - apply take_patch. lia.
  - pose proof (drop_patch nft 56 (itob (without_in_auction (NFT.flags nft)))) as E.
    rewrite length_itob in E. apply E. lia.
  - apply u64_at_patch_ne; rewrite length_itob; lia.
  - intros seller_ctx s0 duration reserve Hstart Hs.
    apply start_auction_Ok in Hstart as (_ & _ & _ & _ & Hrec).
    destruct (Hrec Hs) as (auc0 & Hauc0 & Hseller & _).
    rewrite Hauc in Hauc0. by injection Hauc0 as <-.
Qed.

(** *** The RWA lifecycle *)

Lemma land_lor_other f m k : Z.land m k = 0 → Z.land (Z.lor f m) k = Z.land f k.
Proof. intros H. by rewrite Z.land_lor_distr_l, H, Z.lor_0_r. Qed.

Lemma same_stage_refl b : same_stage b b.
Proof. by split. Qed.

Lemma same_stage_flags b b' : NFT.flags b' = NFT.flags b → same_stage b b'.
Proof. intros E. unfold same_stage, authenticated, redeemed. by rewrite E. Qed.

Lemma same_stage_land b b' :
  Z.land (NFT.flags b') 2 = Z.land (NFT.flags b) 2 →
  Z.land (NFT.flags b') 4 = Z.land (NFT.flags b) 4 →
  same_stage b b'.
Proof.
  intros E2 E4. unfold same_stage, authenticated, redeemed, flag_set, RWA_AUTH, RWA_REDEEMED.
  by rewrite E2, E4.
Qed.

Lemma flags_range b : 0 ≤ NFT.flags b < 2 ^ 64.
Proof. apply u64_at_range. Qed.

(** setting a flag other than the two *)
Lemma same_stage_set b m :
  (64 ≤ length b)%nat → 0 ≤ m < 2 ^ 64 → Z.land m 2 = 0 → Z.land m 4 = 0 →
  same_stage b (patch b 56 (itob (Z.lor (NFT.flags b) m))).
Proof.
  intros Hl Hm H2 H4. pose proof (flags_range b) as Hf.
  apply same_stage_land; rewrite flags_written by (done || by apply lor_range);
    by apply land_lor_other.
Qed.

(** clearing [IN_AUCTION] *)
Lemma same_stage_clear b :
  (64 ≤ length b)%nat →
  same_stage b (patch b 56 (itob (without_in_auction (NFT.flags b)))).
Proof.
  intros Hl. pose proof (flags_range b) as Hf.
  apply same_stage_land; rewrite flags_written by (done || by apply land_range);
    by apply land_without_in_auction.
Qed.

Lemma same_stage_trans b1 b2 b3 : same_stage b1 b2 → same_stage b2 b3 → same_stage b1 b3.
Proof. unfold same_stage. intros [? ?] [? ?]. split; etrans; eauto. Qed.

Lemma same_stage_kept b off d :
  (off + length d ≤ length b)%nat → (off + length d ≤ 56)%nat →
  same_stage b (patch b off d).
Proof. intros. apply same_stage_flags. by apply flags_kept. Qed.

Section Stage.
Context (ctx : Ctx) (s s' : State) (id : Z) (b : bytes).
Hypothesis Hb : boxes s !! box_key "NFT" id = Some b.

Lemma validate_stage :
  validate_physical_asset ctx id s = Ok () s' →
  ∃ b' rwa, boxes s' !! box_key "NFT" id = Some b' ∧
    boxes s !! box_key "RWA" id = Some rwa ∧ RWA.authenticator rwa = sender ctx ∧
    ¬ authenticated b ∧ authenticated b' ∧ (redeemed b' ↔ redeemed b).
Proof using Hb.
  intros (rwa & nft & Hrwa & Hnft & Hl & Hauth & Hna & ->)%validate_physical_asset_Ok.
  rewrite Hb in Hnft. injection Hnft as <-.
  pose proof (flags_range b) as Hf.
  eexists _, rwa. split; [cbn; apply lookup_insert_eq|].
  unfold authenticated, redeemed, flag_set, RWA_AUTH, RWA_REDEEMED.
  rewrite flags_written by (done || by apply lor_range).
  split_and!; try done.
  - rewrite Z.land_lor_distr_l. change (Z.land 2 2) with 2.
    intros [_ ?]%Z.lor_eq_0_iff. done.
  - by rewrite land_lor_other.
Qed.

Lemma redeem_stage info :
  redeem_physical_asset ctx id info s = Ok () s' →
  ∃ b' rwa, boxes s' !! box_key "NFT" id = Some b' ∧
    boxes s !! box_key "RWA" id = Some rwa ∧ RWA.custodian rwa = sender ctx ∧
    authenticated b ∧ authenticated b' ∧ ¬ redeemed b ∧ redeemed b'.
Proof using Hb.
  intros (rwa & nft & Hrwa & Hnft & Hl & Hcust & Hnr & Ha & Hb')%redeem_physical_asset_Ok.
  rewrite Hb in Hnft. injection Hnft as <-.
  pose proof (flags_range b) as Hf.
  assert (0 ≤ Z.lor (NFT.flags b) 4 < 2 ^ 64) as Hr by (by apply lor_range).
  eexists _, rwa. split; [exact Hb'|].
  unfold authenticated, redeemed, flag_set, RWA_AUTH, RWA_REDEEMED in *.
  rewrite flags_written by (done || by apply land_range).
  rewrite !land_without_in_auction by done.
  split_and!; try done.
  - by rewrite land_lor_other.
  - rewrite Z.land_lor_distr_l. change (Z.land 4 4) with 4.
    intros [_ ?]%Z.lor_eq_0_iff. done.
Qed.

Lemma register_stage a1 s1 r1 a2 s2 r2 a3 s3 r3 a4 s4 r4 :
  register_co_creators ctx id a1 s1 r1 a2 s2 r2 a3 s3 r3 a4 s4 r4 s = Ok () s' →
  ∃ b', boxes s' !! box_key "NFT" id = Some b' ∧ same_stage b b'.
Proof using Hb.
  intros (nft & Hnft & Hl & Hb')%register_co_creators_Ok.
  rewrite Hb in Hnft. injection Hnft as <-.
  eexists. split; [exact Hb'|]. by apply same_stage_set.
Qed.

Lemma buy_out_stage p :
  buy_out_royalty ctx id p s = Ok () s' →
  ∃ b', boxes s' !! box_key "NFT" id = Some b' ∧ same_stage b b'.
Proof using Hb.
  intros (nft & Hnft & Hl & Hb')%buy_out_royalty_Ok.
  rewrite Hb in Hnft. injection Hnft as <-.
  eexists. split; [exact Hb'|].
  eapply same_stage_trans; [by apply (same_stage_set b 8)|].
  apply same_stage_kept; rewrite ?length_patch, !length_itob; rewrite ?length_itob; lia.
Qed.

Lemma start_auction_stage d r :
  start_auction ctx id d r s = Ok () s' →
  ∃ b', boxes s' !! box_key "NFT" id = Some b' ∧ same_stage b b'.
Proof using Hb.
  intros (nft & Hnft & Hl & Hb' & _)%start_auction_Ok.
  rewrite Hb in Hnft. injection Hnft as <-.
  eexists. split; [exact Hb'|]. by apply same_stage_set.
Qed.

Lemma buy_stage p :
  buy_nft ctx id p s = Ok () s' →
  ∃ b', boxes s' !! box_key "NFT" id = Some b' ∧ same_stage b b'.
Proof using Hb.
  intros (b0 & rb & Hok & ->)%buy_nft_Ok.
  pose proof Hok as (Hb0 & _). rewrite Hb in Hb0. injection Hb0 as <-.
  eexists. split; [apply buy_post_record|].
  apply same_stage_flags. by destruct (bought_fields ctx id p s b rb Hok) as (_&_&_&_&_&_&_&_&_&?&_).
Qed.

Lemma settle_stage :
  settle_auction ctx id s = Ok () s' →
  ∃ b', boxes s' !! box_key "NFT" id = Some b' ∧ same_stage b b'.
Proof using Hb.
  intros (auc & nft & Hauc & Hnft & Hla & Hl & Hend & Hlive & H)%settle_auction_Ok.
  rewrite Hb in Hnft. injection Hnft as <-.
  destruct (decide (AUC.highest_bidder auc = zero_address)).
  - destruct H as (_ & _ & ->). eexists. split.
    { cbn. rewrite lookup_delete_ne by (by apply box_key_tag_ne). apply lookup_insert_eq. }
    by apply same_stage_clear.
  - destruct H as (rb & _ & _ & _ & Htr & _ & ->). eexists. split.
    { cbn. rewrite lookup_delete_ne by (by apply box_key_tag_ne). apply lookup_insert_eq. }
    pose proof (u64_at_range b 48) as Hr.
    assert (NFT.flags (patch b 48 (itob (NFT.transfers b + 1))) = NFT.flags b) as E
      by (apply flags_kept; rewrite length_itob; lia).
    eapply same_stage_trans; [apply (same_stage_kept b 48 (itob (NFT.transfers b + 1)));
                              rewrite length_itob; lia|].
    rewrite <-E. apply same_stage_clear. rewrite length_patch; rewrite ?length_itob; lia.
Qed.
End Stage.

(** what one successful call does to the lifecycle flags of a record *)
Lemma invoke_stage ctx c s s' id b :
  fresh_asset ctx c s →
  invoke ctx c s = Ok () s' →
  boxes s !! box_key "NFT" id = Some b →
  ∃ b', boxes s' !! box_key "NFT" id = Some b' ∧
    (same_stage b b' ∨
     (c = ValidatePhysicalAsset id ∧
      ¬ authenticated b ∧ authenticated b' ∧ (redeemed b' ↔ redeemed b) ∧
      ∃ rwa, boxes s !! box_key "RWA" id = Some rwa ∧
             RWA.authenticator rwa = sender ctx) ∨
     (∃ info, c = RedeemPhysicalAsset id info ∧
      authenticated b ∧ authenticated b' ∧ ¬ redeemed b ∧ redeemed b' ∧
      ∃ rwa, boxes s !! box_key "RWA" id = Some rwa ∧
             RWA.custodian rwa = sender ctx)).
Proof.
  intros Hfresh H Hb.
  assert (keeps (box_key "NFT" id) (invoke ctx c) →
          ∃ b', boxes s' !! box_key "NFT" id = Some b' ∧ same_stage b b') as Hkeep.
  { intros K. exists b. split; [by rewrite (K _ _ _ H)|apply same_stage_refl]. }
  pose proof (invoke_keeps_other ctx c id) as K.
  destruct c; cbn [invoke fresh_asset] in *;
    try (destruct (Hkeep (K I)) as (b' & ? & ?); by eauto).
  - (* mint_nft *)
    destruct (decide (created_asset_id ctx = id)) as [<-|Hne]; [congruence|].
    destruct (Hkeep (K Hne)) as (b' & ? & ?); eauto.
  - (* mint_rwa *)
    destruct (decide (created_asset_id ctx = id)) as [<-|Hne]; [congruence|].
    destruct (Hkeep (K Hne)) as (b' & ? & ?); eauto.
  - (* validate_physical_asset *)
    destruct (decide (asset_id = id)) as [->|Hne];
      [|destruct (Hkeep (K Hne)) as (b' & ? & ?); by eauto].
    destruct (validate_stage ctx s s' id b Hb H) as (b' & rwa & ? & ? & ? & ? & ? & ?).
    exists b'. split; [done|]. right. left. eauto 10.
  - (* redeem_physical_asset *)
    destruct (decide (asset_id = id)) as [->|Hne];
      [|destruct (Hkeep (K Hne)) as (b' & ? & ?); by eauto].
    destruct (redeem_stage ctx s s' id b Hb _ H) as (b' & rwa & ? & ? & ? & ? & ? & ? & ?).
    exists b'. split; [done|]. right. right. eauto 12.
  - (* register_co_creators *)
    destruct (decide (asset_id = id)) as [->|Hne];
      [|destruct (Hkeep (K Hne)) as (b' & ? & ?); by eauto].
    destruct (register_stage ctx s s' id b Hb _ _ _ _ _ _ _ _ _ _ _ _ H) as (b' & ? & ?).
    eauto.
  - (* buy_nft *)
    destruct (decide (asset_id = id)) as [->|Hne];
      [|destruct (Hkeep (K Hne)) as (b' & ? & ?); by eauto].
    destruct (buy_stage ctx s s' id b Hb _ H) as (b' & ? & ?). eauto.
  - (* buy_out_royalty *)
    destruct (decide (asset_id = id)) as [->|Hne];
      [|destruct (Hkeep (K Hne)) as (b' & ? & ?); by eauto].
    destruct (buy_out_stage ctx s s' id b Hb _ H) as (b' & ? & ?). eauto.
  - (* start_auction *)
    destruct (decide (asset_id = id)) as [->|Hne];
      [|destruct (Hkeep (K Hne)) as (b' & ? & ?); by eauto].
    destruct (start_auction_stage ctx s s' id b Hb _ _ H) as (b' & ? & ?). eauto.
  - (* settle_auction *)
    destruct (decide (asset_id = id)) as [->|Hne];
      [|destruct (Hkeep (K Hne)) as (b' & ? & ?); by eauto].
    destruct (settle_stage ctx s s' id b Hb H) as (b' & ? & ?). eauto.
Qed.

Lemma validate_fails_authenticated ctx s id b :
  boxes s !! box_key "NFT" id = Some b → authenticated b →
  fails (validate_physical_asset ctx id s).
Proof.
  intros Hb Ha. destruct (validate_physical_asset ctx id s) as [[] s'|] eqn:E; [|done].
  destruct (validate_stage ctx s s' id b Hb E) as (_ & _ & _ & _ & _ & ? & _). done.
Qed.

Lemma redeem_fails_redeemed ctx s id info b :
  boxes s !! box_key "NFT" id = Some b → redeemed b →
  fails (redeem_physical_asset ctx id info s).
Proof.
  intros Hb Ha. destruct (redeem_physical_asset ctx id info s) as [[] s'|] eqn:E; [|done].
  destruct (redeem_stage ctx s s' id b Hb _ E) as (_ & _ & _ & _ & _ & _ & _ & ? & _). done.
Qed.

Lemma redeem_fails_unauthenticated ctx s id info b :
  boxes s !! box_key "NFT" id = Some b → ¬ authenticated b →
  fails (redeem_physical_asset ctx id info s).
Proof.
  intros Hb Ha. destruct (redeem_physical_asset ctx id info s) as [[] s'|] eqn:E; [|done].
  destruct (redeem_stage ctx s s' id b Hb _ E) as (_ & _ & _ & _ & _ & ? & _). done.
Qed.

Lemma step_stage s s' id b :
  step s s' → boxes s !! box_key "NFT" id = Some b →
  ∃ b', boxes s' !! box_key "NFT" id = Some b' ∧
    (authenticated b → authenticated b') ∧ (redeemed b → redeemed b').
Proof.
  intros [ctx c Hf H] Hb.
  destruct (invoke_stage ctx c s s' id b Hf H Hb) as (b' & Hb' & Hst).
  exists b'. split; [done|].
  destruct Hst as [[Ha Hr]|[(_ & _ & ? & Hr & _)|(info & _ & _ & ? & _ & ? & _)]];
    split; intros ?; try done; by (apply Ha || apply Hr).
Qed.

Lemma reachable_stage s s' : reachable_from s s' → ∀ id b,
  boxes s !! box_key "NFT" id = Some b →
  ∃ b', boxes s' !! box_key "NFT" id = Some b' ∧
    (authenticated b → authenticated b') ∧ (redeemed b → redeemed b').
Proof.
  induction 1 as [s|s s1 s' Hstep _ IH]; intros id b Hb; [by eauto|].
  destruct (step_stage s s1 id b Hstep Hb) as (b1 & Hb1 & Ha1 & Hr1).
  destruct (IH id b1 Hb1) as (b' & Hb' & Ha' & Hr'). eauto 10.
Qed.

(** C8: the RWA lifecycle.  On a record that is authenticated,
    [validate_physical_asset] fails; on one that is redeemed, or not
    authenticated, [redeem_physical_asset] fails.  A successful call that
    sets [RWA_AUTH] is a validation by the stored authenticator, one that sets
    [RWA_REDEEMED] is a redemption by the stored custodian of an authenticated
    record, and no successful call clears either flag; so after any number
    of calls a flag that was set is set, and validation (redemption) of a
    validated (redeemed) asset fails again. *)
Theorem rwa_lifecycle s id b :
  boxes s !! box_key "NFT" id = Some b →
  (authenticated b → ∀ ctx, fails (validate_physical_asset ctx id s)) ∧
  (redeemed b → ∀ ctx info, fails (redeem_physical_asset ctx id info s)) ∧
  (¬ authenticated b → ∀ ctx info, fails (redeem_physical_asset ctx id info s)) ∧
  (∀ ctx c s', fresh_asset ctx c s → invoke ctx c s = Ok () s' →
     ∃ b', boxes s' !! box_key "NFT" id = Some b' ∧
       (authenticated b → authenticated b') ∧
       (redeemed b → redeemed b') ∧
       (¬ authenticated b → authenticated b' →
          c = ValidatePhysicalAsset id ∧ (redeemed b' ↔ redeemed b) ∧
          ∃ rwa, boxes s !! box_key "RWA" id = Some rwa ∧
                 RWA.authenticator rwa = sender ctx) ∧
       (¬ redeemed b → redeemed b' →
          authenticated b ∧ authenticated b' ∧
          ∃ info rwa, c = RedeemPhysicalAsset id info ∧
                      boxes s !! box_key "RWA" id = Some rwa ∧
                      RWA.custodian rwa = sender ctx) ∧
       (c = ValidatePhysicalAsset id → authenticated b') ∧
       (∀ info, c = RedeemPhysicalAsset id info → redeemed b')) ∧
  (∀ s', reachable_from s s' →
     ∃ b', boxes s' !! box_key "NFT" id = Some b' ∧
       (authenticated b →
          authenticated b' ∧ ∀ ctx, fails (validate_physical_asset ctx id s')) ∧
       (redeemed b →
          redeemed b' ∧ ∀ ctx info, fails (redeem_physical_asset ctx id info s'))).
Proof.
  intros Hb. split_and!.
  - intros Ha ctx. by eapply validate_fails_authenticated.
  - intros Hr ctx info. by eapply redeem_fails_redeemed.
  - intros Ha ctx info. by eapply redeem_fails_unauthenticated.
  - intros ctx c s' Hf H.
    destruct (invoke_stage ctx c s s' id b Hf H Hb) as (b' & Hb' & Hst).
    exists b'. split; [done|].
    destruct Hst as [[Ha Hr]|[(-> & Hna & Ha' & Hr & rwa & Hrwa & Hauth)
                             |(info & -> & Ha & Ha' & Hnr & Hr' & rwa & Hrwa & Hc)]].
    + split_and!.
      * intros ?. by apply Ha.
      * intros ?. by apply Hr.
      * intros Hn Hy. by apply Ha in Hy.
      * intros Hn Hy. by apply Hr in Hy.
      * intros ->. cbn [invoke] in H.
        by destruct (validate_stage ctx s s' id b Hb H) as (b2 & _ & Hb2 & _ & _ & _ & ? & _);
          rewrite Hb' in Hb2; injection Hb2 as <-.
      * intros info ->. cbn [invoke] in H.
        by destruct (redeem_stage ctx s s' id b Hb _ H)
          as (b2 & _ & Hb2 & _ & _ & _ & _ & _ & ?);
          rewrite Hb' in Hb2; injection Hb2 as <-.
    + split_and!; try done.
      * intros ?. by apply Hr.
      * intros _ _. eauto.
      * intros Hn Hy. by apply Hr in Hy.
    + split_and!; try done.
      intros _ _. eauto 10.
  - intros s' Hreach.
    destruct (reachable_stage s s' Hreach id b Hb) as (b' & Hb' & Ha & Hr).
    exists b'. split; [done|]. split.
    + intros H. split; [by apply Ha|]. intros ctx.
      eapply validate_fails_authenticated; [done|by apply Ha].
    + intros H. split; [by apply Hr|]. intros ctx info.
      eapply redeem_fails_redeemed; [done|by apply Hr].
Qed.

(** ** What the royalty computation and a bid do guarantee *)

(** X1: within the range where the decayed part does not exceed the royalty,
    [current_royalty_bps] returns the decay formula clamped at the floor *)
Theorem current_royalty_bps_within_decay_range ctx id s b :
  boxes s !! box_key "NFT" id = Some b →
  (64 ≤ length b)%nat →
  ¬ flag_set (NFT.flags b) ROYALTY_WAIVED →
  NFT.floor_bps b ≤ NFT.royalty_bps b ≤ 2000 →
  0 < NFT.decay_start b ≤ round ctx →
  round ctx ≤ uint64_max →
  (NFT.royalty_bps b - NFT.floor_bps b)
    * ((round ctx - NFT.decay_start b) / 777600) / 100 ≤ NFT.royalty_bps b →
  current_royalty_bps ctx id s
  = Ok (Z.max (NFT.royalty_bps b
               - (NFT.royalty_bps b - NFT.floor_bps b)
                 * ((round ctx - NFT.decay_start b) / 777600) / 100)
              (NFT.floor_bps b)) s.
Proof.
  intros Hb Hl Hw [Hfr Hmax] Hd Hr Hq.
  rewrite (current_royalty_bps_eq ctx id s b Hb Hl).
  destruct (royalty_of_decay_returns b Hw Hfr ctx Hd Hr Hmax Hq) as [v Hv].
  rewrite Hv. cbn. f_equal. by apply (royalty_of_decay b Hw Hfr ctx).
Qed.

(** X2: where [current_royalty_bps] returns at two rounds, the later result is
    not above the earlier one, and both are at least the floor *)
Theorem current_royalty_bps_non_increasing ctx1 ctx2 id s b v1 v2 :
  boxes s !! box_key "NFT" id = Some b →
  (64 ≤ length b)%nat →
  ¬ flag_set (NFT.flags b) ROYALTY_WAIVED →
  NFT.floor_bps b ≤ NFT.royalty_bps b →
  round ctx1 ≤ round ctx2 →
  current_royalty_bps ctx1 id s = Ok v1 s →
  current_royalty_bps ctx2 id s = Ok v2 s →
  v2 ≤ v1 ∧ NFT.floor_bps b ≤ v2 ∧ NFT.floor_bps b ≤ v1.
Proof.
  intros Hb Hl Hw Hfr Hle H1 H2.
  rewrite (current_royalty_bps_eq ctx1 id s b Hb Hl) in H1.
  rewrite (current_royalty_bps_eq ctx2 id s b Hb Hl) in H2.
  apply eval_Ok in H1 as [H1 _]. apply eval_Ok in H2 as [H2 _].
  split_and!.
  - by eapply (royalty_of_monotone b Hw Hfr ctx1 ctx2).
  - by eapply (royalty_of_floor b Hw Hfr ctx2).
  - by eapply (royalty_of_floor b Hw Hfr ctx1).
Qed.

(** X3: what [place_bid] asks of a bid: an open auction, more than the highest
    bid, payment to the application; the first slot of the auction record,
    where [start_auction] leaves the reserve, is not read *)
Theorem place_bid_accepts_above_highest ctx id p s auc :
  boxes s !! box_key "AUC" id = Some auc →
  (56 ≤ length auc)%nat →
  length (sender ctx) = 32%nat →
  round ctx < AUC.end_round auc →
  AUC.highest_bid auc < amount p →
  receiver p = current_application_address ctx →
  Forall (λ t, accepts ctx t = true) (refund_of auc) →
  (AUC.end_round auc - round ctx < 75 → AUC.end_round auc + 75 ≤ uint64_max) →
  ∃ s', place_bid ctx id p s = Ok () s'.
Proof.
  intros Hb Hl Hs Hround Hbid Hrcv Hacc Hext. eexists.
  by apply place_bid_run.
Qed.

(** ** The other methods *)

(** the fields of a record laid out as the asset box is *)
Lemma nft_layout (p0 p1 p2 p3 p4 p5 p6 p7 c rest : bytes) :
  length p0 = 8%nat → length p1 = 8%nat → length p2 = 8%nat → length p3 = 8%nat →
  length p4 = 8%nat → length p5 = 8%nat → length p6 = 8%nat → length p7 = 8%nat →
  length c = 32%nat →
  let b := p0 ++ p1 ++ p2 ++ p3 ++ p4 ++ p5 ++ p6 ++ p7 ++ c ++ rest in
  NFT.asset_id b = btoi p0 ∧ NFT.price b = btoi p1 ∧ NFT.royalty_bps b = btoi p2 ∧
  NFT.floor_bps b = btoi p3 ∧ NFT.decay_start b = btoi p4 ∧
  NFT.buyout_price b = btoi p5 ∧ NFT.transfers b = btoi p6 ∧ NFT.flags b = btoi p7 ∧
  NFT.creator b = c.
Proof.
  intros H0 H1 H2 H3 H4 H5 H6 H7 Hc b. subst b.
  unfold NFT.asset_id, NFT.price, NFT.royalty_bps, NFT.floor_bps, NFT.decay_start,
    NFT.buyout_price, NFT.transfers, NFT.flags, NFT.creator, u64_at, bytes_at.
  split_and!.
  - rewrite drop_0. by rewrite take_app_length'.
  - do 1 (rewrite drop_app_ge by lia). rewrite H0. cbn [Nat.sub]. rewrite drop_0.
    by rewrite take_app_length'.
  - do 2 (rewrite drop_app_ge by lia). rewrite H0, H1. cbn [Nat.sub]. rewrite drop_0.
    by rewrite take_app_length'.
  - do 3 (rewrite drop_app_ge by lia). rewrite H0, H1, H2. cbn [Nat.sub]. rewrite drop_0.
    by rewrite take_app_length'.
  - do 4 (rewrite drop_app_ge by lia). rewrite H0, H1, H2, H3. cbn [Nat.sub].
    rewrite drop_0. by rewrite take_app_length'.
  - do 5 (rewrite drop_app_ge by lia). rewrite H0, H1, H2, H3, H4. cbn [Nat.sub].
    rewrite drop_0. by rewrite take_app_length'.
  - do 6 (rewrite drop_app_ge by lia). rewrite H0, H1, H2, H3, H4, H5. cbn [Nat.sub].
    rewrite drop_0. by rewrite take_app_length'.
  - do 7 (rewrite drop_app_ge by lia). rewrite H0, H1, H2, H3, H4, H5, H6. cbn [Nat.sub].
    rewrite drop_0. by rewrite take_app_length'.
  - do 8 (rewrite drop_app_ge by lia). rewrite H0, H1, H2, H3, H4, H5, H6, H7.
    cbn [Nat.sub]. rewrite drop_0. by rewrite take_app_length'.
Qed.

Lemma decay_start_Val ctx decay v :
  IfE (Int decay == Int 0)%teal (Int 0) (Global_round ctx + Int decay)%teal = Val v →
  v = decay_start_of ctx decay ∧ (decay ≠ 0 → round ctx + decay ≤ uint64_max).
Proof.
  unfold decay_start_of. cbn. destruct (decide (decay = 0)) as [->|Hd].
  - cbn. intros [= <-]. split; [done|]. by intros [].
  - rewrite bool_decide_eq_false_2 by done. cbn.
    destruct (decide (round ctx + decay ≤ uint64_max)); cbn; [|done].
    intros [= <-]. done.
Qed.

Lemma length_nft_header a p r f d bo t fl c :
  length c = 32%nat → length (nft_header a p r f d bo t fl c) = 96%nat.
Proof. intros Hc. unfold nft_header. rewrite !length_app, !length_itob, Hc. lia. Qed.

Lemma nft_header_fields a p r f d bo t fl c b :
  length c = 32%nat → (96 ≤ length b)%nat →
  0 ≤ p < 2 ^ 64 → 0 ≤ r < 2 ^ 64 → 0 ≤ f < 2 ^ 64 → 0 ≤ d < 2 ^ 64 →
  0 ≤ bo < 2 ^ 64 → 0 ≤ t < 2 ^ 64 → 0 ≤ fl < 2 ^ 64 →
  let b' := patch b 0 (nft_header a p r f d bo t fl c) in
  length b' = length b ∧
  NFT.price b' = p ∧ NFT.royalty_bps b' = r ∧ NFT.floor_bps b' = f ∧
  NFT.decay_start b' = d ∧ NFT.buyout_price b' = bo ∧ NFT.transfers b' = t ∧
  NFT.flags b' = fl ∧ NFT.creator b' = c.
Proof.
  intros Hc Hl Hp Hr Hf Hd Hbo Ht Hfl b'. subst b'.
  split; [apply length_patch; rewrite length_nft_header by done; lia|].
  unfold patch. rewrite take_0, app_nil_l.
  set (rest := drop (0 + length (nft_header a p r f d bo t fl c)) b).
  unfold nft_header. rewrite <-!app_assoc.
  pose proof (nft_layout (itob a) (itob p) (itob r) (itob f) (itob d) (itob bo)
                (itob t) (itob fl) c rest) as L.
  rewrite !length_itob in L.
  destruct (L eq_refl eq_refl eq_refl eq_refl eq_refl eq_refl eq_refl eq_refl Hc)
    as (_ & E1 & E2 & E3 & E4 & E5 & E6 & E7 & E8).
  rewrite E1, E2, E3, E4, E5, E6, E7, E8, !btoi_itob by done. done.
Qed.

Lemma Concat_nft_header a p r f d bo t fl c :
  Concat [Itob (Int a); Itob (Int p); Itob (Int r); Itob (Int f); Itob (Int d);
          Itob (Int bo); Itob (Int t); Itob (Int fl); Val c]
  = Val (nft_header a p r f d bo t fl c).
Proof. unfold nft_header. cbn -[itob app]. by rewrite app_nil_r. Qed.

Section Mint.
Context (ctx : Ctx) (s : State).
Context (name unit_name url hash : bytes) (price royalty floor decay buyout : Z).

Lemma mint_nft_Ok a s' :
  mint_nft ctx name unit_name url hash price royalty floor decay buyout s = Ok a s' →
  boxes s !! box_key "NFT" (created_asset_id ctx) = None →
  a = created_asset_id ctx ∧
  royalty ≤ 2000 ∧ floor ≤ royalty ∧
  (decay ≠ 0 → round ctx + decay ≤ uint64_max) ∧
  nft_count s + 1 ≤ uint64_max ∧
  accepts ctx (AssetConfig 1 0 0 name unit_name url hash
                 (current_application_address ctx) None None (sender ctx)
                 (Some (String.list_byte_of_string "arc69"))) = true ∧
  (96 ≤ 128)%nat ∧
  s' = mkState
         (<[box_key "NFT" a :=
              patch (replicate 128 Byte.x00) 0
                (nft_header a price royalty floor (decay_start_of ctx decay) buyout 0 0
                            (sender ctx))]> (boxes s))
         (muse_treasury s) (total_volume s) (total_royalties_paid s)
         (nft_count s + 1) (live_auctions s)
         (itxns s ++ [AssetConfig 1 0 0 name unit_name url hash
                        (current_application_address ctx) None None (sender ctx)
                        (Some (String.list_byte_of_string "arc69"))]).
Proof.
  intros H Hfresh. unfold mint_nft in H. inv_ok H.
  apply Val_inj in Hrun1. subst x3.
  apply decay_start_Val in Hrun2 as [-> Hdecay].
  apply BoxCreate_Ok in Hrun3 as [[Hex _]|[_ ->]].
  { cbn in Hex. rewrite Hfresh in Hex. by destruct Hex. }
  cbn [Txn_sender] in Hrun4. rewrite Concat_nft_header in Hrun4.
  apply Val_inj in Hrun4. subst x8.
  cbn in Hbox. rewrite lookup_insert_eq in Hbox. injection Hbox as <-.
  apply set_nft_count_Ok in Hrun5 as (v & Hv & ->).
  cbn in Hrun, Hrun0, Hv. vals.
  destruct (decide (nft_count s + 1 ≤ uint64_max)); cbn in Hv; [|done]. vals. subst v.
  split_and!; try done; [lia|].
  cbn. by rewrite insert_insert_eq.
Qed.
End Mint.

Lemma rwa_layout (h c a r rest : bytes) :
  length h = 32%nat → length c = 32%nat → length a = 32%nat → length r = 8%nat →
  let b := h ++ c ++ a ++ r ++ rest in
  RWA.physical_hash b = h ∧ RWA.custodian b = c ∧ RWA.authenticator b = a ∧
  RWA.redemption_round b = btoi r.
Proof.
  intros Hh Hc Ha Hr b. subst b.
  unfold RWA.physical_hash, RWA.custodian, RWA.authenticator, RWA.redemption_round,
    u64_at, bytes_at.
  split_and!.
  - rewrite drop_0. by rewrite take_app_length'.
  - do 1 (rewrite drop_app_ge by lia). rewrite Hh. cbn [Nat.sub]. rewrite drop_0.
    by rewrite take_app_length'.
  - do 2 (rewrite drop_app_ge by lia). rewrite Hh, Hc. cbn [Nat.sub]. rewrite drop_0.
    by rewrite take_app_length'.
  - do 3 (rewrite drop_app_ge by lia). rewrite Hh, Hc, Ha. cbn [Nat.sub]. rewrite drop_0.
    by rewrite take_app_length'.
Qed.

Section Views.
Context (id : Z) (s : State).

Lemma get_nft_info_run b :
  boxes s !! box_key "NFT" id = Some b → (96 ≤ length b)%nat →
  get_nft_info id s
  = Ok (NFT.price b, NFT.royalty_bps b, NFT.floor_bps b, NFT.decay_start b,
        NFT.buyout_price b, NFT.transfers b, NFT.flags b, NFT.creator b) s.
Proof.
  intros Hb Hl. unfold get_nft_info. run. rewrite Hb. run. reflexivity.
Qed.

Lemma get_nft_info_missing :
  boxes s !! box_key "NFT" id = None →
  get_nft_info id s = Fail (assert_failed "") s.
Proof. intros Hb. unfold get_nft_info. run. rewrite Hb. by run. Qed.

Lemma get_auction_info_run b :
  boxes s !! box_key "AUC" id = Some b → (88 ≤ length b)%nat →
  get_auction_info id s
  = Ok (AUC.end_round b, AUC.highest_bid b, AUC.highest_bidder b, AUC.seller b) s.
Proof.
  intros Hb Hl. unfold get_auction_info. run. rewrite Hb. run. reflexivity.
Qed.

Lemma get_auction_info_missing :
  boxes s !! box_key "AUC" id = None →
  get_auction_info id s = Fail (assert_failed "No active auction") s.
Proof. intros Hb. unfold get_auction_info. run. rewrite Hb. by run. Qed.
End Views.

Lemma BoxCreate_Ok_sized key size s u s' :
  BoxCreate key size s = Ok u s' →
  ∃ b, length b = size ∧ s' = set_boxes (insert key b) s ∧
       (boxes s !! key = None → b = replicate size Byte.x00) ∧
       (∀ old, boxes s !! key = Some old → b = old).
Proof.
  unfold BoxCreate. destruct (boxes s !! key) as [b|] eqn:E.
  - case_decide; [|done]. intros [= <-]. exists b. split_and!; try done.
    + destruct s. unfold set_boxes. cbn in *. by rewrite insert_id.
    + by intros old [= <-].
  - intros [= <-]. exists (replicate size Byte.x00).
    split_and!; try done. by rewrite length_replicate.
Qed.

Section MintRwa.
Context (ctx : Ctx) (s : State).
Context (name unit_name url hash phys custodian authenticator : bytes)
        (price royalty floor decay buyout : Z).

Lemma mint_rwa_Ok a s' :
  mint_rwa ctx name unit_name url hash phys custodian authenticator
           price royalty floor decay buyout s = Ok a s' →
  boxes s !! box_key "NFT" (created_asset_id ctx) = None →
  ∃ rwa0,
  a = created_asset_id ctx ∧
  royalty ≤ 2000 ∧
  (decay ≠ 0 → round ctx + decay ≤ uint64_max) ∧
  length rwa0 = 104%nat ∧
  (length phys + length custodian + length authenticator + 8 ≤ 104)%nat ∧
  boxes s' =
    <[box_key "RWA" a := patch rwa0 0 (phys ++ custodian ++ authenticator ++ itob 0)]>
      (<[box_key "NFT" a :=
           patch (replicate 128 Byte.x00) 0
             (nft_header a price royalty floor (decay_start_of ctx decay) buyout 0 1
                         (sender ctx))]> (boxes s)) ∧
  nft_count s' = nft_count s + 1 ∧
  muse_treasury s' = muse_treasury s ∧ total_volume s' = total_volume s ∧
  total_royalties_paid s' = total_royalties_paid s ∧
  live_auctions s' = live_auctions s ∧
  itxns s' = itxns s ++ [AssetConfig 1 0 1 name unit_name url hash
                           (current_application_address ctx)
                           (Some (current_application_address ctx))
                           (Some (current_application_address ctx)) custodian None].
Proof.
  intros H Hfresh. unfold mint_rwa in H. inv_ok H.
  apply Val_inj in Hrun0. subst x2.
  apply BoxCreate_Ok in Hrun1 as [[Hex _]|[_ ->]].
  { cbn in Hex. rewrite Hfresh in Hex. by destruct Hex. }
  cbn in Hbox. rewrite lookup_insert_eq in Hbox. injection Hbox as <-.
  assert (∃ ds, IfE (Int decay == Int 0)%teal (Int 0) (Global_round ctx + Int decay)%teal
                = Val ds) as [ds Hds].
  { destruct (IfE _ _ _) as [ds|e] eqn:E; [eauto|]. cbn -[itob app] in Hrun2. done. }
  rewrite Hds in Hrun2. apply decay_start_Val in Hds as [-> Hdecay].
  change FLAG_IS_RWA with (Int 1) in Hrun2.
  cbn [Txn_sender] in Hrun2. rewrite Concat_nft_header in Hrun2.
  apply Val_inj in Hrun2. subst x6.
  apply BoxCreate_Ok_sized in Hrun3 as (rwa0 & Hl0 & -> & _ & _).
  cbn in Hbox0. rewrite lookup_insert_eq in Hbox0. injection Hbox0 as <-.
  cbn -[itob app] in Hrun4. apply Val_inj in Hrun4. subst x11.
  rewrite app_nil_r in *.
  apply set_nft_count_Ok in Hrun5 as (v & Hv & ->).
  cbn in Hrun, Hv. vals.
  destruct (decide (nft_count s + 1 ≤ uint64_max)); cbn in Hv; [|done]. vals. subst v.
  rewrite !length_app, length_itob in Hlen0.
  exists rwa0. split_and!; try done; [lia|].
  cbn. by rewrite !insert_insert_eq.
Qed.
End MintRwa.

Lemma length_zeros n : length (replicate n Byte.x00) = n.
Proof. apply length_replicate. Qed.

(** X4: a successful [mint_nft] returns the id the ledger gave the new
    asset, has checked [floor <= royalty <= 2000], counts the asset, and
    stores a 128-byte record that [get_nft_info] reads back as the
    arguments, with no transfers, no flags and the caller as creator. *)
Theorem mint_nft_then_get_nft_info ctx s name unit_name url hash
    price royalty floor decay buyout a s' :
  mint_nft ctx name unit_name url hash price royalty floor decay buyout s = Ok a s' →
  boxes s !! box_key "NFT" (created_asset_id ctx) = None →
  length (sender ctx) = 32%nat →
  0 ≤ price < 2 ^ 64 → 0 ≤ floor → 0 ≤ buyout < 2 ^ 64 → 0 ≤ decay → 0 ≤ round ctx →
  a = created_asset_id ctx ∧
  floor ≤ royalty ≤ 2000 ∧
  get_nft_info a s'
  = Ok (price, royalty, floor,
        (if decide (decay = 0) then 0 else round ctx + decay),
        buyout, 0, 0, sender ctx) s' ∧
  (∃ b, boxes s' !! box_key "NFT" a = Some b ∧ length b = 128%nat) ∧
  (∀ k, k ≠ box_key "NFT" a → boxes s' !! k = boxes s !! k) ∧
  nft_count s' = nft_count s + 1.
Proof.
  intros H Hfresh Hs Hp Hf Hbo Hd Hr.
  apply mint_nft_Ok in H as (-> & Hroy & Hfloor & Hdecay & Hcount & Hacc & _ & ->);
    [|done].
  assert (0 ≤ decay_start_of ctx decay < 2 ^ 64) as Hds.
  { unfold decay_start_of. case_decide; [lia|].
    specialize (Hdecay ltac:(done)). unfold uint64_max in Hdecay. lia. }
  destruct (nft_header_fields (created_asset_id ctx) price royalty floor
              (decay_start_of ctx decay) buyout 0 0 (sender ctx)
              (replicate 128 Byte.x00))
    as (El & E1 & E2 & E3 & E4 & E5 & E6 & E7 & E8);
    rewrite ?length_zeros; try (done || lia).
  rewrite length_zeros in El.
  split; [done|]. split; [done|]. split_and!.
  - rewrite (get_nft_info_run _ _ _ (lookup_insert_eq _ _ _)) by (rewrite El; lia).
    rewrite E1, E2, E3, E4, E5, E6, E7, E8. reflexivity.
  - eexists. split; [cbn; apply lookup_insert_eq|done].
  - intros k Hk. cbn. by rewrite lookup_insert_ne.
  - reflexivity.
Qed.

(** X5: [mint_nft] fails, before anything is submitted or written, when
    the royalty is above 2000 basis points or the floor is above the
    royalty; [mint_rwa] makes the first check only. *)
Theorem mint_rejects_bad_royalty ctx s name unit_name url hash
    price royalty floor decay buyout :
  (2000 < royalty →
   mint_nft ctx name unit_name url hash price royalty floor decay buyout s
   = Fail (assert_failed "Royalty exceeds 20%") s) ∧
  (royalty ≤ 2000 → royalty < floor →
   mint_nft ctx name unit_name url hash price royalty floor decay buyout s
   = Fail (assert_failed "Floor must be <= royalty") s) ∧
  (∀ phys custodian authenticator,
     2000 < royalty →
     mint_rwa ctx name unit_name url hash phys custodian authenticator
              price royalty floor decay buyout s
     = Fail (assert_failed "Royalty exceeds 20%") s).
Proof.
  split_and!.
  - intros H. unfold mint_nft. run. cbn.
    rewrite bool_decide_eq_false_2 by lia. by run.
  - intros H1 H2. unfold mint_nft. run. cbn.
    rewrite bool_decide_eq_true_2 by lia. run.
    rewrite bool_decide_eq_false_2 by lia. by run.
  - intros phys custodian authenticator H. unfold mint_rwa. run. cbn.
    rewrite bool_decide_eq_false_2 by lia. by run.
Qed.

Section Pending.
Context (ctx : Ctx) (s : State).
Context (name unit_name url hash phys custodian authenticator : bytes)
        (price royalty floor decay buyout : Z) (a : Z) (s' : State).
Hypothesis Hmint :
  mint_rwa ctx name unit_name url hash phys custodian authenticator
           price royalty floor decay buyout s = Ok a s'.
Hypothesis Hfresh : boxes s !! box_key "NFT" (created_asset_id ctx) = None.
Hypothesis Hs : length (sender ctx) = 32%nat.
Hypothesis Hp : 0 ≤ price < 2 ^ 64.
Hypothesis Hroy : 0 ≤ royalty.
Hypothesis Hf : 0 ≤ floor < 2 ^ 64.
Hypothesis Hbo : 0 ≤ buyout < 2 ^ 64.
Hypothesis Hd : 0 ≤ decay.
Hypothesis Hr : 0 ≤ round ctx.

Lemma mint_rwa_record :
  ∃ b, boxes s' !! box_key "NFT" a = Some b ∧ length b = 128%nat ∧
    NFT.price b = price ∧ NFT.royalty_bps b = royalty ∧ NFT.floor_bps b = floor ∧
    NFT.decay_start b = decay_start_of ctx decay ∧ NFT.buyout_price b = buyout ∧
    NFT.transfers b = 0 ∧ NFT.flags b = 1 ∧ NFT.creator b = sender ctx ∧
    a = created_asset_id ctx ∧ royalty ≤ 2000 ∧
    (decay ≠ 0 → round ctx + decay ≤ uint64_max).
Proof using All.
  destruct (mint_rwa_Ok _ _ _ _ _ _ _ _ _ _ _ _ _ _ _ _ Hmint Hfresh)
    as (rwa0 & -> & Hmax & Hdecay & Hl0 & Hlens & Hboxes & _).
  assert (0 ≤ decay_start_of ctx decay < 2 ^ 64) as Hds.
  { unfold decay_start_of. case_decide; [lia|].
    specialize (Hdecay ltac:(done)). unfold uint64_max in Hdecay. lia. }
  destruct (nft_header_fields (created_asset_id ctx) price royalty floor
              (decay_start_of ctx decay) buyout 0 1 (sender ctx)
              (replicate 128 Byte.x00))
    as (El & E1 & E2 & E3 & E4 & E5 & E6 & E7 & E8);
    rewrite ?length_zeros; try (done || lia).
  rewrite length_zeros in El.
  eexists. split.
  { rewrite Hboxes. rewrite lookup_insert_ne by (by apply box_key_tag_ne).
    apply lookup_insert_eq. }
  split_and!; done.
Qed.

Lemma mint_rwa_box :
  length phys = 32%nat → length custodian = 32%nat → length authenticator = 32%nat →
  ∃ rwa, boxes s' !! box_key "RWA" a = Some rwa ∧ length rwa = 104%nat ∧
    RWA.physical_hash rwa = phys ∧ RWA.custodian rwa = custodian ∧
    RWA.authenticator rwa = authenticator ∧ RWA.redemption_round rwa = 0.
Proof using All.
  intros Hlp Hlc Hla.
  destruct (mint_rwa_Ok _ _ _ _ _ _ _ _ _ _ _ _ _ _ _ _ Hmint Hfresh)
    as (rwa0 & -> & _ & _ & Hl0 & Hlens & Hboxes & _).
  eexists. split; [rewrite Hboxes; apply lookup_insert_eq|].
  split.
  { rewrite length_patch by (rewrite !length_app, length_itob; lia). done. }
  unfold patch. rewrite take_0, app_nil_l, <-!app_assoc.
  match goal with
  | |- context [itob 0 ++ ?rest] =>
      pose proof (rwa_layout phys custodian authenticator (itob 0) rest
                    Hlp Hlc Hla (length_itob 0)) as (E1 & E2 & E3 & E4)
  end.
  rewrite btoi_itob in E4 by lia. exact (conj E1 (conj E2 (conj E3 E4))).
Qed.
End Pending.

Lemma decay_start_run ctx decay :
  (decay ≠ 0 → round ctx + decay ≤ uint64_max) →
  IfE (Int decay == Int 0)%teal (Int 0) (Global_round ctx + Int decay)%teal
  = Val (decay_start_of ctx decay).
Proof.
  intros H. unfold decay_start_of. cbn. destruct (decide (decay = 0)) as [->|Hd]; [done|].
  rewrite bool_decide_eq_false_2 by done. cbn. by rewrite decide_True by auto.
Qed.

Lemma BoxCreate_run_fresh key n s :
  boxes s !! key = None →
  BoxCreate key n s = Ok () (set_boxes (insert key (replicate n Byte.x00)) s).
Proof. intros H. unfold BoxCreate. by rewrite H. Qed.

Lemma set_nft_count_run v s :
  set_nft_count (Val v) s
  = Ok () (mkState (boxes s) (muse_treasury s) (total_volume s) (total_royalties_paid s)
             v (live_auctions s) (itxns s)).
Proof. reflexivity. Qed.

Section MintRwaRun.
Context (ctx : Ctx) (s : State).
Context (name unit_name url hash phys custodian authenticator : bytes)
        (price royalty floor decay buyout : Z).

Lemma mint_rwa_run :
  royalty ≤ 2000 →
  accepts ctx (AssetConfig 1 0 1 name unit_name url hash
                 (current_application_address ctx)
                 (Some (current_application_address ctx))
                 (Some (current_application_address ctx)) custodian None) = true →
  boxes s !! box_key "NFT" (created_asset_id ctx) = None →
  boxes s !! box_key "RWA" (created_asset_id ctx) = None →
  length (sender ctx) = 32%nat →
  (length phys + length custodian + length authenticator + 8 ≤ 104)%nat →
  (decay ≠ 0 → round ctx + decay ≤ uint64_max) →
  nft_count s + 1 ≤ uint64_max →
  ∃ s', mint_rwa ctx name unit_name url hash phys custodian authenticator
                 price royalty floor decay buyout s
        = Ok (created_asset_id ctx) s'.
Proof.
  intros Hroy Hacc Hnft Hrwa Hs Hlens Hdecay Hcount.
  unfold mint_rwa. rewrite decay_start_run by done.
  change FLAG_IS_RWA with (Int 1). unfold Txn_sender.
  rewrite Concat_nft_header.
  assert (Concat [Val phys; Val custodian; Val authenticator; Itob (Int 0)]
          = Val (phys ++ custodian ++ authenticator ++ itob 0)) as ->
    by (cbn -[itob app]; by rewrite app_nil_r).
  run. cbn -[itob app nft_header].
  rewrite bool_decide_eq_true_2 by done. run.
  rewrite Submit_run by done. run.
  rewrite BoxCreate_run_fresh by done. run.
  rewrite (BoxReplace_run _ _ _ (replicate 128 Byte.x00))
    by first [ cbn; apply lookup_insert_eq
             | rewrite length_nft_header by done; rewrite length_replicate; lia ].
  run. rewrite BoxCreate_run_fresh; cycle 1.
  { cbn. rewrite lookup_insert_ne by (by apply box_key_tag_ne).
    by rewrite lookup_insert_ne by (by apply box_key_tag_ne). }
  run.
  rewrite (BoxReplace_run _ _ _ (replicate 104 Byte.x00))
    by first [ cbn; apply lookup_insert_eq
             | rewrite !length_app, length_itob, length_replicate; lia ].
  run. cbn. rewrite decide_True by done. cbn. rewrite set_nft_count_run. run.
  eauto.
Qed.
End MintRwaRun.

Lemma royalty_of_floor_above ctx b :
  ¬ flag_set (NFT.flags b) ROYALTY_WAIVED →
  0 < NFT.decay_start b ≤ round ctx →
  NFT.royalty_bps b < NFT.floor_bps b →
  royalty_of ctx b = Raise underflow.
Proof.
  intros Hw Hd Hfr. unfold royalty_of.
  rewrite decide_False by done. rewrite decide_False by lia.
  rewrite decide_False by lia. by rewrite decide_False by lia.
Qed.

Lemma buy_nft_needs_royalty ctx id p s b :
  boxes s !! box_key "NFT" id = Some b →
  (∀ rb, royalty_of ctx b ≠ Val rb) →
  fails (buy_nft ctx id p s).
Proof.
  intros Hb Hno. destruct (buy_nft ctx id p s) as [[] s'|] eqn:E; [|done].
  apply buy_nft_Ok in E as (b0 & rb & (Hb0 & _ & _ & Hroy & _) & _).
  rewrite Hb in Hb0. injection Hb0 as <-. by apply (Hno rb).
Qed.

Lemma settle_auction_needs_royalty ctx id s b auc :
  boxes s !! box_key "NFT" id = Some b →
  boxes s !! box_key "AUC" id = Some auc →
  AUC.highest_bidder auc ≠ zero_address →
  (∀ rb, royalty_of ctx b ≠ Val rb) →
  fails (settle_auction ctx id s).
Proof.
  intros Hb Hauc Hbidder Hno.
  destruct (settle_auction ctx id s) as [[] s'|] eqn:E; [|done].
  apply settle_auction_Ok in E as (auc0 & b0 & Hauc0 & Hb0 & _ & _ & _ & _ & H).
  rewrite Hb in Hb0. injection Hb0 as <-.
  rewrite Hauc in Hauc0. injection Hauc0 as <-.
  rewrite decide_False in H by done. destruct H as (rb & _ & Hroy & _).
  by apply (Hno rb).
Qed.

(** X6: [mint_rwa] does not compare the floor with the royalty: it stores a
    record with [floor_bps > royalty_bps] as it stores any other.  On such a
    record, once the decay has started, the royalty computation fails on
    [royalty - floor], and with it every [buy_nft] and every settlement of
    an auction that has a bidder. *)
Theorem mint_rwa_floor_above_royalty :
  (∀ ctx s name unit_name url hash phys custodian authenticator
     price royalty floor decay buyout,
     0 ≤ royalty ≤ 2000 → royalty < floor < 2 ^ 64 →
     0 ≤ price < 2 ^ 64 → 0 ≤ buyout < 2 ^ 64 → 0 ≤ decay → 0 ≤ round ctx →
     accepts ctx (AssetConfig 1 0 1 name unit_name url hash
                    (current_application_address ctx)
                    (Some (current_application_address ctx))
                    (Some (current_application_address ctx)) custodian None) = true →
     boxes s !! box_key "NFT" (created_asset_id ctx) = None →
     boxes s !! box_key "RWA" (created_asset_id ctx) = None →
     length (sender ctx) = 32%nat →
     (length phys + length custodian + length authenticator + 8 ≤ 104)%nat →
     (decay ≠ 0 → round ctx + decay ≤ uint64_max) →
     nft_count s + 1 ≤ uint64_max →
     ∃ s' b,
       mint_rwa ctx name unit_name url hash phys custodian authenticator
                price royalty floor decay buyout s = Ok (created_asset_id ctx) s' ∧
       boxes s' !! box_key "NFT" (created_asset_id ctx) = Some b ∧
       NFT.royalty_bps b = royalty ∧ NFT.floor_bps b = floor ∧
       NFT.decay_start b = (if decide (decay = 0) then 0 else round ctx + decay)) ∧
  (∀ ctx id s b,
     boxes s !! box_key "NFT" id = Some b → (64 ≤ length b)%nat →
     NFT.royalty_bps b < NFT.floor_bps b →
     ¬ flag_set (NFT.flags b) ROYALTY_WAIVED →
     0 < NFT.decay_start b ≤ round ctx →
     current_royalty_bps ctx id s = Fail underflow s ∧
     (∀ p, fails (buy_nft ctx id p s)) ∧
     (∀ auc, boxes s !! box_key "AUC" id = Some auc →
             AUC.highest_bidder auc ≠ zero_address →
             fails (settle_auction ctx id s))).
Proof.
  split.
  - intros ctx s name unit_name url hash phys custodian authenticator
      price royalty floor decay buyout Hroy Hfl Hp Hbo Hd Hr Hacc Hnft Hrwa Hs Hlens
      Hdecay Hcount.
    destruct (mint_rwa_run ctx s name unit_name url hash phys custodian authenticator
                price royalty floor decay buyout) as [s' Hmint]; try (done || lia).
    destruct (mint_rwa_record ctx s name unit_name url hash phys custodian authenticator
                price royalty floor decay buyout _ s' Hmint)
      as (b & Hb & _ & _ & E2 & E3 & E4 & _); try (done || lia).
    exists s', b. by split_and!.
  - intros ctx id s b Hb Hl Hfr Hw Hd.
    pose proof (royalty_of_floor_above ctx b Hw Hd Hfr) as Hroy.
    split_and!.
    + rewrite (current_royalty_bps_eq ctx id s b Hb Hl), Hroy. reflexivity.
    + intros p. eapply buy_nft_needs_royalty; [done|]. intros rb. by rewrite Hroy.
    + intros auc Hauc Hbidder. eapply settle_auction_needs_royalty; [done..|].
      intros rb. by rewrite Hroy.
Qed.

Lemma validate_wrong_sender ctx id s rwa nft :
  boxes s !! box_key "RWA" id = Some rwa → (96 ≤ length rwa)%nat →
  boxes s !! box_key "NFT" id = Some nft →
  RWA.authenticator rwa ≠ sender ctx →
  validate_physical_asset ctx id s
  = Fail (assert_failed "Only registered authenticator can validate") s.
Proof.
  intros Hrwa Hl Hnft Hne. unfold validate_physical_asset. run.
  rewrite Hrwa, Hnft. run. cbn. fold (RWA.authenticator rwa).
  rewrite bool_decide_eq_false_2 by done. by run.
Qed.

Lemma validate_no_rwa ctx id s :
  boxes s !! box_key "RWA" id = None →
  validate_physical_asset ctx id s = Fail (assert_failed "Not an RWA asset") s.
Proof. intros Hrwa. unfold validate_physical_asset. run. rewrite Hrwa. by run. Qed.

(** X7: the asset a successful [mint_rwa] creates is stored as an RWA that
    is not authenticated: [get_nft_info] reads the arguments back with the
    flags [IS_RWA] alone, the RWA box holds the custodian and the
    authenticator given; it cannot be bought ("RWA not yet authenticated")
    nor redeemed, and only the authenticator gets past the sender check of
    [validate_physical_asset]. *)
Theorem mint_rwa_pending_authentication ctx s name unit_name url hash phys custodian
    authenticator price royalty floor decay buyout a s' :
  mint_rwa ctx name unit_name url hash phys custodian authenticator
           price royalty floor decay buyout s = Ok a s' →
  boxes s !! box_key "NFT" (created_asset_id ctx) = None →
  length (sender ctx) = 32%nat →
  length phys = 32%nat → length custodian = 32%nat → length authenticator = 32%nat →
  0 < price < 2 ^ 64 → 0 ≤ royalty → 0 ≤ floor < 2 ^ 64 → 0 ≤ buyout < 2 ^ 64 →
  0 ≤ decay → 0 ≤ round ctx →
  a = created_asset_id ctx ∧
  get_nft_info a s'
  = Ok (price, royalty, floor, (if decide (decay = 0) then 0 else round ctx + decay),
        buyout, 0, 1, sender ctx) s' ∧
  (∃ rwa, boxes s' !! box_key "RWA" a = Some rwa ∧
          RWA.physical_hash rwa = phys ∧ RWA.custodian rwa = custodian ∧
          RWA.authenticator rwa = authenticator ∧ RWA.redemption_round rwa = 0) ∧
  (∀ buyer p, buy_nft buyer a p s' = Fail (assert_failed "RWA not yet authenticated") s') ∧
  (∀ caller info, fails (redeem_physical_asset caller a info s')) ∧
  (∀ caller, sender caller ≠ authenticator →
     validate_physical_asset caller a s'
     = Fail (assert_failed "Only registered authenticator can validate") s').
Proof.
  intros Hmint Hfresh Hs Hlp Hlc Hla Hp Hroy Hf Hbo Hd Hr.
  destruct (mint_rwa_record ctx s name unit_name url hash phys custodian authenticator
              price royalty floor decay buyout a s' Hmint Hfresh Hs)
    as (b & Hb & Hl & E1 & E2 & E3 & E4 & E5 & E6 & E7 & E8 & Ea & _); try (done || lia).
  destruct (mint_rwa_box ctx s name unit_name url hash phys custodian authenticator
              price royalty floor decay buyout a s' Hmint Hfresh Hs)
    as (rwa & Hrwa & Hlr & R1 & R2 & R3 & R4); try (done || lia).
  split; [done|]. split_and!.
  - rewrite (get_nft_info_run a s' b Hb) by lia.
    by rewrite E1, E2, E3, E4, E5, E6, E7, E8.
  - eauto 10.
  - intros buyer p. apply (buy_nft_not_authenticated buyer a p s' b Hb); try lia.
    all: unfold flag_set; rewrite E7; vm_compute; congruence.
  - intros caller info. apply (redeem_fails_unauthenticated caller s' a info b Hb).
    unfold authenticated, flag_set. rewrite E7. vm_compute. congruence.
  - intros caller Hne. apply (validate_wrong_sender caller a s' rwa b Hrwa); try (done || lia).
    by rewrite R3.
Qed.

Lemma uint32_be_Val v : uint32_be v = Val (itob_n 4 v).
Proof.
  unfold uint32_be. cbn [Itob Int mbind Ex_bind]. rewrite Extract_Val
    by (rewrite length_itob; lia).
  reflexivity.
Qed.

Lemma btoi_u32 v : 0 ≤ v < 2 ^ 32 → btoi (itob_n 4 v) = v.
Proof.
  intros Hv. rewrite btoi_itob_n. change (256 ^ Z.of_nat 4) with (2 ^ 32).
  by apply Z.mod_small.
Qed.

Lemma length_spl_entry addr v : length addr = 32%nat → length (spl_entry addr v) = 40%nat.
Proof. intros H. unfold spl_entry. rewrite !length_app, length_itob_n, H. done. Qed.

(** the fields of an entry that starts at offset [length pre] *)
Lemma spl_entry_fields pre addr v rest off :
  length addr = 32%nat → length pre = off →
  bytes_at (pre ++ spl_entry addr v ++ rest) off 32 = addr ∧
  u32_at (pre ++ spl_entry addr v ++ rest) (off + 32) = v mod 2 ^ 32 ∧
  u32_at (pre ++ spl_entry addr v ++ rest) (off + 36) = 0.
Proof.
  intros Ha <-. unfold bytes_at, u32_at, spl_entry. rewrite <-!app_assoc. split_and!.
  - rewrite drop_app_length. by rewrite take_app_length'.
  - rewrite drop_app_add' by done. rewrite drop_app_length' by done.
    rewrite take_app_length' by (by rewrite length_itob_n).
    by rewrite btoi_itob_n.
  - rewrite drop_app_add' by done.
    replace 36%nat with (32 + 4)%nat by lia.
    rewrite drop_app_add' by done.
    rewrite drop_app_length' by (by rewrite length_itob_n).
    reflexivity.
Qed.

Lemma spl_fields a1 s1 a2 s2 a3 s3 a4 s4 rest :
  length a1 = 32%nat → length a2 = 32%nat → length a3 = 32%nat → length a4 = 32%nat →
  let spl := (spl_entry a1 s1 ++ spl_entry a2 s2 ++ spl_entry a3 s3 ++ spl_entry a4 s4)
             ++ rest in
  map (SPL.address spl) [0; 1; 2; 3]%nat = [a1; a2; a3; a4] ∧
  map (SPL.share_bps spl) [0; 1; 2; 3]%nat
  = [s1 mod 2 ^ 32; s2 mod 2 ^ 32; s3 mod 2 ^ 32; s4 mod 2 ^ 32] ∧
  map (SPL.accepted spl) [0; 1; 2; 3]%nat = [0; 0; 0; 0].
Proof.
  intros H1 H2 H3 H4 spl. subst spl.
  pose proof (spl_entry_fields [] a1 s1
                (spl_entry a2 s2 ++ spl_entry a3 s3 ++ spl_entry a4 s4 ++ rest) 0 H1
                eq_refl) as (A1 & B1 & C1).
  pose proof (spl_entry_fields (spl_entry a1 s1) a2 s2
                (spl_entry a3 s3 ++ spl_entry a4 s4 ++ rest) 40 H2
                (length_spl_entry _ _ H1)) as (A2 & B2 & C2).
  assert (length (spl_entry a1 s1 ++ spl_entry a2 s2) = 80%nat) as L2
    by (rewrite length_app, !length_spl_entry by done; done).
  pose proof (spl_entry_fields (spl_entry a1 s1 ++ spl_entry a2 s2) a3 s3
                (spl_entry a4 s4 ++ rest) 80 H3 L2) as (A3 & B3 & C3).
  assert (length (spl_entry a1 s1 ++ spl_entry a2 s2 ++ spl_entry a3 s3) = 120%nat) as L3
    by (rewrite !length_app, !length_spl_entry by done; done).
  pose proof (spl_entry_fields (spl_entry a1 s1 ++ spl_entry a2 s2 ++ spl_entry a3 s3)
                a4 s4 rest 120 H4 L3) as (A4 & B4 & C4).
  rewrite <-!app_assoc in A3. rewrite <-!app_assoc in B3. rewrite <-!app_assoc in C3.
  rewrite <-!app_assoc in A4. rewrite <-!app_assoc in B4. rewrite <-!app_assoc in C4.
  rewrite <-!app_assoc.
  cbn [app] in A1, B1, C1.
  unfold SPL.address, SPL.share_bps, SPL.accepted. cbn [map].
  split_and!.
  - f_equal; [exact A1|]. f_equal; [exact A2|]. f_equal; [exact A3|]. f_equal. exact A4.
  - f_equal; [exact B1|]. f_equal; [exact B2|]. f_equal; [exact B3|]. f_equal. exact B4.
  - f_equal; [exact C1|]. f_equal; [exact C2|]. f_equal; [exact C3|]. f_equal. exact C4.
Qed.

Lemma Concat_spl a1 s1 a2 s2 a3 s3 a4 s4 :
  Concat [Val a1; uint32_be s1; zero32; Val a2; uint32_be s2; zero32;
          Val a3; uint32_be s3; zero32; Val a4; uint32_be s4; zero32]
  = Val (spl_entry a1 s1 ++ spl_entry a2 s2 ++ spl_entry a3 s3 ++ spl_entry a4 s4).
Proof.
  rewrite !uint32_be_Val. unfold zero32, spl_entry. cbn -[itob_n app].
  rewrite <-!app_assoc. reflexivity.
Qed.

Section Register.
Context (ctx : Ctx) (a : Z) (s s' : State).
Context (a1 : bytes) (s1 : Z) (r1 : bytes) (a2 : bytes) (s2 : Z) (r2 : bytes)
        (a3 : bytes) (s3 : Z) (r3 : bytes) (a4 : bytes) (s4 : Z) (r4 : bytes).

Lemma register_co_creators_Ok_full :
  register_co_creators ctx a a1 s1 r1 a2 s2 r2 a3 s3 r3 a4 s4 r4 s = Ok () s' →
  ∃ nft spl0,
    boxes s !! box_key "NFT" a = Some nft ∧ (96 ≤ length nft)%nat ∧
    NFT.creator nft = sender ctx ∧
    (0 ≤ s1 → 0 ≤ s2 → 0 ≤ s3 → 0 ≤ s4 → s1 + s2 + s3 + s4 ≤ 10000) ∧
    length spl0 = 160%nat ∧
    (length (spl_entry a1 s1 ++ spl_entry a2 s2 ++ spl_entry a3 s3 ++ spl_entry a4 s4)
     ≤ 160)%nat ∧
    s' = set_boxes
           (insert (box_key "NFT" a) (patch nft 56 (itob (Z.lor (NFT.flags nft) 32))))
           (set_boxes
              (insert (box_key "SPL" a)
                 (patch spl0 0 (spl_entry a1 s1 ++ spl_entry a2 s2 ++
                                spl_entry a3 s3 ++ spl_entry a4 s4))) s).
Proof.
  intros H. unfold register_co_creators in H. inv_ok H.
  has_box Hrun nft Hnft. exists nft.
  rewrite Concat_spl in Hrun3. apply Val_inj in Hrun3. subst x6.
  apply BoxCreate_Ok_sized in Hrun2 as (spl0 & Hl0 & -> & _ & _). exists spl0.
  cbn in Hbox. rewrite lookup_insert_eq in Hbox. injection Hbox as <-.
  cbn in Hbox0. rewrite lookup_insert_ne in Hbox0 by (by apply box_key_tag_ne).
  rewrite lookup_insert_ne in Hbox0 by (by apply box_key_tag_ne).
  rewrite Hnft in Hbox0. injection Hbox0 as <-.
  destruct (decide (96 ≤ length nft)%nat) as [Hl|Hl]; cycle 1.
  { rewrite Extract_oob in Hrun0 by lia. done. }
  autorewrite with run in *. cbn in Hrun0, H. vals. subst.
  fold (NFT.creator nft) in *.
  split_and!; try done.
  - intros H1 H2 H3 H4. cbn in Hrun1.
    repeat (case_decide; cbn in Hrun1; [|done]). vals. done.
  - lia.
  - unfold set_boxes. cbn. by rewrite insert_insert_eq.
Qed.
End Register.

Lemma set_boxes_insert_id key b s :
  boxes s !! key = Some b → set_boxes (insert key b) s = s.
Proof. intros H. destruct s. unfold set_boxes. cbn in *. by rewrite insert_id. Qed.

Section AcceptStep.
Context (ctx : Ctx) (a : Z) (spl0 : bytes).

Lemma accept_step_Ok i found s cur found' s' :
  boxes s !! box_key "SPL" a = Some cur →
  If (BytesEq (Extract (Val spl0) (i * 40) 32) (Txn_sender ctx))
     (BoxReplace (box_key "SPL" a) (i * 40 + 36) one32 ≫= λ _ : (), mret 1)
     (mret found) s = Ok found' s' →
  (i * 40 + 32 ≤ length spl0)%nat ∧
  (SPL.address spl0 i = sender ctx → (i * 40 + 40 ≤ length cur)%nat) ∧
  found' = (if decide (SPL.address spl0 i = sender ctx) then 1 else found) ∧
  s' = set_boxes (insert (box_key "SPL" a) (accept_entry (sender ctx) spl0 cur i)) s.
Proof.
  intros Hcur H. unfold accept_entry.
  destruct (decide (i * 40 + 32 ≤ length spl0)%nat) as [Hl|Hl]; cycle 1.
  { apply If_Ok in H as [[Hc _]|[Hc _]]; rewrite Extract_oob in Hc by lia; done. }
  split; [done|]. rewrite Extract_Val in H by done. cbn in H.
  fold (SPL.address spl0 i) in H.
  destruct (decide (SPL.address spl0 i = sender ctx)) as [E|E].
  - rewrite bool_decide_eq_true_2 in H by done. rewrite If_true in H.
    inv_ok H. apply Val_inj in Hrun. subst.
    rewrite Hcur in Hbox. injection Hbox as <-.
    cbn in Hlen. split_and!; try done. intros _. lia.
  - rewrite bool_decide_eq_false_2 in H by done. rewrite If_false in H.
    apply mret_Ok in H as [-> ->]. split_and!; try done.
    by rewrite set_boxes_insert_id.
Qed.

Lemma accept_step_run i found s cur :
  boxes s !! box_key "SPL" a = Some cur →
  (i * 40 + 32 ≤ length spl0)%nat →
  (i * 40 + 40 ≤ length cur)%nat →
  If (BytesEq (Extract (Val spl0) (i * 40) 32) (Txn_sender ctx))
     (BoxReplace (box_key "SPL" a) (i * 40 + 36) one32 ≫= λ _ : (), mret 1)
     (mret found) s
  = Ok (if decide (SPL.address spl0 i = sender ctx) then 1 else found)
       (set_boxes (insert (box_key "SPL" a) (accept_entry (sender ctx) spl0 cur i)) s).
Proof.
  intros Hcur Hl Hlc. unfold accept_entry.
  rewrite Extract_Val by done. cbn. fold (SPL.address spl0 i).
  destruct (decide (SPL.address spl0 i = sender ctx)) as [E|E].
  - rewrite bool_decide_eq_true_2 by done. rewrite If_true.
    unfold one32. rewrite run_bind, (BoxReplace_run _ _ _ cur) by (done || (cbn; lia)).
    reflexivity.
  - rewrite bool_decide_eq_false_2 by done. rewrite If_false.
    by rewrite set_boxes_insert_id.
Qed.
End AcceptStep.

Lemma set_boxes_insert_twice key b1 b2 s :
  set_boxes (insert key b2) (set_boxes (insert key b1) s) = set_boxes (insert key b2) s.
Proof. unfold set_boxes. cbn. by rewrite insert_insert_eq. Qed.

Lemma lookup_set_boxes_insert key b s :
  boxes (set_boxes (insert key b) s) !! key = Some b.
Proof. cbn. apply lookup_insert_eq. Qed.

Lemma length_accept_entry who spl0 cur i :
  (i * 40 + 40 ≤ length cur)%nat → length (accept_entry who spl0 cur i) = length cur.
Proof.
  intros H. unfold accept_entry. case_decide; [|done]. apply length_patch. cbn. lia.
Qed.

Section Accept.
Context (ctx : Ctx) (a : Z) (s s' : State).

Lemma accept_collaboration_Ok :
  accept_collaboration ctx a s = Ok () s' →
  ∃ spl,
    boxes s !! box_key "SPL" a = Some spl ∧
    (152 ≤ length spl)%nat ∧
    registered (sender ctx) spl ∧
    s' = set_boxes (insert (box_key "SPL" a) (accepted_by (sender ctx) spl)) s.
Proof.
  intros H. unfold accept_collaboration in H. inv_ok H.
  has_box Hrun spl Hspl. exists spl. split; [done|].
  apply (accept_step_Ok ctx a spl 0 0 s spl _ _ Hspl) in Hrun1 as (L0 & _ & -> & ->).
  apply (accept_step_Ok ctx a spl 1 _ _ _ _ _ (lookup_set_boxes_insert _ _ _))
    in Hrun2 as (L1 & _ & -> & ->).
  apply (accept_step_Ok ctx a spl 2 _ _ _ _ _ (lookup_set_boxes_insert _ _ _))
    in Hrun3 as (L2 & _ & -> & ->).
  apply (accept_step_Ok ctx a spl 3 _ _ _ _ _ (lookup_set_boxes_insert _ _ _))
    in Hrun4 as (L3 & _ & -> & ->).
  rewrite !set_boxes_insert_twice.
  split; [lia|]. split; [|reflexivity].
  cbn in H. vals. unfold registered.
  repeat case_decide; try done; repeat (first [by apply Exists_cons_hd | apply Exists_cons_tl]).
Qed.

Lemma accept_collaboration_no_registry :
  boxes s !! box_key "SPL" a = None →
  accept_collaboration ctx a s
  = Fail (assert_failed "No co-creator registry for this NFT") s.
Proof. intros Hspl. unfold accept_collaboration. run. rewrite Hspl. by run. Qed.

Lemma accept_collaboration_run spl :
  boxes s !! box_key "SPL" a = Some spl →
  (160 ≤ length spl)%nat →
  accept_collaboration ctx a s
  = if decide (registered (sender ctx) spl)
    then Ok () (set_boxes (insert (box_key "SPL" a) (accepted_by (sender ctx) spl)) s)
    else Fail (assert_failed "Caller is not a registered co-creator") s.
Proof.
  intros Hspl Hl. unfold accept_collaboration.
  rewrite run_bind, BoxGet_run. cbv beta iota. rewrite Hspl, value_Some, hasValue_Some.
  rewrite run_bind, Assert_true. cbv beta iota. cbn [For_].
  rewrite run_bind.
  rewrite run_bind, (accept_step_run ctx a spl 0 0 s spl) by (done || lia).
  cbv beta iota.
  rewrite run_bind, (accept_step_run ctx a spl 1 _ _ _ (lookup_set_boxes_insert _ _ _))
    by (rewrite ?length_accept_entry; lia).
  cbv beta iota.
  rewrite run_bind, (accept_step_run ctx a spl 2 _ _ _ (lookup_set_boxes_insert _ _ _))
    by (rewrite ?length_accept_entry; rewrite ?length_accept_entry; lia).
  cbv beta iota.
  rewrite run_bind, (accept_step_run ctx a spl 3 _ _ _ (lookup_set_boxes_insert _ _ _))
    by (rewrite ?length_accept_entry; rewrite ?length_accept_entry;
        rewrite ?length_accept_entry; lia).
  cbv beta iota. rewrite !set_boxes_insert_twice.
  change (mret (M := M) ?x ?y) with (Ok x y). cbv beta iota.
  unfold registered.
  destruct (decide (SPL.address spl 3 = sender ctx)) as [E3|E3].
  { rewrite decide_True by (repeat (first [by apply Exists_cons_hd | apply Exists_cons_tl])).
    reflexivity. }
  destruct (decide (SPL.address spl 2 = sender ctx)) as [E2|E2].
  { rewrite decide_True by (repeat (first [by apply Exists_cons_hd | apply Exists_cons_tl])).
    reflexivity. }
  destruct (decide (SPL.address spl 1 = sender ctx)) as [E1|E1].
  { rewrite decide_True by (repeat (first [by apply Exists_cons_hd | apply Exists_cons_tl])).
    reflexivity. }
  destruct (decide (SPL.address spl 0 = sender ctx)) as [E0|E0].
  { rewrite decide_True by (repeat (first [by apply Exists_cons_hd | apply Exists_cons_tl])).
    reflexivity. }
  rewrite decide_False; cycle 1.
  { intros H. repeat (apply Exists_cons in H as [H|H]; [done|]). by apply Exists_nil in H. }
  unfold accept_entry. rewrite !decide_False by done.
  by rewrite set_boxes_insert_id.
Qed.
End Accept.

Lemma u32_at_patch_ne b off d off' :
  (off + length d ≤ length b)%nat →
  (off' + 4 ≤ off ∨ off + length d ≤ off')%nat →
  u32_at (patch b off d) off' = u32_at b off'.
Proof.
  intros H Hd. unfold u32_at.
  pose proof (bytes_at_patch_ne b off d off' 4 H Hd) as E.
  unfold bytes_at in E. by rewrite E.
Qed.

Lemma u32_at_accepted_word b off :
  (off + 4 ≤ length b)%nat → u32_at (patch b off accepted_word) off = 1.
Proof.
  intros H. unfold u32_at.
  pose proof (bytes_at_patch_eq b off accepted_word ltac:(lia)) as E.
  unfold bytes_at in E. cbn [length accepted_word] in E. by rewrite E.
Qed.

(** what accepting entry [i] does to the fields of entry [j] *)
Lemma accept_entry_fields who spl0 cur i j :
  (i < 4)%nat → (j < 4)%nat → (160 ≤ length cur)%nat →
  let cur' := accept_entry who spl0 cur i in
  SPL.address cur' j = SPL.address cur j ∧
  SPL.share_bps cur' j = SPL.share_bps cur j ∧
  SPL.accepted cur' j
  = (if decide (i = j ∧ SPL.address spl0 i = who) then 1 else SPL.accepted cur j).
Proof.
  intros Hi Hj Hl cur'. subst cur'. unfold accept_entry.
  destruct (decide (SPL.address spl0 i = who)) as [E|E]; cycle 1.
  { split_and!; try done. rewrite decide_False; [done|]. by intros [_ ?]. }
  unfold SPL.address, SPL.share_bps, SPL.accepted. split_and!.
  - apply bytes_at_patch_ne; cbn [length accepted_word]; lia.
  - apply u32_at_patch_ne; cbn [length accepted_word]; lia.
  - destruct (decide (i = j)) as [->|Hne].
    + rewrite decide_True by done. apply u32_at_accepted_word. lia.
    + rewrite decide_False by (by intros [? _]).
      apply u32_at_patch_ne; cbn [length accepted_word]; lia.
Qed.

Lemma accepted_by_fields who spl j :
  (j < 4)%nat → (160 ≤ length spl)%nat →
  length (accepted_by who spl) = length spl ∧
  SPL.address (accepted_by who spl) j = SPL.address spl j ∧
  SPL.share_bps (accepted_by who spl) j = SPL.share_bps spl j ∧
  SPL.accepted (accepted_by who spl) j
  = (if decide (SPL.address spl j = who) then 1 else SPL.accepted spl j).
Proof.
  intros Hj Hl. unfold accepted_by. cbn [foldl].
  set (c0 := accept_entry who spl spl 0).
  set (c1 := accept_entry who spl c0 1).
  set (c2 := accept_entry who spl c1 2).
  assert (length c0 = length spl) as L0 by (apply length_accept_entry; lia).
  assert (length c1 = length spl) as L1
    by (unfold c1; rewrite length_accept_entry; lia).
  assert (length c2 = length spl) as L2
    by (unfold c2; rewrite length_accept_entry; lia).
  destruct (accept_entry_fields who spl spl 0 j) as (A0 & B0 & C0); [lia..|].
  destruct (accept_entry_fields who spl c0 1 j) as (A1 & B1 & C1); [lia..|].
  destruct (accept_entry_fields who spl c1 2 j) as (A2 & B2 & C2); [lia..|].
  destruct (accept_entry_fields who spl c2 3 j) as (A3 & B3 & C3); [lia..|].
  fold c0 in A0, B0, C0. fold c1 in A1, B1, C1. fold c2 in A2, B2, C2.
  split; [rewrite length_accept_entry; lia|].
  split; [congruence|]. split; [congruence|].
  rewrite C3, C2, C1, C0.
  destruct (decide (SPL.address spl j = who)) as [E|E].
  - assert (j = 0 ∨ j = 1 ∨ j = 2 ∨ j = 3)%nat as Hc by lia.
    destruct Hc as [-> | [-> | [-> | ->]]].
    + rewrite (decide_False (P := 3%nat = 0%nat ∧ _)) by lia.
      rewrite (decide_False (P := 2%nat = 0%nat ∧ _)) by lia.
      rewrite (decide_False (P := 1%nat = 0%nat ∧ _)) by lia.
      by rewrite decide_True.
    + rewrite (decide_False (P := 3%nat = 1%nat ∧ _)) by lia.
      rewrite (decide_False (P := 2%nat = 1%nat ∧ _)) by lia.
      by rewrite decide_True.
    + rewrite (decide_False (P := 3%nat = 2%nat ∧ _)) by lia.
      by rewrite decide_True.
    + by rewrite decide_True.
  - rewrite !decide_False; [done|intros [-> ?]; done..].
Qed.

Lemma patch_whole b d :
  length d = length b → patch b 0 d = d.
Proof.
  intros H. unfold patch. cbn [take Nat.add app].
  rewrite drop_ge by lia. apply app_nil_r.
Qed.

Lemma length_spl_entries a1 s1 a2 s2 a3 s3 a4 s4 :
  length a1 = 32%nat → length a2 = 32%nat → length a3 = 32%nat → length a4 = 32%nat →
  length (spl_entry a1 s1 ++ spl_entry a2 s2 ++ spl_entry a3 s3 ++ spl_entry a4 s4)
  = 160%nat.
Proof. intros. rewrite !length_app, !length_spl_entry by done. done. Qed.

(** X8: a successful register_co_creators was called by the creator with
    shares of at most 10000 in total; it leaves a registry of 160 bytes
    that reads back as the four addresses and shares of the call, nobody
    having accepted yet (also when a registry existed before), sets
    COLLAB_PENDING on the asset record and touches nothing else. *)
Theorem register_co_creators_registry ctx a a1 s1 r1 a2 s2 r2 a3 s3 r3 a4 s4 r4 s s' :
  register_co_creators ctx a a1 s1 r1 a2 s2 r2 a3 s3 r3 a4 s4 r4 s = Ok () s' →
  length a1 = 32%nat → length a2 = 32%nat → length a3 = 32%nat → length a4 = 32%nat →
  0 ≤ s1 < 2 ^ 32 → 0 ≤ s2 < 2 ^ 32 → 0 ≤ s3 < 2 ^ 32 → 0 ≤ s4 < 2 ^ 32 →
  ∃ nft spl,
    boxes s !! box_key "NFT" a = Some nft ∧
    NFT.creator nft = sender ctx ∧
    s1 + s2 + s3 + s4 ≤ 10000 ∧
    boxes s' !! box_key "SPL" a = Some spl ∧
    length spl = 160%nat ∧
    map (SPL.address spl) [0; 1; 2; 3]%nat = [a1; a2; a3; a4] ∧
    map (SPL.share_bps spl) [0; 1; 2; 3]%nat = [s1; s2; s3; s4] ∧
    map (SPL.accepted spl) [0; 1; 2; 3]%nat = [0; 0; 0; 0] ∧
    boxes s' !! box_key "NFT" a
    = Some (patch nft 56 (itob (Z.lor (NFT.flags nft) COLLAB_PENDING))) ∧
    (∀ k, k ≠ box_key "NFT" a → k ≠ box_key "SPL" a → boxes s' !! k = boxes s !! k) ∧
    itxns s' = itxns s ∧ muse_treasury s' = muse_treasury s ∧
    total_volume s' = total_volume s ∧ total_royalties_paid s' = total_royalties_paid s ∧
    nft_count s' = nft_count s ∧ live_auctions s' = live_auctions s.
Proof.
  intros H L1 L2 L3 L4 R1 R2 R3 R4.
  apply register_co_creators_Ok_full in H
    as (nft & spl0 & Hnft & _ & Hc & Hsum & Hl0 & _ & ->).
  pose proof (length_spl_entries a1 s1 a2 s2 a3 s3 a4 s4 L1 L2 L3 L4) as Le.
  rewrite patch_whole by lia.
  pose proof (spl_fields a1 s1 a2 s2 a3 s3 a4 s4 [] L1 L2 L3 L4) as F.
  cbv zeta in F. rewrite app_nil_r in F. destruct F as (FA & FS & FC).
  rewrite !Z.mod_small in FS by lia.
  exists nft, (spl_entry a1 s1 ++ spl_entry a2 s2 ++ spl_entry a3 s3 ++ spl_entry a4 s4).
  split; [done|]. split; [done|]. split; [lia|].
  split.
  { cbn. rewrite lookup_insert_ne by (by apply box_key_tag_ne).
    by rewrite lookup_insert_eq. }
  split; [done|]. split; [done|]. split; [done|]. split; [done|].
  split; [cbn; by rewrite lookup_insert_eq|].
  split; [|by destruct s].
  intros k Hk1 Hk2. cbn. by rewrite !lookup_insert_ne.
Qed.

(** X9: a successful accept_collaboration was called by one of the four
    registered addresses; in the registry every entry of the caller has its
    accepted word 1, every other entry keeps its word, no address and no
    share changes, and no other box, inner transaction or counter does.
    Without a registry, or called by somebody else, the call fails. *)
Theorem accept_collaboration_marks_caller ctx a s :
  (∀ s', accept_collaboration ctx a s = Ok () s' →
     ∃ spl spl',
       boxes s !! box_key "SPL" a = Some spl ∧
       registered (sender ctx) spl ∧
       s' = set_boxes (insert (box_key "SPL" a) spl') s ∧
       (length spl = 160%nat →
        length spl' = 160%nat ∧
        ∀ j, (j < 4)%nat →
          SPL.address spl' j = SPL.address spl j ∧
          SPL.share_bps spl' j = SPL.share_bps spl j ∧
          SPL.accepted spl' j
          = if decide (SPL.address spl j = sender ctx) then 1 else SPL.accepted spl j)) ∧
  (boxes s !! box_key "SPL" a = None →
   accept_collaboration ctx a s
   = Fail (assert_failed "No co-creator registry for this NFT") s) ∧
  (∀ spl, boxes s !! box_key "SPL" a = Some spl → length spl = 160%nat →
     ¬ registered (sender ctx) spl →
     accept_collaboration ctx a s
     = Fail (assert_failed "Caller is not a registered co-creator") s).
Proof.
  split; [|split].
  - intros s' H. apply accept_collaboration_Ok in H as (spl & Hspl & Hl & Hreg & ->).
    exists spl, (accepted_by (sender ctx) spl). split; [done|]. split; [done|].
    split; [done|]. intros Hlen. split.
    + destruct (accepted_by_fields (sender ctx) spl 0) as (L & _); [lia..|]. lia.
    + intros j Hj.
      destruct (accepted_by_fields (sender ctx) spl j) as (_ & A & B & C); [lia..|].
      done.
  - apply accept_collaboration_no_registry.
  - intros spl Hspl Hl Hn.
    rewrite (accept_collaboration_run ctx a s spl Hspl) by lia.
    by rewrite decide_False.
Qed.

Section Accepted.
Context (who : bytes) (id : Z) (s : State) (spl : bytes).
Hypothesis Hspl : boxes s !! box_key "SPL" id = Some spl.
Hypothesis Hlen : (160 ≤ length spl)%nat.

Let s1 : State := set_boxes (insert (box_key "SPL" id) (accepted_by who spl)) s.

Lemma accepted_split_payments T :
  split_payments (accepted_by who spl) T = split_payments spl T.
Proof using Hlen.
  unfold split_payments.
  destruct (accepted_by_fields who spl 0) as (_ & A0 & B0 & _); [lia..|].
  destruct (accepted_by_fields who spl 1) as (_ & A1 & B1 & _); [lia..|].
  destruct (accepted_by_fields who spl 2) as (_ & A2 & B2 & _); [lia..|].
  destruct (accepted_by_fields who spl 3) as (_ & A3 & B3 & _); [lia..|].
  cbn [map]. by rewrite A0, A1, A2, A3, B0, B1, B2, B3.
Qed.

Lemma accepted_distribute_txns price rb :
  distribute_txns s1 id price rb = distribute_txns s id price rb.
Proof using Hspl Hlen.
  unfold distribute_txns, s1. cbn [boxes set_boxes muse_treasury].
  rewrite lookup_insert_eq, Hspl.
  rewrite lookup_insert_ne by (by apply box_key_tag_ne).
  cbn [splits_of]. by rewrite accepted_split_payments.
Qed.

Lemma accepted_distribute_ok ctx price rb :
  distribute_ok ctx s id price rb → distribute_ok ctx s1 id price rb.
Proof using Hspl Hlen.
  intros (H1 & H2 & H3 & H4 & H5 & H6 & H7).
  unfold distribute_ok. rewrite accepted_distribute_txns.
  assert (boxes s1 !! box_key "SPL" id = Some (accepted_by who spl)) as E
    by (unfold s1; cbn; apply lookup_insert_eq).
  assert (boxes s1 !! box_key "NFT" id = boxes s !! box_key "NFT" id) as En
    by (unfold s1; cbn; apply lookup_insert_ne; by apply box_key_tag_ne).
  rewrite E, En. rewrite Hspl in H4, H5. cbn [splits_of] in *.
  rewrite accepted_split_payments.
  split_and!; try done.
  intros ? [= <-]. destruct (H3 spl Hspl) as [Hl Hf].
  destruct (accepted_by_fields who spl 0) as (L & _ & B0 & _); [lia..|].
  destruct (accepted_by_fields who spl 1) as (_ & _ & B1 & _); [lia..|].
  destruct (accepted_by_fields who spl 2) as (_ & _ & B2 & _); [lia..|].
  destruct (accepted_by_fields who spl 3) as (_ & _ & B3 & _); [lia..|].
  split; [lia|].
  apply Forall_cons in Hf as [F0 Hf]. apply Forall_cons in Hf as [F1 Hf].
  apply Forall_cons in Hf as [F2 Hf]. apply Forall_cons in Hf as [F3 _].
  repeat constructor; by rewrite ?B0, ?B1, ?B2, ?B3.
Qed.

Lemma accepted_buy_ok ctx p b rb :
  buy_ok ctx s id p b rb → buy_ok ctx s1 id p b rb.
Proof using Hspl Hlen.
  intros (Hb & Hl & Hg & Hr & (Hd & Hpr & Hfee & HT & Hnet & Hacc) & Htr & Hvol).
  unfold buy_ok, sale_ok, sale_txns in *. rewrite accepted_distribute_txns.
  split_and!; try done.
  - unfold s1. cbn. rewrite lookup_insert_ne by (by apply box_key_tag_ne). done.
  - intros Hpos. apply accepted_distribute_ok. auto.
Qed.
End Accepted.

(** X10: a sale does not look at the accepted words.  When a registered
    co-creator accepts and the asset is then bought, the purchase succeeds
    exactly as it would have without the acceptance, with the same inner
    transactions, totals and record; and a purchase with a positive royalty
    submits, right after the platform fee, the payment of its share to each
    of the four registered addresses, accepted or not. *)
Theorem sale_ignores_acceptance who ctx id p s s1 s' spl :
  boxes s !! box_key "SPL" id = Some spl →
  length spl = 160%nat →
  accept_collaboration who id s = Ok () s1 →
  buy_nft ctx id p s = Ok () s' →
  ∃ s1' b rb,
    buy_nft ctx id p s1 = Ok () s1' ∧
    itxns s1' = itxns s' ∧
    total_volume s1' = total_volume s' ∧
    total_royalties_paid s1' = total_royalties_paid s' ∧
    boxes s1' !! box_key "NFT" id = boxes s' !! box_key "NFT" id ∧
    boxes s !! box_key "NFT" id = Some b ∧
    current_royalty_bps ctx id s = Ok rb s ∧
    (rb > 0 →
     ∃ rest,
       itxns s' = itxns s ++
         [Payment (muse_treasury s) (NFT.price b * 250 / 10000)] ++
         map (λ i, Payment (SPL.address spl i)
                     (NFT.price b * rb / 10000 * SPL.share_bps spl i / 10000))
             [0; 1; 2; 3]%nat ++
         rest).
Proof.
  intros Hspl Hl Hacc Hbuy.
  apply accept_collaboration_Ok in Hacc as (spl0 & Hspl0 & _ & _ & ->).
  rewrite Hspl in Hspl0. injection Hspl0 as <-.
  apply buy_nft_Ok in Hbuy as (b & rb & Hok & ->).
  pose proof (accepted_buy_ok (sender who) id s spl Hspl ltac:(lia) ctx p b rb Hok) as Hok1.
  eexists _, b, rb. split; [by apply buy_nft_run|].
  pose proof Hok as (Hb & Hlb & _ & Hr & _).
  split.
  { cbn [itxns buy_post set_boxes]. unfold sale_txns.
    by rewrite (accepted_distribute_txns (sender who) id s spl Hspl ltac:(lia)). }
  split; [done|]. split; [done|].
  split. { cbn. by rewrite !lookup_insert_eq. }
  split; [done|].
  split. { rewrite (current_royalty_bps_eq ctx id s b Hb) by lia. by rewrite Hr. }
  intros Hpos. cbn [itxns buy_post]. unfold sale_txns, distribute_txns.
  rewrite decide_True by done. rewrite Hspl. cbn [splits_of]. unfold split_payments.
  eexists. rewrite <-!app_assoc. reflexivity.
Qed.

Section BuyOutFull.
Context (ctx : Ctx) (a : Z) (p : PaymentTransaction) (s : State).

Lemma buy_out_royalty_Ok_full s' :
  buy_out_royalty ctx a p s = Ok () s' →
  ∃ nft,
    boxes s !! box_key "NFT" a = Some nft ∧
    (96 ≤ length nft)%nat ∧
    NFT.buyout_price nft > 0 ∧
    ¬ flag_set (NFT.flags nft) ROYALTY_WAIVED ∧
    amount p = NFT.buyout_price nft ∧
    receiver p = current_application_address ctx ∧
    NFT.buyout_price nft * 9500 ≤ uint64_max ∧
    Forall (λ t, accepts ctx t = true) (buy_out_txns s nft) ∧
    s' = set_boxes (insert (box_key "NFT" a) (bought_out nft))
           (set_itxns (λ l, l ++ buy_out_txns s nft) s).
Proof.
  intros H. unfold buy_out_royalty in H. inv_ok H.
  has_box Hrun nft Hnft. exists nft.
  apply pay_Val in Hrun4 as (r & c & [Hl ->]%Extract_inv & Hc & ->).
  apply pay_Val in Hrun5 as (r2 & c2 & Hr2 & Hc2 & ->).
  apply Val_inj in Hr2. subst r2.
  autorewrite with run in *.
  fold (NFT.buyout_price nft) (NFT.flags nft) (NFT.creator nft) in *.
  pose proof (u64_at_range nft 40) as Hbo. fold (NFT.buyout_price nft) in Hbo.
  cbn in Hrun0, Hrun1, Hrun2, Hrun3, Hc, Hc2, Hrun6, H. vals.
  destruct (decide (NFT.buyout_price nft * 9500 ≤ uint64_max)) as [Hov|Hov];
    cbn in Hc; [|done].
  apply Val_inj in Hc. subst c. cbn in Hc2.
  destruct (decide (NFT.buyout_price nft * 9500 / 10000 ≤ NFT.buyout_price nft))
    as [Hle|Hle]; cbn in Hc2; [|done].
  apply Val_inj in Hc2. subst.
  cbn in Hbox. rewrite Hnft in Hbox. injection Hbox as <-.
  cbn in Hbox0. rewrite lookup_insert_eq in Hbox0. injection Hbox0 as <-.
  split_and!; try done.
  - unfold flag_set, ROYALTY_WAIVED. intros Hn. by apply Hn.
  - repeat constructor; done.
  - unfold bought_out, set_boxes, set_itxns, add_itxn, buy_out_txns, ROYALTY_WAIVED.
    cbn. rewrite insert_insert_eq, <-app_assoc. reflexivity.
Qed.

Lemma buy_out_royalty_disabled nft :
  boxes s !! box_key "NFT" a = Some nft → (48 ≤ length nft)%nat →
  NFT.buyout_price nft = 0 →
  buy_out_royalty ctx a p s
  = Fail (assert_failed "Royalty buy-out not enabled for this NFT") s.
Proof.
  intros Hnft Hl Hz. unfold buy_out_royalty. run. rewrite Hnft. run. cbn.
  fold (NFT.buyout_price nft). rewrite Hz. by run.
Qed.
End BuyOutFull.

Lemma bought_out_fields nft :
  (64 ≤ length nft)%nat →
  length (bought_out nft) = length nft ∧
  NFT.buyout_price (bought_out nft) = 0 ∧
  NFT.flags (bought_out nft) = Z.lor (NFT.flags nft) ROYALTY_WAIVED ∧
  flag_set (NFT.flags (bought_out nft)) ROYALTY_WAIVED ∧
  NFT.price (bought_out nft) = NFT.price nft ∧
  NFT.transfers (bought_out nft) = NFT.transfers nft ∧
  NFT.creator (bought_out nft) = NFT.creator nft.
Proof.
  intros Hl. unfold bought_out.
  pose proof (flags_range nft) as Hf.
  assert (0 ≤ Z.lor (NFT.flags nft) ROYALTY_WAIVED < 2 ^ 64) as Hr
    by (by apply lor_range).
  set (b1 := patch nft 56 (itob (Z.lor (NFT.flags nft) ROYALTY_WAIVED))).
  assert (length b1 = length nft) as L1
    by (apply length_patch; rewrite length_itob; lia).
  assert (NFT.flags (patch b1 40 (itob 0)) = Z.lor (NFT.flags nft) ROYALTY_WAIVED) as Efl.
  { unfold NFT.flags at 1. rewrite u64_at_patch_ne by (rewrite length_itob; lia).
    by apply flags_written. }
  split_and!.
  - rewrite length_patch by (rewrite length_itob; lia). done.
  - unfold NFT.buyout_price. apply u64_at_patch_eq; lia.
  - done.
  - rewrite Efl. unfold flag_set, ROYALTY_WAIVED.
    rewrite Z.land_lor_distr_l. change (Z.land 8 8) with 8.
    intros [_ ?]%Z.lor_eq_0_iff. done.
  - unfold NFT.price. rewrite u64_at_patch_ne by (rewrite length_itob; lia).
    apply u64_at_patch_ne; rewrite length_itob; lia.
  - unfold NFT.transfers. rewrite u64_at_patch_ne by (rewrite length_itob; lia).
    apply u64_at_patch_ne; rewrite length_itob; lia.
  - unfold NFT.creator. rewrite bytes_at_patch_ne by (rewrite length_itob; lia).
    apply bytes_at_patch_ne; rewrite length_itob; lia.
Qed.

(** X11: a successful buy_out_royalty was paid the record's positive
    buy-out price; it pays 95% of it (rounded down) to the record's creator
    and the rest to the treasury, the two payments summing to the payment
    received, sets ROYALTY_WAIVED and clears the buy-out price.  From then on
    the royalty of the asset is 0 at every round and a second buy-out
    fails. *)
Theorem buy_out_royalty_waives ctx a p s s' :
  buy_out_royalty ctx a p s = Ok () s' →
  ∃ nft nft',
    boxes s !! box_key "NFT" a = Some nft ∧
    boxes s' !! box_key "NFT" a = Some nft' ∧
    amount p = NFT.buyout_price nft ∧ amount p > 0 ∧
    itxns s' = itxns s ++
      [Payment (NFT.creator nft) (amount p * 9500 / 10000);
       Payment (muse_treasury s) (amount p - amount p * 9500 / 10000)] ∧
    amount p * 9500 / 10000 + (amount p - amount p * 9500 / 10000) = amount p ∧
    0 ≤ amount p - amount p * 9500 / 10000 ∧
    flag_set (NFT.flags nft') ROYALTY_WAIVED ∧
    NFT.buyout_price nft' = 0 ∧
    NFT.price nft' = NFT.price nft ∧ NFT.creator nft' = NFT.creator nft ∧
    (∀ ctx', current_royalty_bps ctx' a s' = Ok 0 s') ∧
    (∀ ctx' p', buy_out_royalty ctx' a p' s'
       = Fail (assert_failed "Royalty buy-out not enabled for this NFT") s').
Proof.
  intros H.
  apply buy_out_royalty_Ok_full in H
    as (nft & Hnft & Hl & Hpos & Hnw & Hamt & Hrcv & Hov & Hacc & ->).
  destruct (bought_out_fields nft) as (L & Ebo & Efl & Hw & Ep & Et & Ec); [lia|].
  assert (boxes (set_boxes (insert (box_key "NFT" a) (bought_out nft))
                   (set_itxns (λ l, l ++ buy_out_txns s nft) s)) !! box_key "NFT" a
          = Some (bought_out nft)) as Hb' by (cbn; apply lookup_insert_eq).
  exists nft, (bought_out nft). rewrite Hamt.
  split; [done|]. split; [done|]. split; [done|]. split; [done|].
  split; [reflexivity|]. split; [lia|].
  split. { assert (NFT.buyout_price nft * 9500 / 10000 ≤ NFT.buyout_price nft); [|lia].
           apply Z.div_le_upper_bound; lia. }
  split; [done|]. split; [done|]. split; [done|]. split; [done|].
  split.
  - intros ctx'. rewrite (current_royalty_bps_eq ctx' a _ _ Hb') by lia.
    by rewrite royalty_of_waived.
  - intros ctx' p'. apply (buy_out_royalty_disabled ctx' a p' _ _ Hb'); [lia|done].
Qed.

(** X12: the sale of an asset whose royalty is waived makes two inner
    transactions only, the seller's payment of the price less the 2.5%
    platform fee and the asset transfer: the fee is withheld from the
    seller, and no payment to the treasury is made. *)
Theorem buy_nft_waived_withholds_fee ctx id p s s' b :
  boxes s !! box_key "NFT" id = Some b →
  flag_set (NFT.flags b) ROYALTY_WAIVED →
  buy_nft ctx id p s = Ok () s' →
  itxns s' = itxns s ++
    [Payment (NFT.creator b) (NFT.price b - NFT.price b * 250 / 10000);
     AssetTransfer id None (sender ctx) 1] ∧
  payments_total [Payment (NFT.creator b) (NFT.price b - NFT.price b * 250 / 10000);
                  AssetTransfer id None (sender ctx) 1]
  = amount p - amount p * 250 / 10000 ∧
  total_royalties_paid s' = total_royalties_paid s ∧
  total_volume s' = total_volume s + amount p.
Proof.
  intros Hb Hw H. apply buy_nft_Ok in H as (b0 & rb & Hok & ->).
  destruct Hok as (Hb0 & Hl & Hg & Hr & _).
  rewrite Hb in Hb0. injection Hb0 as <-.
  rewrite royalty_of_waived in Hr by done. apply Val_inj in Hr. subst rb.
  destruct Hg as (_ & _ & _ & _ & _ & Hamt).
  cbn [itxns buy_post total_royalties_paid total_volume]. unfold sale_txns.
  rewrite !decide_False by lia. rewrite Hamt.
  rewrite Z.mul_0_r. change (0 / 10000) with 0. rewrite Z.sub_0_r, Z.add_0_r.
  split; [reflexivity|]. split; [cbn; lia|]. done.
Qed.

Lemma length_auction_record ctx d r :
  length (sender ctx) = 32%nat → length (auction_record ctx d r) = 88%nat.
Proof.
  intros Hs. unfold auction_record.
  rewrite !length_app, !length_itob, length_zero_address, Hs. done.
Qed.

Lemma auction_record_fields ctx d r :
  length (sender ctx) = 32%nat →
  0 ≤ r < 2 ^ 64 → 0 ≤ round ctx + d < 2 ^ 64 →
  AUC.first_slot (auction_record ctx d r) = r ∧
  AUC.end_round (auction_record ctx d r) = round ctx + d ∧
  AUC.highest_bid (auction_record ctx d r) = 0 ∧
  AUC.highest_bidder (auction_record ctx d r) = zero_address ∧
  AUC.seller (auction_record ctx d r) = sender ctx.
Proof.
  intros Hs Hr Hd. unfold auction_record.
  pose proof (auction_layout (itob r) (itob (round ctx + d)) (itob 0) zero_address
                (sender ctx) []) as L.
  rewrite !length_itob, length_zero_address, app_nil_r in L.
  destruct (L eq_refl eq_refl eq_refl eq_refl Hs) as (E1 & E2 & E3).
  unfold AUC.first_slot, AUC.end_round, AUC.highest_bid, AUC.highest_bidder, AUC.seller.
  rewrite E1, E2, E3. split_and!; try done.
  - pose proof (u64_at_app_mid [] r (itob (round ctx + d) ++ itob 0 ++
                                      zero_address ++ sender ctx)) as E.
    cbn [app length] in E. apply E. lia.
  - pose proof (u64_at_app_mid (itob r) (round ctx + d)
                  (itob 0 ++ zero_address ++ sender ctx)) as E.
    rewrite length_itob in E. apply E. lia.
Qed.

Section StartAuctionFull.
Context (ctx : Ctx) (a d r : Z) (s : State).
Hypothesis Hs : length (sender ctx) = 32%nat.

Lemma auction_record_written auc0 :
  length auc0 = 88%nat →
  patch (patch auc0 0 (itob a ++ itob (round ctx + d) ++ itob 0 ++
                       zero_address ++ sender ctx)) 0 (itob r)
  = auction_record ctx d r.
Proof using Hs.
  intros Hl. unfold auction_record.
  rewrite (patch_whole auc0)
    by (rewrite !length_app, !length_itob, length_zero_address, Hs; lia).
  unfold patch. rewrite take_0, length_itob. cbn [app Nat.add].
  rewrite (drop_app_length' (itob a)) by (by rewrite length_itob). done.
Qed.

Lemma start_auction_Ok_full s' :
  start_auction ctx a d r s = Ok () s' →
  ∃ nft, boxes s !! box_key "NFT" a = Some nft ∧
         start_guards ctx s a d nft ∧ s' = start_post ctx s a d r nft.
Proof using Hs.
  intros H. unfold start_auction in H. inv_ok H.
  has_box Hrun nft Hnft. exists nft. split; [done|].
  destruct (decide (64 ≤ length nft)%nat) as [Hl|Hl]; cycle 1.
  { rewrite ExtractUint64_oob in Hrun0 by lia. done. }
  autorewrite with run in *. fold (NFT.flags nft) in *.
  cbn in Hrun0, Hrun1, Hrun2, Hrun3, Hrun6, Hrun7. vals. subst.
  apply set_live_auctions_Ok in H as (v & Hv & ->).
  apply BoxCreate_Ok_sized in Hrun4 as (auc0 & Hl0 & -> & _ & Hold).
  cbn -[itob app] in Hrun5.
  destruct (decide (round ctx + d ≤ uint64_max)) as [Hov|]; cbn -[itob app] in Hrun5;
    [|done].
  apply Val_inj in Hrun5. subst x9. rewrite app_nil_r in *.
  assert (x10 = auc0) as ->
    by (cbn in Hbox; rewrite lookup_insert_eq in Hbox; congruence).
  assert (x13 = patch auc0 0 (itob a ++ itob (round ctx + d) ++ itob 0 ++
                              zero_address ++ sender ctx)) as ->
    by (cbn in Hbox0; rewrite lookup_insert_eq in Hbox0; congruence).
  assert (x16 = nft) as ->.
  { cbn in Hbox1. rewrite !lookup_insert_ne in Hbox1 by (by apply box_key_tag_ne).
    congruence. }
  cbn in Hv. destruct (decide (live_auctions s + 1 ≤ uint64_max)) as [Hlive|];
    cbn in Hv; [|done].
  apply Val_inj in Hv. subst v.
  split.
  { unfold start_guards, flag_set, IN_AUCTION, RWA_REDEEMED. split_and!; try done.
    - intros Hn. by apply Hn.
    - intros Hn. by apply Hn.
    - intros old Ho. by rewrite <-(Hold old Ho). }
  unfold start_post, set_boxes, add_itxn, IN_AUCTION. cbn -[itob app].
  rewrite !insert_insert_eq, (auction_record_written auc0 Hl0). reflexivity.
Qed.

Lemma start_auction_run nft :
  boxes s !! box_key "NFT" a = Some nft →
  start_guards ctx s a d nft →
  start_auction ctx a d r s = Ok () (start_post ctx s a d r nft).
Proof using Hs.
  intros Hnft (Hl & Hna & Hnr & Hd & Hov & Hacc & Hold & Hlive).
  unfold flag_set, IN_AUCTION, RWA_REDEEMED in *.
  unfold start_auction. run. rewrite Hnft. run. cbn. fold (NFT.flags nft).
  rewrite (bool_decide_eq_true_2 (Z.land _ 16 = 0)) by (by apply dec_stable). run.
  rewrite (bool_decide_eq_true_2 (Z.land _ 4 = 0)) by (by apply dec_stable). run.
  rewrite bool_decide_eq_true_2 by done. run.
  rewrite Submit_run by done. cbv beta iota. rewrite run_bind.
  assert (∃ auc0, length auc0 = 88%nat ∧
            BoxCreate (box_key "AUC" a) 88
              (add_itxn (AssetTransfer a (Some (sender ctx))
                           (current_application_address ctx) 1) s)
            = Ok () (set_boxes (insert (box_key "AUC" a) auc0)
                       (add_itxn (AssetTransfer a (Some (sender ctx))
                                    (current_application_address ctx) 1) s)))
    as (auc0 & Hl0 & ->).
  { unfold BoxCreate. cbn [boxes add_itxn].
    destruct (boxes s !! box_key "AUC" a) as [old|] eqn:Ho.
    - exists old. split; [by apply Hold|]. rewrite decide_True by (by apply Hold).
      destruct s; unfold set_boxes, add_itxn; cbn in *. by rewrite insert_id.
    - exists (replicate 88 Byte.x00). by rewrite length_replicate. }
  cbv beta iota. rewrite decide_True by done. cbn -[itob app]. rewrite app_nil_r.
  run.
  rewrite (BoxReplace_run _ _ _ auc0)
    by first [cbn; apply lookup_insert_eq
             |rewrite !length_app, !length_itob, length_zero_address, Hs; lia].
  cbv beta iota. run.
  rewrite (BoxReplace_run _ _ _ (patch auc0 0 (itob a ++ itob (round ctx + d) ++ itob 0 ++
                                                 zero_address ++ sender ctx)))
    by first [cbn; apply lookup_insert_eq
             |rewrite length_patch, length_itob;
              rewrite ?length_app, ?length_itob, ?length_zero_address, ?Hs; lia].
  cbv beta iota. run.
  rewrite (BoxReplace_run _ _ _ nft)
    by first [cbn; rewrite !lookup_insert_ne by (by apply box_key_tag_ne); exact Hnft
             |rewrite length_itob; lia].
  cbv beta iota. run. cbn [live_auctions set_boxes add_itxn].
  rewrite decide_True by done.
  rewrite set_live_auctions_run.
  unfold start_post, set_boxes, add_itxn, IN_AUCTION. cbn -[itob app].
  rewrite !insert_insert_eq, (auction_record_written auc0 Hl0). reflexivity.
Qed.
End StartAuctionFull.

Lemma byte_of_Z_of_byte (x : Byte.byte) : byte_of_Z (Z_of_byte x) = x.
Proof.
  unfold byte_of_Z. pose proof (Z_of_byte_range x) as Hr.
  rewrite Z.mod_small by lia. unfold Z_of_byte. rewrite N2Z.id.
  by rewrite Byte.of_to_N.
Qed.

Lemma btoi_snoc l x : btoi (l ++ [x]) = btoi l * 256 + Z_of_byte x.
Proof. unfold btoi. by rewrite btoi_acc_app. Qed.

Lemma itob_n_btoi l : itob_n (length l) (btoi l) = l.
Proof.
  induction l as [|x l IH] using rev_ind; [done|].
  rewrite length_app, Nat.add_comm. cbn [length Nat.add itob_n].
  rewrite btoi_snoc. pose proof (Z_of_byte_range x) as Hr.
  assert ((btoi l * 256 + Z_of_byte x) / 256 = btoi l) as ->
    by (rewrite Z.add_comm, Z.div_add by lia; rewrite Z.div_small by lia; lia).
  rewrite IH. f_equal. f_equal.
  unfold byte_of_Z.
  assert ((btoi l * 256 + Z_of_byte x) mod 256 = Z_of_byte x) as ->
    by (rewrite Z.add_comm, Z.mod_add by lia; apply Z.mod_small; lia).
  pose proof (byte_of_Z_of_byte x) as E. unfold byte_of_Z in E.
  rewrite Z.mod_small in E by lia. exact E.
Qed.

Lemma itob_u64_at b off :
  (off + 8 ≤ length b)%nat → itob (u64_at b off) = bytes_at b off 8.
Proof.
  intros H. unfold u64_at, bytes_at, itob.
  pose proof (itob_n_btoi (take 8 (drop off b))) as E.
  rewrite length_take, length_drop in E.
  replace (8 `min` (length b - off))%nat with 8%nat in E by lia. exact E.
Qed.

Lemma patch_bytes_at b off len :
  (off + len ≤ length b)%nat → patch b off (bytes_at b off len) = b.
Proof.
  intros H. unfold patch, bytes_at.
  rewrite length_take, length_drop.
  replace (off + len `min` (length b - off))%nat with (off + len)%nat by lia.
  rewrite <-drop_drop, take_drop. apply take_drop.
Qed.

Lemma patch_u64_at b off :
  (off + 8 ≤ length b)%nat → patch b off (itob (u64_at b off)) = b.
Proof. intros H. rewrite itob_u64_at by done. by apply patch_bytes_at. Qed.

Lemma patch_patch b off d1 d2 :
  length d1 = length d2 → (off + length d1 ≤ length b)%nat →
  patch (patch b off d1) off d2 = patch b off d2.
Proof.
  intros Hd Hl. unfold patch.
  rewrite take_app_length' by (rewrite length_take; lia).
  f_equal. f_equal.
  rewrite app_assoc, drop_app_length'; [by rewrite Hd|].
  rewrite length_app, length_take. lia.
Qed.

Lemma without_in_auction_lor f :
  0 ≤ f < 2 ^ 64 → Z.land f 16 = 0 → without_in_auction (Z.lor f 16) = f.
Proof.
  intros Hf H0. unfold without_in_auction.
  apply Z.bits_inj'. intros n Hn.
  rewrite Z.land_spec, Z.lor_spec.
  destruct (decide (n = 4)) as [->|Hne].
  - assert (Z.testbit f 4 = false) as ->.
    { apply (f_equal (λ z, Z.testbit z 4)) in H0.
      rewrite Z.land_spec in H0. cbn in H0. by rewrite andb_true_r in H0. }
    reflexivity.
  - destruct (decide (n < 64)) as [Hlt|Hge].
    + assert (Z.testbit 16 n = false) as ->.
      { change 16 with (2 ^ 4). rewrite Z.pow2_bits_eqb by lia.
        apply Z.eqb_neq. lia. }
      assert (Z.testbit (Z.lxor 16 uint64_max) n = true) as ->.
      { rewrite Z.lxor_spec.
        assert (Z.testbit 16 n = false) as ->.
        { change 16 with (2 ^ 4). rewrite Z.pow2_bits_eqb by lia.
          apply Z.eqb_neq. lia. }
        unfold uint64_max. change (2 ^ 64 - 1) with (Z.ones 64).
        rewrite Z.ones_spec_low by lia. done. }
      by rewrite orb_false_r, andb_true_r.
    + assert (Z.testbit f n = false) as ->.
      { destruct (decide (f = 0)) as [->|Hnz]; [apply Z.bits_0|].
        apply Z.bits_above_log2; [lia|].
        assert (Z.log2 f < 64); [|lia]. apply Z.log2_lt_pow2; lia. }
      assert (Z.testbit 16 n = false) as ->.
      { change 16 with (2 ^ 4). rewrite Z.pow2_bits_eqb by lia.
        apply Z.eqb_neq. lia. }
      reflexivity.
Qed.

(** X13: start_auction succeeds exactly when the asset has a record that
    is neither in auction nor redeemed, the duration is positive, the end
    round fits a uint64, the ledger lets the asset be moved from the caller
    to the application, a box left under the auction key has 88 bytes and the
    counter of live auctions does not overflow; no condition relates the
    caller to the record.  It then moves the asset, sets IN_AUCTION, counts
    the auction and leaves an auction record that get_auction_info reads
    back as: end round the current round plus the duration, highest bid 0,
    no bidder, the caller as seller; the reserve price is in the first
    slot. *)
Theorem start_auction_opens ctx a d r s s' :
  length (sender ctx) = 32%nat → 0 ≤ r < 2 ^ 64 → 0 ≤ round ctx →
  (start_auction ctx a d r s = Ok () s' ↔
   ∃ nft, boxes s !! box_key "NFT" a = Some nft ∧
          start_guards ctx s a d nft ∧ s' = start_post ctx s a d r nft) ∧
  (start_auction ctx a d r s = Ok () s' →
   get_auction_info a s' = Ok (round ctx + d, 0, zero_address, sender ctx) s' ∧
   (∃ auc, boxes s' !! box_key "AUC" a = Some auc ∧ AUC.first_slot auc = r) ∧
   (∃ nft', boxes s' !! box_key "NFT" a = Some nft' ∧
            flag_set (NFT.flags nft') IN_AUCTION) ∧
   live_auctions s' = live_auctions s + 1 ∧
   itxns s' = itxns s ++
     [AssetTransfer a (Some (sender ctx)) (current_application_address ctx) 1]).
Proof.
  intros Hs Hr Hround. split.
  - split.
    + by apply start_auction_Ok_full.
    + intros (nft & Hnft & Hg & ->). by apply start_auction_run.
  - intros H. apply start_auction_Ok_full in H as (nft & Hnft & Hg & ->); [|done].
    destruct Hg as (Hl & Hna & Hnr & Hd & Hov & Hacc & Hold & Hlive).
    destruct (auction_record_fields ctx d r Hs Hr) as (F1 & F2 & F3 & F4 & F5);
      [unfold uint64_max in Hov; lia|].
    assert (boxes (start_post ctx s a d r nft) !! box_key "AUC" a
            = Some (auction_record ctx d r)) as Hauc.
    { cbn. rewrite lookup_insert_ne by (by apply box_key_tag_ne).
      apply lookup_insert_eq. }
    split_and!; try done.
    + rewrite (get_auction_info_run a _ _ Hauc)
        by (rewrite length_auction_record; done || lia).
      by rewrite F2, F3, F4, F5.
    + eauto.
    + eexists. split; [cbn; apply lookup_insert_eq|].
      pose proof (flags_range nft) as Hf.
      rewrite flags_written by (done || by apply lor_range).
      unfold flag_set, IN_AUCTION. rewrite Z.land_lor_distr_l.
      change (Z.land 16 16) with 16. intros [_ ?]%Z.lor_eq_0_iff. done.
Qed.

(** X14: an auction that is opened and then settled without a bid leaves
    every box as it was before the auction (the asset record byte for byte,
    no auction record), the counters as they were, and has made two inner
    transactions: the asset from the seller to the application and back. *)
Theorem start_then_settle_restores ctx ctx' a d r s s1 s2 :
  length (sender ctx) = 32%nat → 0 ≤ r < 2 ^ 64 → 0 ≤ round ctx →
  start_auction ctx a d r s = Ok () s1 →
  settle_auction ctx' a s1 = Ok () s2 →
  boxes s2 = delete (box_key "AUC" a) (boxes s) ∧
  boxes s2 !! box_key "NFT" a = boxes s !! box_key "NFT" a ∧
  live_auctions s2 = live_auctions s ∧
  total_volume s2 = total_volume s ∧
  total_royalties_paid s2 = total_royalties_paid s ∧
  nft_count s2 = nft_count s ∧
  round ctx + d ≤ round ctx' ∧
  itxns s2 = itxns s ++
    [AssetTransfer a (Some (sender ctx)) (current_application_address ctx) 1;
     AssetTransfer a None (sender ctx) 1].
Proof.
  intros Hs Hr Hround H1 H2.
  apply start_auction_Ok_full in H1 as (nft & Hnft & Hg & ->); [|done].
  destruct Hg as (Hl & Hna & Hnr & Hd & Hov & Hacc & Hold & Hlive).
  destruct (auction_record_fields ctx d r Hs Hr) as (F1 & F2 & F3 & F4 & F5);
    [unfold uint64_max in Hov; lia|].
  apply settle_auction_Ok in H2
    as (auc & nft1 & Hauc & Hnft1 & _ & _ & Hend & _ & H).
  cbn in Hauc. rewrite lookup_insert_ne in Hauc by (by apply box_key_tag_ne).
  rewrite lookup_insert_eq in Hauc. injection Hauc as <-.
  cbn in Hnft1. rewrite lookup_insert_eq in Hnft1. injection Hnft1 as <-.
  rewrite decide_True in H by done. destruct H as (_ & _ & ->).
  pose proof (flags_range nft) as Hf.
  assert (patch (patch nft 56 (itob (Z.lor (NFT.flags nft) IN_AUCTION))) 56
            (itob (without_in_auction
                     (NFT.flags (patch nft 56 (itob (Z.lor (NFT.flags nft) IN_AUCTION))))))
          = nft) as Hback.
  { rewrite flags_written by (done || by apply lor_range).
    rewrite patch_patch by (rewrite !length_itob; lia).
    unfold IN_AUCTION. rewrite without_in_auction_lor; [|done|].
    - apply patch_u64_at. lia.
    - unfold flag_set, IN_AUCTION in Hna. by apply dec_stable. }
  assert (boxes (settle_returned (start_post ctx s a d r nft) a (auction_record ctx d r)
                   (patch nft 56 (itob (Z.lor (NFT.flags nft) IN_AUCTION))))
          = delete (box_key "AUC" a) (boxes s)) as Hboxes.
  { cbn [boxes settle_returned start_post]. rewrite Hback.
    apply map_eq. intros k.
    destruct (decide (k = box_key "AUC" a)) as [->|Hk1].
    { by rewrite !lookup_delete_eq. }
    rewrite !lookup_delete_ne by done.
    destruct (decide (k = box_key "NFT" a)) as [->|Hk2].
    { by rewrite lookup_insert_eq. }
    by rewrite !lookup_insert_ne. }
  split; [exact Hboxes|].
  split. { rewrite Hboxes. apply lookup_delete_ne. by apply box_key_tag_ne. }
  cbn [live_auctions total_volume total_royalties_paid nft_count itxns
       settle_returned start_post].
  rewrite F2 in Hend. rewrite F5, <-app_assoc.
  split_and!; try done. lia.
Qed.

Section BidGuards.
Context (ctx : Ctx) (id : Z) (p : PaymentTransaction) (s : State).

Lemma place_bid_no_auction :
  boxes s !! box_key "AUC" id = None →
  place_bid ctx id p s = Fail (assert_failed "No active auction for this asset") s.
Proof. intros Hb. unfold place_bid. run. rewrite Hb. by run. Qed.

Lemma place_bid_ended b :
  boxes s !! box_key "AUC" id = Some b → (24 ≤ length b)%nat →
  AUC.end_round b ≤ round ctx →
  place_bid ctx id p s = Fail (assert_failed "Auction has ended") s.
Proof.
  intros Hb Hl He. unfold place_bid. run. rewrite Hb. run. cbn.
  fold (AUC.end_round b). rewrite bool_decide_eq_false_2 by lia. by run.
Qed.

Lemma place_bid_too_low b :
  boxes s !! box_key "AUC" id = Some b → (24 ≤ length b)%nat →
  round ctx < AUC.end_round b → amount p ≤ AUC.highest_bid b →
  place_bid ctx id p s
  = Fail (assert_failed "Bid must exceed current highest bid") s.
Proof.
  intros Hb Hl He Ha. unfold place_bid. run. rewrite Hb. run. cbn.
  fold (AUC.end_round b) (AUC.highest_bid b).
  rewrite bool_decide_eq_true_2 by done. run.
  rewrite bool_decide_eq_false_2 by lia. by run.
Qed.
End BidGuards.

(** X15: place_bid fails, leaving the state as it was, when the asset has
    no auction record, when the end round has been reached, and when the
    payment does not exceed the highest bid; a first bid of 0 is refused
    for that reason. *)
Theorem place_bid_guards_fail ctx id p s :
  (boxes s !! box_key "AUC" id = None →
   place_bid ctx id p s = Fail (assert_failed "No active auction for this asset") s) ∧
  (∀ b, boxes s !! box_key "AUC" id = Some b → (24 ≤ length b)%nat →
     (AUC.end_round b ≤ round ctx →
      place_bid ctx id p s = Fail (assert_failed "Auction has ended") s) ∧
     (round ctx < AUC.end_round b → amount p ≤ AUC.highest_bid b →
      place_bid ctx id p s
      = Fail (assert_failed "Bid must exceed current highest bid") s) ∧
     (round ctx < AUC.end_round b → amount p = 0 →
      place_bid ctx id p s
      = Fail (assert_failed "Bid must exceed current highest bid") s)).
Proof.
  split; [apply place_bid_no_auction|].
  intros b Hb Hl. split_and!.
  - by apply place_bid_ended.
  - by apply place_bid_too_low.
  - intros He Hz. apply (place_bid_too_low ctx id p s b Hb Hl He).
    pose proof (u64_at_range b 16) as Hr. fold (AUC.highest_bid b) in Hr. lia.
Qed.

Section SettleGuards.
Context (ctx : Ctx) (id : Z) (s : State).

Lemma settle_auction_no_auction :
  boxes s !! box_key "AUC" id = None →
  settle_auction ctx id s = Fail (assert_failed "") s.
Proof. intros Hb. unfold settle_auction. run. rewrite Hb. by run. Qed.

Lemma settle_auction_running b :
  boxes s !! box_key "AUC" id = Some b → (16 ≤ length b)%nat →
  round ctx < AUC.end_round b →
  settle_auction ctx id s = Fail (assert_failed "Auction still running") s.
Proof.
  intros Hb Hl He. unfold settle_auction. run. rewrite Hb. run. cbn.
  fold (AUC.end_round b). rewrite bool_decide_eq_false_2 by lia. by run.
Qed.

Lemma settle_auction_deletes s' :
  settle_auction ctx id s = Ok () s' →
  boxes s' !! box_key "AUC" id = None ∧ live_auctions s' = live_auctions s - 1.
Proof.
  intros H. apply settle_auction_Ok in H as (auc & nft & _ & _ & _ & _ & _ & _ & H).
  case_decide.
  - destruct H as (_ & _ & ->). split; [cbn; apply lookup_delete_eq|done].
  - destruct H as (rb & _ & _ & _ & _ & _ & ->). split; [cbn; apply lookup_delete_eq|done].
Qed.
End SettleGuards.

(** X16: settle_auction fails before the end round of the auction.  A
    successful settlement deletes the auction record and lowers the counter
    of live auctions by one, so that the auction cannot be settled a second
    time, takes no further bid and is no longer reported by
    get_auction_info. *)
Theorem settle_auction_once ctx id s :
  (∀ b, boxes s !! box_key "AUC" id = Some b → (16 ≤ length b)%nat →
        round ctx < AUC.end_round b →
        settle_auction ctx id s = Fail (assert_failed "Auction still running") s) ∧
  (∀ s', settle_auction ctx id s = Ok () s' →
     boxes s' !! box_key "AUC" id = None ∧
     live_auctions s' = live_auctions s - 1 ∧
     (∀ ctx', settle_auction ctx' id s' = Fail (assert_failed "") s') ∧
     (∀ ctx' p, place_bid ctx' id p s'
                = Fail (assert_failed "No active auction for this asset") s') ∧
     get_auction_info id s' = Fail (assert_failed "No active auction") s').
Proof.
  split; [intros b; apply settle_auction_running|].
  intros s' H. apply settle_auction_deletes in H as [Hnone Hlive].
  split_and!; try done.
  - intros ctx'. by apply settle_auction_no_auction.
  - intros ctx' p. by apply place_bid_no_auction.
  - by apply get_auction_info_missing.
Qed.

Lemma update_treasury_run ctx t s :
  update_treasury ctx t s
  = if decide (sender ctx = creator_address ctx)
    then Ok () (mkState (boxes s) t (total_volume s) (total_royalties_paid s)
                  (nft_count s) (live_auctions s) (itxns s))
    else Fail (assert_failed "Admin only") s.
Proof.
  unfold update_treasury. run. cbn. case_decide.
  - rewrite bool_decide_eq_true_2 by done. run. reflexivity.
  - rewrite bool_decide_eq_false_2 by done. by run.
Qed.

(** X17: update_treasury fails with "Admin only" unless the caller is the
    creator of the application; for the creator it replaces the treasury
    address, whatever the new one is, and changes nothing else.  The
    platform fee of the next sale with a royalty goes to the new address. *)
Theorem update_treasury_redirects_fee ctx t s :
  (sender ctx ≠ creator_address ctx →
   update_treasury ctx t s = Fail (assert_failed "Admin only") s) ∧
  (sender ctx = creator_address ctx →
   ∃ s1, update_treasury ctx t s = Ok () s1 ∧
     muse_treasury s1 = t ∧ boxes s1 = boxes s ∧ itxns s1 = itxns s ∧
     total_volume s1 = total_volume s ∧
     total_royalties_paid s1 = total_royalties_paid s ∧
     nft_count s1 = nft_count s ∧ live_auctions s1 = live_auctions s ∧
     ∀ ctx' id p s2 rb,
       buy_nft ctx' id p s1 = Ok () s2 →
       current_royalty_bps ctx' id s1 = Ok rb s1 → rb > 0 →
       ∃ rest, itxns s2 = itxns s ++ Payment t (amount p * 250 / 10000) :: rest).
Proof.
  rewrite update_treasury_run. split.
  - intros Hne. by rewrite decide_False.
  - intros He. rewrite decide_True by done. eexists. split; [reflexivity|].
    cbn [muse_treasury boxes itxns total_volume total_royalties_paid nft_count
         live_auctions].
    split_and!; try done.
    intros ctx' id p s2 rb Hbuy Hroy Hpos.
    apply buy_nft_Ok in Hbuy as (b & rb' & Hok & ->).
    destruct Hok as (Hb & Hl & Hg & Hr & _).
    rewrite (current_royalty_bps_eq ctx' id _ b Hb) in Hroy by lia.
    rewrite Hr in Hroy. apply eval_Ok in Hroy as [Hroy _].
    apply Val_inj in Hroy. subst rb'.
    destruct Hg as (_ & _ & _ & _ & _ & Hamt).
    cbn [itxns buy_post]. unfold sale_txns, distribute_txns.
    rewrite decide_True by done. cbn [muse_treasury app]. rewrite Hamt.
    eexists. reflexivity.
Qed.

Lemma take_patch_le n b off d :
  (n ≤ off)%nat → (off ≤ length b)%nat → take n (patch b off d) = take n b.
Proof.
  intros Hn Hl. rewrite <-(Nat.min_l n off) by done.
  rewrite <-!take_take, take_patch by done. done.
Qed.

Lemma drop_patch_ge n b off d :
  (off + length d ≤ n)%nat → (off + length d ≤ length b)%nat →
  drop n (patch b off d) = drop n b.
Proof.
  intros Hn Hl.
  replace n with ((off + length d) + (n - (off + length d)))%nat by lia.
  rewrite <-(drop_drop (patch b off d)), <-(drop_drop b), drop_patch by done. done.
Qed.

Lemma u64_at_take b b' off n :
  (off + 8 ≤ n)%nat → take n b' = take n b → u64_at b' off = u64_at b off.
Proof.
  intros Hn E. unfold u64_at.
  assert (∀ l : bytes, take 8 (drop off l) = take 8 (drop off (take n l))) as T.
  { intros l. rewrite skipn_firstn_comm, take_take. f_equal. lia. }
  by rewrite (T b'), (T b), E.
Qed.

Lemma same_terms_refl b : same_terms b b.
Proof. by split_and!. Qed.

Lemma same_terms_trans b1 b2 b3 : same_terms b1 b2 → same_terms b2 b3 → same_terms b1 b3.
Proof.
  intros (L1 & T1 & D1 & W1) (L2 & T2 & D2 & W2).
  split_and!; [congruence..|auto].
Qed.

Lemma same_terms_flags b v :
  (64 ≤ length b)%nat → 0 ≤ v < 2 ^ 64 →
  (flag_set (NFT.flags b) ROYALTY_WAIVED → flag_set v ROYALTY_WAIVED) →
  same_terms b (patch b 56 (itob v)).
Proof.
  intros Hl Hv Hw. split_and!.
  - apply length_patch. rewrite length_itob. lia.
  - apply take_patch_le; lia.
  - apply drop_patch_ge; rewrite length_itob; lia.
  - by rewrite flags_written.
Qed.

Lemma same_terms_kept b off d :
  (40 ≤ off)%nat → (off + length d ≤ 56)%nat → (64 ≤ length b)%nat →
  same_terms b (patch b off d).
Proof.
  intros Ho Hd Hl. split_and!.
  - apply length_patch. lia.
  - apply take_patch_le; lia.
  - apply drop_patch_ge; lia.
  - rewrite flags_kept by lia. done.
Qed.

Lemma same_terms_set b m :
  (64 ≤ length b)%nat → 0 ≤ m < 2 ^ 64 →
  same_terms b (patch b 56 (itob (Z.lor (NFT.flags b) m))).
Proof.
  intros Hl Hm. pose proof (flags_range b).
  apply same_terms_flags; [done|by apply lor_range|]. apply flag_set_lor.
Qed.

Lemma same_terms_clear b :
  (64 ≤ length b)%nat →
  same_terms b (patch b 56 (itob (without_in_auction (NFT.flags b)))).
Proof.
  intros Hl. pose proof (flags_range b).
  apply same_terms_flags; [done|by apply land_range|].
  unfold flag_set, ROYALTY_WAIVED. by rewrite land_without_in_auction.
Qed.

Lemma same_terms_fields b b' :
  same_terms b b' →
  NFT.asset_id b' = NFT.asset_id b ∧ NFT.price b' = NFT.price b ∧
  NFT.royalty_bps b' = NFT.royalty_bps b ∧ NFT.floor_bps b' = NFT.floor_bps b ∧
  NFT.decay_start b' = NFT.decay_start b ∧ NFT.creator b' = NFT.creator b.
Proof.
  intros (_ & T & D & _).
  unfold NFT.asset_id, NFT.price, NFT.royalty_bps, NFT.floor_bps, NFT.decay_start,
    NFT.creator, bytes_at.
  rewrite D. split_and!; try done; apply (u64_at_take b b' _ 40); (done || lia).
Qed.

(** what one successful call does to the terms of a record *)
Lemma invoke_terms ctx c s s' id b :
  fresh_asset ctx c s →
  invoke ctx c s = Ok () s' →
  boxes s !! box_key "NFT" id = Some b →
  ∃ b', boxes s' !! box_key "NFT" id = Some b' ∧ same_terms b b'.
Proof.
  intros Hfresh H Hb.
  assert (keeps (box_key "NFT" id) (invoke ctx c) →
          ∃ b', boxes s' !! box_key "NFT" id = Some b' ∧ same_terms b b') as Hkeep.
  { intros K. exists b. split; [by rewrite (K _ _ _ H)|apply same_terms_refl]. }
  pose proof (invoke_keeps_other ctx c id) as K.
  destruct c; cbn [invoke fresh_asset] in *; try (by apply Hkeep, K).
  - (* mint_nft *)
    destruct (decide (created_asset_id ctx = id)) as [<-|Hne]; [congruence|].
    by apply Hkeep, K.
  - (* mint_rwa *)
    destruct (decide (created_asset_id ctx = id)) as [<-|Hne]; [congruence|].
    by apply Hkeep, K.
  - (* validate_physical_asset *)
    destruct (decide (asset_id = id)) as [->|Hne]; [|by apply Hkeep, K].
    apply validate_physical_asset_Ok in H as (rwa & nft & _ & Hnft & Hl & _ & _ & ->).
    rewrite Hb in Hnft. injection Hnft as <-.
    eexists. split; [cbn; apply lookup_insert_eq|]. by apply (same_terms_set b 2).
  - (* redeem_physical_asset *)
    destruct (decide (asset_id = id)) as [->|Hne]; [|by apply Hkeep, K].
    apply redeem_physical_asset_Ok in H as (rwa & nft & _ & Hnft & Hl & _ & _ & _ & Hb').
    rewrite Hb in Hnft. injection Hnft as <-.
    eexists. split; [exact Hb'|].
    pose proof (flags_range b) as Hf.
    assert (0 ≤ Z.lor (NFT.flags b) 4 < 2 ^ 64) as Hr by (by apply lor_range).
    apply same_terms_flags; [done|by apply land_range|].
    unfold flag_set, ROYALTY_WAIVED. rewrite land_without_in_auction by done.
    apply flag_set_lor.
  - (* register_co_creators *)
    destruct (decide (asset_id = id)) as [->|Hne]; [|by apply Hkeep, K].
    apply register_co_creators_Ok in H as (nft & Hnft & Hl & Hb').
    rewrite Hb in Hnft. injection Hnft as <-.
    eexists. split; [exact Hb'|]. by apply same_terms_set.
  - (* buy_nft *)
    destruct (decide (asset_id = id)) as [->|Hne]; [|by apply Hkeep, K].
    apply buy_nft_Ok in H as (b0 & rb & Hok & ->).
    destruct Hok as (Hb0 & Hl & _). rewrite Hb in Hb0. injection Hb0 as <-.
    eexists. split; [apply buy_post_record|].
    apply same_terms_kept; rewrite ?length_itob; lia.
  - (* buy_out_royalty *)
    destruct (decide (asset_id = id)) as [->|Hne]; [|by apply Hkeep, K].
    apply buy_out_royalty_Ok in H as (nft & Hnft & Hl & Hb').
    rewrite Hb in Hnft. injection Hnft as <-.
    eexists. split; [exact Hb'|].
    eapply same_terms_trans; [by apply (same_terms_set b 8)|].
    apply same_terms_kept; rewrite ?length_patch, ?length_itob;
      rewrite ?length_itob; lia.
  - (* start_auction *)
    destruct (decide (asset_id = id)) as [->|Hne]; [|by apply Hkeep, K].
    apply start_auction_Ok in H as (nft & Hnft & Hl & Hb' & _).
    rewrite Hb in Hnft. injection Hnft as <-.
    eexists. split; [exact Hb'|]. by apply same_terms_set.
  - (* settle_auction *)
    destruct (decide (asset_id = id)) as [->|Hne]; [|by apply Hkeep, K].
    apply settle_auction_Ok in H as (auc & nft & _ & Hnft & _ & Hl & _ & _ & H).
    rewrite Hb in Hnft. injection Hnft as <-.
    destruct (decide (AUC.highest_bidder auc = zero_address)).
    + destruct H as (_ & _ & ->). eexists. split.
      { cbn. rewrite lookup_delete_ne by (by apply box_key_tag_ne).
        apply lookup_insert_eq. }
      by apply same_terms_clear.
    + destruct H as (rb & _ & _ & _ & _ & _ & ->). eexists. split.
      { cbn. rewrite lookup_delete_ne by (by apply box_key_tag_ne).
        apply lookup_insert_eq. }
      assert (same_terms b (patch b 48 (itob (NFT.transfers b + 1)))) as T1
        by (apply same_terms_kept; rewrite ?length_itob; lia).
      eapply same_terms_trans; [exact T1|].
      assert (NFT.flags (patch b 48 (itob (NFT.transfers b + 1))) = NFT.flags b) as E
        by (apply flags_kept; rewrite length_itob; lia).
      rewrite <-E. apply same_terms_clear.
      rewrite length_patch; rewrite ?length_itob; lia.
Qed.

Lemma reachable_terms s s' :
  reachable_from s s' → ∀ id b,
  boxes s !! box_key "NFT" id = Some b →
  ∃ b', boxes s' !! box_key "NFT" id = Some b' ∧ same_terms b b'.
Proof.
  induction 1 as [s|s s1 s' Hstep _ IH]; intros id b Hb.
  { exists b. split; [done|apply same_terms_refl]. }
  destruct Hstep as [ctx c Hf H].
  destruct (invoke_terms ctx c s s1 id b Hf H Hb) as (b1 & Hb1 & T1).
  destruct (IH id b1 Hb1) as (b' & Hb' & T'). exists b'. split; [done|].
  by eapply same_terms_trans.
Qed.

(** X18: no sequence of successful calls changes the terms of an asset
    record: its length, asset id, price, royalty, floor, decay start,
    creator and the bytes after it stay as they are, and a waived royalty
    stays waived (the effective royalty stays 0).  So the asset can only
    ever be bought at the price it was minted with, and the last two inner
    transactions of every purchase are the payment of the seller's net
    amount to the address that minted it and the transfer of the asset to
    the buyer. *)
Theorem record_terms_are_final s s' id b :
  reachable_from s s' →
  boxes s !! box_key "NFT" id = Some b →
  ∃ b', boxes s' !! box_key "NFT" id = Some b' ∧
    length b' = length b ∧
    NFT.asset_id b' = NFT.asset_id b ∧ NFT.price b' = NFT.price b ∧
    NFT.royalty_bps b' = NFT.royalty_bps b ∧ NFT.floor_bps b' = NFT.floor_bps b ∧
    NFT.decay_start b' = NFT.decay_start b ∧ NFT.creator b' = NFT.creator b ∧
    drop 64 b' = drop 64 b ∧
    (flag_set (NFT.flags b) ROYALTY_WAIVED →
     flag_set (NFT.flags b') ROYALTY_WAIVED ∧
     ((64 ≤ length b)%nat → ∀ ctx, current_royalty_bps ctx id s' = Ok 0 s')) ∧
    (∀ ctx p s'', buy_nft ctx id p s' = Ok () s'' →
       amount p = NFT.price b ∧
       ∃ rb royalties,
         current_royalty_bps ctx id s' = Ok rb s' ∧
         itxns s'' = itxns s' ++ royalties ++
           [Payment (NFT.creator b)
                    (NFT.price b - NFT.price b * rb / 10000 - NFT.price b * 250 / 10000);
            AssetTransfer id None (sender ctx) 1]).
Proof.
  intros Hreach Hb.
  destruct (reachable_terms s s' Hreach id b Hb) as (b' & Hb' & T).
  destruct (same_terms_fields b b' T) as (Ea & Ep & Er & Ef & Ed & Ec).
  destruct T as (L & _ & D & W).
  exists b'. split_and!; try done.
  - intros Hw. split; [auto|]. intros Hl ctx.
    rewrite (current_royalty_bps_eq ctx id s' b' Hb') by lia.
    rewrite royalty_of_waived by auto. done.
  - intros ctx p s'' Hbuy. apply buy_nft_Ok in Hbuy as (b0 & rb & Hok & ->).
    destruct Hok as (Hb0 & Hl0 & Hg & Hr & _). rewrite Hb' in Hb0. injection Hb0 as <-.
    destruct Hg as (_ & _ & _ & _ & _ & Hamt).
    split; [congruence|]. eexists rb, _. split.
    { rewrite (current_royalty_bps_eq ctx id s' b' Hb') by lia. by rewrite Hr. }
    cbn [itxns buy_post]. unfold sale_txns. rewrite Ec, Ep. reflexivity.
Qed.

Lemma invoke_keeps_registry ctx c id :
  match c with
  | RegisterCoCreators a _ _ _ _ _ _ _ _ _ _ _ _ | AcceptCollaboration a => a ≠ id
  | _ => True
  end →
  keeps (box_key "SPL" id) (invoke ctx c).
Proof.
  destruct c; cbn [invoke]; intros Hne.
  all: unfold create, mint_nft, mint_rwa, validate_physical_asset, redeem_physical_asset,
    register_co_creators, accept_collaboration, buy_nft, buy_out_royalty, start_auction,
    place_bid, settle_auction, get_nft_info, get_current_royalty, get_auction_info,
    get_platform_stats, update_treasury.
  all: keeps.
  all: try apply keeps_current_royalty_bps.
  all: try apply keeps_distribute_royalties.
  all: keeps.
Qed.

Lemma invoke_shares_bounded ctx c s s' :
  abi_typed c → invoke ctx c s = Ok () s' → shares_bounded s → shares_bounded s'.
Proof.
  intros Hty H Hs id spl' Hspl'.
  assert (keeps (box_key "SPL" id) (invoke ctx c) →
          length spl' = 160%nat ∧ sumZ (share_bps_of (Some spl')) ≤ 10000) as Hkeep.
  { intros K. apply (Hs id). by rewrite <-(K _ _ _ H). }
  pose proof (invoke_keeps_registry ctx c id) as K.
  destruct c; cbn [invoke abi_typed] in *; try (by apply Hkeep, K).
  - (* register_co_creators *)
    destruct (decide (asset_id = id)) as [->|Hne]; [|by apply Hkeep, K].
    destruct Hty as ((L1 & L2 & L3 & L4) & (R1 & R2 & R3 & R4)).
    apply register_co_creators_Ok_full in H
      as (nft & spl0 & _ & _ & _ & Hsum & Hl0 & _ & ->).
    pose proof (length_spl_entries addr_1 share_bps_1 addr_2 share_bps_2
                  addr_3 share_bps_3 addr_4 share_bps_4 L1 L2 L3 L4) as Le.
    rewrite patch_whole in Hspl' by lia.
    cbn in Hspl'. rewrite lookup_insert_ne in Hspl' by (by apply box_key_tag_ne).
    rewrite lookup_insert_eq in Hspl'. injection Hspl' as <-.
    split; [done|].
    pose proof (spl_fields addr_1 share_bps_1 addr_2 share_bps_2
                  addr_3 share_bps_3 addr_4 share_bps_4 [] L1 L2 L3 L4) as F.
    cbv zeta in F. rewrite app_nil_r in F. destruct F as (_ & FS & _).
    rewrite !Z.mod_small in FS by lia.
    specialize (Hsum ltac:(lia) ltac:(lia) ltac:(lia) ltac:(lia)).
    cbn [share_bps_of]. rewrite FS. cbn [sumZ foldr]. clear -Hsum. lia.
  - (* accept_collaboration *)
    destruct (decide (asset_id = id)) as [->|Hne]; [|by apply Hkeep, K].
    apply accept_collaboration_Ok in H as (spl & Hspl & _ & _ & ->).
    assert (spl' = accepted_by (sender ctx) spl) as ->
      by (unfold set_boxes in Hspl'; cbn [boxes] in Hspl';
          rewrite lookup_insert_eq in Hspl'; congruence).
    destruct (Hs id spl Hspl) as [Hl Hsum].
    destruct (accepted_by_fields (sender ctx) spl 0) as (L & _ & B0 & _); [lia..|].
    destruct (accepted_by_fields (sender ctx) spl 1) as (_ & _ & B1 & _); [lia..|].
    destruct (accepted_by_fields (sender ctx) spl 2) as (_ & _ & B2 & _); [lia..|].
    destruct (accepted_by_fields (sender ctx) spl 3) as (_ & _ & B3 & _); [lia..|].
    split; [lia|]. cbn [share_bps_of map] in *. by rewrite B0, B1, B2, B3.
Qed.

Lemma reachable_shares_bounded s s' :
  rtc typed_step s s' → shares_bounded s → shares_bounded s'.
Proof.
  induction 1 as [s|s s1 s' [ctx c Hty H] _ IH]; [done|].
  intros Hs. apply IH. by eapply invoke_shares_bounded.
Qed.

(** X19: calls with arguments of their ABI types keep every co-creator
    registry at 160 bytes with shares of at most 10000 basis points in
    total.  So in a state reached by such calls from one without
    registries, every purchase that goes through the royalty distribution
    makes payments that sum to the price paid. *)
Theorem registered_shares_stay_bounded s s' :
  rtc typed_step s s' →
  (∀ id, boxes s !! box_key "SPL" id = None) →
  shares_bounded s' ∧
  ∀ ctx id p s'' rb,
    buy_nft ctx id p s' = Ok () s'' →
    current_royalty_bps ctx id s' = Ok rb s' → rb > 0 →
    ∃ txs, itxns s'' = itxns s' ++ txs ∧ payments_total txs = amount p.
Proof.
  intros Hreach Hnone.
  assert (shares_bounded s') as Hs'.
  { apply (reachable_shares_bounded s s' Hreach). intros id spl Hspl.
    by rewrite Hnone in Hspl. }
  split; [done|].
  intros ctx id p s'' rb Hbuy Hroy Hpos.
  apply buy_nft_Ok in Hbuy as (b & rb' & Hok & ->).
  destruct Hok as (Hb & Hl & Hg & Hr & Hsale & _ & _).
  rewrite (current_royalty_bps_eq ctx id s' b Hb) in Hroy by lia.
  rewrite Hr in Hroy. apply eval_Ok in Hroy as [Hroy _].
  apply Val_inj in Hroy. subst rb'.
  destruct Hg as (Hprice & _ & _ & _ & _ & Hamt).
  assert (sumZ (share_bps_of (boxes s' !! box_key "SPL" id)) ≤ 10000) as Hsum.
  { destruct (boxes s' !! box_key "SPL" id) as [spl|] eqn:Hspl; [|cbn; lia].
    by destruct (Hs' id spl Hspl). }
  destruct (sale_txns_settled ctx s' (buy_post ctx s' id b rb) id (NFT.price b) rb b
              (NFT.creator b) (sender ctx) Hb ltac:(lia) Hpos Hsale Hsum eq_refl)
    as (txs & Htx & _ & _ & _ & _ & _ & _ & _ & Htot).
  exists txs. split; [exact Htx|]. by rewrite Hamt.
Qed.

Lemma dust_bound T a1 a2 a3 a4 :
  0 ≤ T → 0 ≤ a1 → 0 ≤ a2 → 0 ≤ a3 → 0 ≤ a4 →
  a1 + a2 + a3 + a4 = 10000 →
  0 ≤ T - (T * a1 / 10000 + (T * a2 / 10000 + (T * a3 / 10000 + (T * a4 / 10000 + 0)))) ≤ 3.
Proof.
  intros HT H1 H2 H3 H4 Hs.
  pose proof (Z.div_mod (T * a1) 10000 ltac:(lia)) as E1.
  pose proof (Z.div_mod (T * a2) 10000 ltac:(lia)) as E2.
  pose proof (Z.div_mod (T * a3) 10000 ltac:(lia)) as E3.
  pose proof (Z.div_mod (T * a4) 10000 ltac:(lia)) as E4.
  pose proof (Z.mod_pos_bound (T * a1) 10000 ltac:(lia)) as B1.
  pose proof (Z.mod_pos_bound (T * a2) 10000 ltac:(lia)) as B2.
  pose proof (Z.mod_pos_bound (T * a3) 10000 ltac:(lia)) as B3.
  pose proof (Z.mod_pos_bound (T * a4) 10000 ltac:(lia)) as B4.
  assert (T * a1 + T * a2 + T * a3 + T * a4 = T * 10000) as Hsum by nia.
  lia.
Qed.

(** X20: when the four registered shares total 10000 basis points, the
    royalty distribution pays the platform fee, the four shares rounded
    down, and to the creator only what the rounding left over, at most 3
    microAlgos; the royalty counter grows by the whole royalty. *)
Theorem distribute_royalties_dust ctx id price rb s s' spl :
  0 ≤ price → 0 ≤ rb →
  boxes s !! box_key "SPL" id = Some spl →
  sumZ (share_bps_of (Some spl)) = 10000 →
  distribute_royalties ctx id price rb s = Ok () s' →
  ∃ dust nft,
    0 ≤ dust ≤ 3 ∧
    payments_total (split_payments spl (price * rb / 10000)) + dust = price * rb / 10000 ∧
    (dust > 0 → boxes s !! box_key "NFT" id = Some nft) ∧
    itxns s' = itxns s ++
      [Payment (muse_treasury s) (price * 250 / 10000)] ++
      split_payments spl (price * rb / 10000) ++
      (if decide (dust > 0) then [Payment (NFT.creator nft) dust] else []) ∧
    total_royalties_paid s' = total_royalties_paid s + price * rb / 10000.
Proof.
  intros Hp Hr Hspl Hsum H.
  apply distribute_royalties_Ok in H as [Hok ->]; [|done..].
  destruct Hok as (_ & _ & _ & _ & Hrem & _ & _).
  rewrite Hspl in Hrem. cbn [splits_of] in Hrem.
  set (T := price * rb / 10000) in *.
  assert (0 ≤ T) as HT by (apply Z.div_pos; nia).
  assert (0 ≤ T - payments_total (split_payments spl T) ≤ 3) as Hd.
  { unfold split_payments, payments_total. cbn [map foldr paid].
    cbn [share_bps_of map sumZ foldr] in Hsum.
    pose proof (u32_at_range spl (0 * 40 + 32)) as R0.
    pose proof (u32_at_range spl (1 * 40 + 32)) as R1.
    pose proof (u32_at_range spl (2 * 40 + 32)) as R2.
    pose proof (u32_at_range spl (3 * 40 + 32)) as R3.
    unfold SPL.share_bps in *.
    apply dust_bound; lia. }
  exists (T - payments_total (split_payments spl T)),
         (default [] (boxes s !! box_key "NFT" id)).
  split; [done|]. split; [lia|].
  split.
  { intros Hpos. destruct Hrem as (nft & -> & _); [lia|]. done. }
  split; [|done].
  cbn [itxns distribute_post]. unfold distribute_txns, remainder_of.
  rewrite Hspl. cbn [splits_of]. fold T.
  destruct (decide (T > payments_total (split_payments spl T)));
    [rewrite decide_True by lia|rewrite decide_False by lia]; reflexivity.
Qed.

Section SettleRun.
Context (ctx : Ctx) (id : Z) (s : State).

Lemma settle_auction_sold_run auc nft rb :
  boxes s !! box_key "AUC" id = Some auc →
  boxes s !! box_key "NFT" id = Some nft →
  (88 ≤ length auc)%nat → (64 ≤ length nft)%nat →
  AUC.end_round auc ≤ round ctx →
  1 ≤ live_auctions s →
  AUC.highest_bidder auc ≠ zero_address →
  royalty_of ctx nft = Val rb →
  sale_ok ctx s id (AUC.highest_bid auc) rb (AUC.seller auc) (AUC.highest_bidder auc) →
  NFT.transfers nft + 1 ≤ uint64_max →
  total_volume s + AUC.highest_bid auc ≤ uint64_max →
  settle_auction ctx id s = Ok () (settle_sold s id auc nft rb).
Proof.
  intros Hauc Hnft Hla Hl Hend Hlive Hbidder Hroy
    (Hdist & Hpr & Hfee & HT & Hnet & Hacc) Htr Hvol.
  pose proof (royalty_of_nonneg _ _ _ Hroy) as Hrb.
  pose proof (u64_at_range auc 16) as Hbid. fold (AUC.highest_bid auc) in Hbid.
  unfold settle_auction. run. rewrite Hauc, Hnft. run. cbn.
  fold (AUC.end_round auc) (AUC.highest_bid auc) (AUC.highest_bidder auc)
       (AUC.seller auc) (NFT.flags nft) (NFT.transfers nft).
  rewrite bool_decide_eq_true_2 by lia. run.
  rewrite bool_decide_eq_false_2 by done. run.
  rewrite (current_royalty_bps_eq _ _ _ nft) by (done || lia). rewrite Hroy. run.
  unfold sale_txns in Hacc.
  apply Forall_app in Hacc as [_ Hacc].
  apply Forall_cons in Hacc as [Hacc1 Hacc2]. apply Forall_cons in Hacc2 as [Hacc2 _].
  unfold settle_sold, sale_txns.
  destruct (decide (rb > 0)) as [Hpos|Hpos]; cbn.
  - rewrite bool_decide_eq_true_2 by done. run.
    rewrite distribute_royalties_run by (lia || auto). run.
    rewrite (decide_True (P := AUC.highest_bid auc * rb ≤ uint64_max)) by done. cbn.
    rewrite (decide_True (P := _ ≤ AUC.highest_bid auc)) by done. cbn.
    rewrite (decide_True (P := AUC.highest_bid auc * 250 ≤ uint64_max)) by done. cbn.
    rewrite (decide_True (P := AUC.highest_bid auc * 250 / 10000 ≤ _)) by done. cbn.
    run. rewrite Submit_run by done. run. rewrite Submit_run by done. run.
    rewrite (decide_True (P := NFT.transfers nft + 1 ≤ uint64_max)) by done. cbn.
    erewrite BoxReplace_run; [|exact Hnft|rewrite length_itob; lia]. run.
    cbn. rewrite decide_True by done. cbn.
    rewrite set_total_volume_run. cbv beta iota. run.
    erewrite BoxReplace_run;
      [|cbn; apply lookup_insert_eq
       |rewrite length_patch, length_itob; rewrite ?length_itob; lia].
    run. cbn. rewrite decide_True by lia. cbn.
    rewrite set_live_auctions_run.
    unfold distribute_post, set_boxes, add_itxn, without_in_auction. cbn.
    rewrite insert_insert_eq. do 2 f_equal.
    rewrite <-?app_assoc; cbn; rewrite <-?app_assoc; reflexivity.
  - rewrite bool_decide_eq_false_2 by done. run.
    rewrite (decide_True (P := AUC.highest_bid auc * rb ≤ uint64_max)) by done. cbn.
    rewrite (decide_True (P := _ ≤ AUC.highest_bid auc)) by done. cbn.
    rewrite (decide_True (P := AUC.highest_bid auc * 250 ≤ uint64_max)) by done. cbn.
    rewrite (decide_True (P := AUC.highest_bid auc * 250 / 10000 ≤ _)) by done. cbn.
    run. rewrite Submit_run by done. run. rewrite Submit_run by done. run.
    rewrite (decide_True (P := NFT.transfers nft + 1 ≤ uint64_max)) by done. cbn.
    erewrite BoxReplace_run; [|exact Hnft|rewrite length_itob; lia]. run.
    cbn. rewrite decide_True by done. cbn.
    rewrite set_total_volume_run. cbv beta iota. run.
    erewrite BoxReplace_run;
      [|cbn; apply lookup_insert_eq
       |rewrite length_patch, length_itob; rewrite ?length_itob; lia].
    run. cbn. rewrite decide_True by lia. cbn.
    rewrite set_live_auctions_run.
    unfold set_boxes, add_itxn, without_in_auction. cbn.
    rewrite insert_insert_eq. do 2 f_equal; [lia|].
    rewrite <-?app_assoc; cbn; rewrite <-?app_assoc; reflexivity.
Qed.
End SettleRun.

Lemma redeem_physical_asset_Ok_full ctx a info s s' :
  redeem_physical_asset ctx a info s = Ok () s' →
  ∃ rwa nft,
    boxes s !! box_key "RWA" a = Some rwa ∧
    boxes s !! box_key "NFT" a = Some nft ∧
    (64 ≤ length nft)%nat ∧
    RWA.custodian rwa = sender ctx ∧
    s' = set_boxes (insert (box_key "NFT" a) (redeemed_record nft))
           (set_boxes (insert (box_key "RWA" a) (patch rwa 96 (itob (round ctx)))) s).
Proof.
  intros H. unfold redeem_physical_asset in H. inv_ok H.
  has_box Hrun rwa Hrwa. exists rwa.
  destruct (boxes s !! box_key "NFT" a) as [nft|] eqn:Hnft; cycle 1.
  { rewrite value_None, ExtractUint64_oob in Hrun1 by (simpl; lia). done. }
  exists nft. rewrite value_Some in *.
  destruct (decide (64 ≤ length nft)%nat) as [Hl|Hl]; cycle 1.
  { rewrite ExtractUint64_oob in Hrun1 by lia. done. }
  destruct (decide (64 ≤ length rwa)%nat) as [Hlr|Hlr]; cycle 1.
  { rewrite Extract_oob in Hrun0 by lia. done. }
  autorewrite with run in *. cbn in Hrun0, Hrun1, Hrun2, Hrun3, H. vals. subst.
  assert (x6 = rwa) as -> by (cbn in Hbox; congruence).
  match type of Hbox0 with _ = Some ?y => assert (y = nft) as -> end.
  { cbn in Hbox0. rewrite lookup_insert_ne in Hbox0 by (by apply box_key_tag_ne).
    congruence. }
  split_and!; try done.
Qed.

Lemma redeemed_record_fields nft :
  (64 ≤ length nft)%nat →
  same_terms nft (redeemed_record nft) ∧
  redeemed (redeemed_record nft) ∧
  ¬ flag_set (NFT.flags (redeemed_record nft)) IN_AUCTION ∧
  NFT.transfers (redeemed_record nft) = NFT.transfers nft ∧
  (flag_set (NFT.flags (redeemed_record nft)) ROYALTY_WAIVED
   ↔ flag_set (NFT.flags nft) ROYALTY_WAIVED).
Proof.
  intros Hl. unfold redeemed_record.
  pose proof (flags_range nft) as Hf.
  assert (0 ≤ Z.lor (NFT.flags nft) RWA_REDEEMED < 2 ^ 64) as Hr by (by apply lor_range).
  assert (NFT.flags (patch nft 56 (itob (without_in_auction
                                           (Z.lor (NFT.flags nft) RWA_REDEEMED))))
          = without_in_auction (Z.lor (NFT.flags nft) RWA_REDEEMED)) as E
    by (apply flags_written; [done|by apply land_range]).
  split_and!.
  - apply same_terms_flags; [done|by apply land_range|].
    unfold flag_set, ROYALTY_WAIVED. rewrite land_without_in_auction by done.
    apply flag_set_lor.
  - unfold redeemed. rewrite E. unfold flag_set, RWA_REDEEMED.
    rewrite land_without_in_auction by done.
    rewrite Z.land_lor_distr_l. change (Z.land 4 4) with 4.
    intros [_ ?]%Z.lor_eq_0_iff. done.
  - rewrite E. apply without_in_auction_clear.
  - apply u64_at_patch_ne; rewrite length_itob; lia.
  - rewrite E. unfold flag_set, ROYALTY_WAIVED, RWA_REDEEMED.
    rewrite land_without_in_auction by done. by rewrite land_lor_other.
Qed.

Lemma royalty_of_same_terms ctx b b' :
  same_terms b b' →
  (flag_set (NFT.flags b') ROYALTY_WAIVED ↔ flag_set (NFT.flags b) ROYALTY_WAIVED) →
  royalty_of ctx b' = royalty_of ctx b.
Proof.
  intros T W. destruct (same_terms_fields b b' T) as (_ & _ & Er & Ef & Ed & _).
  unfold royalty_of. rewrite Er, Ef, Ed.
  destruct (decide (flag_set (NFT.flags b) ROYALTY_WAIVED)) as [Hw|Hw].
  - rewrite decide_True by (by apply W). done.
  - rewrite decide_False by (by rewrite W). done.
Qed.

Section Redeemed.
Context (a : Z) (s : State) (rwa' nft : bytes).
Hypothesis Hnft : boxes s !! box_key "NFT" a = Some nft.
Hypothesis Hl : (64 ≤ length nft)%nat.

Let s1 : State :=
  set_boxes (insert (box_key "NFT" a) (redeemed_record nft))
    (set_boxes (insert (box_key "RWA" a) rwa') s).

Lemma redeemed_lookup_nft : boxes s1 !! box_key "NFT" a = Some (redeemed_record nft).
Proof using Type. unfold s1. cbn. apply lookup_insert_eq. Qed.

Lemma redeemed_lookup_other tag :
  tag ≠ "NFT" → tag ≠ "RWA" → boxes s1 !! box_key tag a = boxes s !! box_key tag a.
Proof using Type.
  intros H1 H2. unfold s1. cbn.
  rewrite !lookup_insert_ne by (apply box_key_tag_ne; congruence). done.
Qed.

Lemma redeemed_distribute_txns price rb :
  distribute_txns s1 a price rb = distribute_txns s a price rb.
Proof using Hnft Hl.
  destruct (redeemed_record_fields nft Hl) as (T & _).
  destruct (same_terms_fields _ _ T) as (_ & _ & _ & _ & _ & Ec).
  unfold distribute_txns. rewrite redeemed_lookup_nft, Hnft.
  rewrite (redeemed_lookup_other "SPL") by done.
  unfold remainder_of. cbn [from_option id]. rewrite Ec. reflexivity.
Qed.

Lemma redeemed_sale_ok ctx price rb seller buyer :
  sale_ok ctx s a price rb seller buyer → sale_ok ctx s1 a price rb seller buyer.
Proof using Hnft Hl.
  intros (Hd & Hpr & Hfee & HT & Hnet & Hacc).
  unfold sale_ok, sale_txns in *. rewrite redeemed_distribute_txns.
  split_and!; try done.
  intros Hpos. destruct (Hd Hpos) as (H1 & H2 & H3 & H4 & H5 & H6 & H7).
  unfold distribute_ok. rewrite redeemed_distribute_txns, redeemed_lookup_nft.
  rewrite (redeemed_lookup_other "SPL") by done.
  split_and!; try done.
  intros Hgt. destruct (H5 Hgt) as (nft0 & Hnft0 & Hl0).
  rewrite Hnft in Hnft0. injection Hnft0 as <-.
  destruct (redeemed_record_fields nft Hl) as ((L & _) & _).
  eexists. split; [reflexivity|]. lia.
Qed.
End Redeemed.

Lemma start_auction_redeemed ctx a d r s nft :
  boxes s !! box_key "NFT" a = Some nft → (64 ≤ length nft)%nat →
  ¬ flag_set (NFT.flags nft) IN_AUCTION → redeemed nft →
  start_auction ctx a d r s
  = Fail (assert_failed "Redeemed RWA cannot be auctioned") s.
Proof.
  intros Hnft Hl Ha Hr. unfold redeemed, flag_set, IN_AUCTION, RWA_REDEEMED in *.
  unfold start_auction. run. rewrite Hnft. run. cbn. fold (NFT.flags nft).
  rewrite (bool_decide_eq_true_2 (Z.land _ 16 = 0)) by (by apply dec_stable). run.
  rewrite (bool_decide_eq_false_2 (Z.land _ 4 = 0)) by done. by run.
Qed.

(** X21: a successful redeem_physical_asset sets RWA_REDEEMED and clears
    IN_AUCTION in the asset record, but leaves an auction record of the
    asset and the counter of live auctions as they are.  After it the asset
    can no longer be bought at its price nor put up for auction; an auction
    that was open goes on all the same: a bid that would have been accepted
    is accepted, and a settlement that would have sold the asset to the
    highest bidder still does, with the same inner transactions. *)
Theorem redeem_leaves_auction_open ctx a info s s' :
  redeem_physical_asset ctx a info s = Ok () s' →
  ∃ nft nft',
    boxes s !! box_key "NFT" a = Some nft ∧
    boxes s' !! box_key "NFT" a = Some nft' ∧
    redeemed nft' ∧ ¬ flag_set (NFT.flags nft') IN_AUCTION ∧
    boxes s' !! box_key "AUC" a = boxes s !! box_key "AUC" a ∧
    live_auctions s' = live_auctions s ∧ itxns s' = itxns s ∧
    (∀ ctx' p, NFT.price nft ≠ 0 →
       buy_nft ctx' a p s'
       = Fail (assert_failed "RWA has been physically redeemed") s') ∧
    (∀ ctx' d r,
       start_auction ctx' a d r s'
       = Fail (assert_failed "Redeemed RWA cannot be auctioned") s') ∧
    (∀ ctx' p t, length (sender ctx') = 32%nat →
       place_bid ctx' a p s = Ok () t →
       ∃ t', place_bid ctx' a p s' = Ok () t' ∧
             boxes t' !! box_key "AUC" a = boxes t !! box_key "AUC" a) ∧
    (∀ ctx' t auc,
       boxes s !! box_key "AUC" a = Some auc →
       AUC.highest_bidder auc ≠ zero_address →
       settle_auction ctx' a s = Ok () t →
       ∃ t', settle_auction ctx' a s' = Ok () t' ∧
             itxns t' = itxns t ∧
             AssetTransfer a None (AUC.highest_bidder auc) 1 ∈ itxns t').
Proof.
  intros H.
  apply redeem_physical_asset_Ok_full in H as (rwa & nft & Hrwa & Hnft & Hl & _ & ->).
  set (rwa' := patch rwa 96 (itob (round ctx))).
  destruct (redeemed_record_fields nft Hl) as (T & Hred & Hna & Etr & Hw).
  destruct (same_terms_fields _ _ T) as (_ & Ep & _).
  pose proof T as (L & _).
  pose proof (redeemed_lookup_nft a s rwa' nft) as Hnft'.
  pose proof (redeemed_lookup_other a s rwa' nft "AUC" ltac:(done) ltac:(done)) as Hauc'.
  exists nft, (redeemed_record nft).
  split; [done|]. split; [done|]. split; [done|]. split; [done|].
  split; [done|]. split; [done|]. split; [done|].
  split_and!.
  - intros ctx' p Hp.
    apply (buy_nft_redeemed ctx' a p _ _ Hnft'); [lia|congruence|done|done].
  - intros ctx' d r. apply (start_auction_redeemed ctx' a d r _ _ Hnft'); (done || lia).
  - intros ctx' p t Hs Hbid.
    apply place_bid_Ok in Hbid as (b & Hb & Hlb & Hround & Hamt & Hrcv & Hacc & Hext & ->);
      [|done].
    eexists. split.
    + apply (place_bid_run ctx' a p _ b); try done. by rewrite Hauc'.
    + cbn. by rewrite !lookup_insert_eq.
  - intros ctx' t auc Hauc Hbidder Hsettle.
    apply settle_auction_Ok in Hsettle
      as (auc0 & nft0 & Hauc0 & Hnft0 & _ & _ & Hend & Hlive & Hsold).
    rewrite Hauc in Hauc0. injection Hauc0 as <-.
    rewrite Hnft in Hnft0. injection Hnft0 as <-.
    rewrite decide_False in Hsold by done.
    destruct Hsold as (rb & Hla & Hroy & Hsale & Htr & Hvol & ->).
    eexists. split.
    + apply (settle_auction_sold_run ctx' a _ auc (redeemed_record nft) rb);
        try (done || lia).
      * by rewrite Hauc'.
      * by rewrite (royalty_of_same_terms ctx' nft).
      * by apply redeemed_sale_ok.
    + split.
      * cbn [itxns settle_sold set_boxes]. unfold sale_txns.
        by rewrite (redeemed_distribute_txns a s rwa' nft Hnft Hl).
      * cbn [itxns settle_sold]. unfold sale_txns.
        apply elem_of_app. right. apply elem_of_app. right.
        apply list_elem_of_further, list_elem_of_here.
Qed.

(** ** Worked cases

    Each theorem above that has hypotheses, applied in the sample world. *)

Lemma place_bid_refunds_previous_bidder_witness :
  itxns Cases.bid_200 = itxns Example.bid_150 ++ [Payment Example.bob 150].
Proof.
  assert (boxes Example.bid_150 !! box_key "AUC" 7
          = Some (Cases.record Example.bid_150 "AUC" 7)) as Hauc
    by (vm_compute; reflexivity).
  assert (AUC.highest_bidder (Cases.record Example.bid_150 "AUC" 7) ≠ zero_address)
    as Hprev by (by vm_compute).
  assert (length (sender Cases.carol_bids) = 32%nat) as Hs by reflexivity.
  assert (0 ≤ amount (mkPay Example.app 200) < 2 ^ 64) as Ha by (cbn [amount]; lia).
  assert (place_bid Cases.carol_bids 7 (mkPay Example.app 200) Example.bid_150
          = Ok () Cases.bid_200) as Hbid by (vm_compute; reflexivity).
  exact (proj1 (proj1 (place_bid_refunds_previous_bidder Cases.carol_bids 7
                         (mkPay Example.app 200) Example.bid_150 _ Hauc Hprev Hs Ha)
                      Cases.bid_200 Hbid)).
Defined.

Lemma place_bid_anti_snipe_witness :
  ∃ auc', boxes Cases.bid_200 !! box_key "AUC" 7 = Some auc' ∧
          AUC.end_round auc' = 195.
Proof.
  assert (boxes Example.bid_150 !! box_key "AUC" 7
          = Some (Cases.record Example.bid_150 "AUC" 7)) as Hauc
    by (vm_compute; reflexivity).
  assert (length (sender Cases.carol_bids) = 32%nat) as Hs by reflexivity.
  assert (0 ≤ amount (mkPay Example.app 200) < 2 ^ 64) as Ha by (cbn [amount]; lia).
  assert (place_bid Cases.carol_bids 7 (mkPay Example.app 200) Example.bid_150
          = Ok () Cases.bid_200) as Hbid by (vm_compute; reflexivity).
  exact (proj1 place_bid_anti_snipe Cases.carol_bids 7 (mkPay Example.app 200)
           Example.bid_150 Cases.bid_200 _ Hauc Hs Ha Hbid).
Defined.

Lemma buy_nft_guards_fail_witness :
  buy_nft (Example.call Example.bob 14 0) 8 Cases.full_price Example.rwa_minted
  = Fail (assert_failed "RWA not yet authenticated") Example.rwa_minted.
Proof.
  assert (boxes Example.rwa_minted !! box_key "NFT" 8
          = Some (Cases.record Example.rwa_minted "NFT" 8)) as Hb
    by (vm_compute; reflexivity).
  assert (64 ≤ length (Cases.record Example.rwa_minted "NFT" 8))%nat as Hl
    by (vm_compute; lia).
  pose proof (proj2 (proj2 (buy_nft_guards_fail (Example.call Example.bob 14 0) 8
                              Cases.full_price Example.rwa_minted)) _ Hb Hl)
    as (_ & _ & _ & H & _).
  apply H.
  - vm_compute. discriminate.
  - vm_compute. intros Hn; apply Hn; reflexivity.
  - vm_compute. intros Hn; apply Hn; reflexivity.
  - vm_compute. discriminate.
  - vm_compute. intros Hn; apply Hn; reflexivity.
Defined.

Lemma rwa_lifecycle_witness :
  fails (validate_physical_asset (Example.call Example.dave 14 0) 8 Example.rwa_validated).
Proof.
  assert (boxes Example.rwa_validated !! box_key "NFT" 8
          = Some (Cases.record Example.rwa_validated "NFT" 8)) as Hb
    by (vm_compute; reflexivity).
  assert (authenticated (Cases.record Example.rwa_validated "NFT" 8)) as Ha
    by (by vm_compute).
  exact (proj1 (rwa_lifecycle Example.rwa_validated 8 _ Hb) Ha
           (Example.call Example.dave 14 0)).
Defined.

Lemma settle_auction_without_bidder_witness :
  itxns Cases.returned
  = itxns Example.auctioning ++ [AssetTransfer 7 None Example.alice 1] ∧
  boxes Cases.returned !! box_key "AUC" 7 = None ∧
  live_auctions Cases.returned = live_auctions Example.auctioning - 1.
Proof.
  assert (settle_auction Cases.bob_settles 7 Example.auctioning = Ok () Cases.returned)
    as Hsettle by (vm_compute; reflexivity).
  assert (boxes Example.auctioning !! box_key "AUC" 7
          = Some (Cases.record Example.auctioning "AUC" 7)) as Hauc
    by (vm_compute; reflexivity).
  assert (AUC.highest_bidder (Cases.record Example.auctioning "AUC" 7) = zero_address)
    as Hnone by (vm_compute; reflexivity).
  destruct (settle_auction_without_bidder Cases.bob_settles 7 Example.auctioning
              Cases.returned _ Hsettle Hauc Hnone)
    as (nft & nft' & _ & _ & Htx & Hdel & _ & _ & _ & _ & _ & _ & _ & Hlive & _).
  split; [exact Htx|]. split; [exact Hdel|exact Hlive].
Defined.


Lemma current_royalty_bps_within_decay_range_witness :
  current_royalty_bps (Example.call Example.bob Example.round_50 0) 7 Example.minted
  = Ok 750 Example.minted.
Proof.
  assert (boxes Example.minted !! box_key "NFT" 7
          = Some (Cases.record Example.minted "NFT" 7)) as Hb
    by (vm_compute; reflexivity).
  assert (64 ≤ length (Cases.record Example.minted "NFT" 7))%nat as Hl
    by (vm_compute; lia).
  assert (¬ flag_set (NFT.flags (Cases.record Example.minted "NFT" 7)) ROYALTY_WAIVED)
    as Hw by (vm_compute; intros Hn; apply Hn; reflexivity).
  assert (NFT.floor_bps (Cases.record Example.minted "NFT" 7)
          ≤ NFT.royalty_bps (Cases.record Example.minted "NFT" 7) ≤ 2000) as Hfr
    by (vm_compute; split; discriminate).
  assert (0 < NFT.decay_start (Cases.record Example.minted "NFT" 7)
          ≤ round (Example.call Example.bob Example.round_50 0)) as Hd
    by (vm_compute; split; [reflexivity|discriminate]).
  assert (round (Example.call Example.bob Example.round_50 0) ≤ uint64_max) as Hr
    by (vm_compute; discriminate).
  exact (current_royalty_bps_within_decay_range
           (Example.call Example.bob Example.round_50 0) 7 Example.minted _
           Hb Hl Hw Hfr Hd Hr ltac:(vm_compute; discriminate)).
Defined.

Lemma current_royalty_bps_non_increasing_witness :
  500 ≤ 750 ∧ 500 ≤ 500 ∧ 500 ≤ 750.
Proof.
  assert (boxes Example.minted !! box_key "NFT" 7
          = Some (Cases.record Example.minted "NFT" 7)) as Hb
    by (vm_compute; reflexivity).
  assert (64 ≤ length (Cases.record Example.minted "NFT" 7))%nat as Hl
    by (vm_compute; lia).
  assert (¬ flag_set (NFT.flags (Cases.record Example.minted "NFT" 7)) ROYALTY_WAIVED)
    as Hw by (vm_compute; intros Hn; apply Hn; reflexivity).
  assert (NFT.floor_bps (Cases.record Example.minted "NFT" 7)
          ≤ NFT.royalty_bps (Cases.record Example.minted "NFT" 7)) as Hfr
    by (vm_compute; discriminate).
  assert (round (Example.call Example.bob Example.round_50 0)
          ≤ round (Example.call Example.bob (1010 + 777600 * 100) 0)) as Hle
    by (vm_compute; discriminate).
  assert (current_royalty_bps (Example.call Example.bob Example.round_50 0) 7
            Example.minted = Ok 750 Example.minted) as H1 by (vm_compute; reflexivity).
  assert (current_royalty_bps (Example.call Example.bob (1010 + 777600 * 100) 0) 7
            Example.minted = Ok 500 Example.minted) as H2 by (vm_compute; reflexivity).
  exact (current_royalty_bps_non_increasing _ _ 7 Example.minted _ 750 500
           Hb Hl Hw Hfr Hle H1 H2).
Defined.

Lemma place_bid_accepts_above_highest_witness :
  ∃ s', place_bid (Example.call Example.bob 30 0) 7 (mkPay Example.app 50)
          Example.auctioning = Ok () s'.
Proof.
  assert (boxes Example.auctioning !! box_key "AUC" 7
          = Some (Cases.record Example.auctioning "AUC" 7)) as Hb
    by (vm_compute; reflexivity).
  assert (56 ≤ length (Cases.record Example.auctioning "AUC" 7))%nat as Hl
    by (vm_compute; lia).
  assert (Forall (λ t, accepts (Example.call Example.bob 30 0) t = true)
            (refund_of (Cases.record Example.auctioning "AUC" 7))) as Hacc
    by (vm_compute; constructor).
  refine (place_bid_accepts_above_highest (Example.call Example.bob 30 0) 7
            (mkPay Example.app 50) Example.auctioning _ Hb Hl eq_refl _ _ eq_refl Hacc _).
  - vm_compute. reflexivity.
  - vm_compute. reflexivity.
  - intros _. vm_compute. discriminate.
Defined.

Lemma register_co_creators_registry_witness :
  ∃ spl, boxes Example.with_splits !! box_key "SPL" 7 = Some spl ∧
         map (SPL.share_bps spl) [0; 1; 2; 3]%nat = [5000; 2500; 1500; 1000].
Proof.
  assert (register_co_creators (Example.call Example.alice 11 0) 7
            Example.bob 5000 [] Example.carol 2500 [] Example.dave 1500 []
            Example.erin 1000 [] Example.minted = Ok () Example.with_splits) as H
    by (vm_compute; reflexivity).
  destruct (register_co_creators_registry _ _ _ _ _ _ _ _ _ _ _ _ _ _ _ _ H
              eq_refl eq_refl eq_refl eq_refl
              ltac:(lia) ltac:(lia) ltac:(lia) ltac:(lia))
    as (nft & spl & _ & _ & _ & Hs & _ & _ & Hsh & _).
  exists spl. split; [exact Hs|exact Hsh].
Defined.

Lemma mint_nft_then_get_nft_info_witness :
  get_nft_info 7 Example.minted
  = Ok (1000000, 1000, 500, 1010, 0, 0, 0, Example.alice) Example.minted.
Proof.
  assert (mint_nft (Example.call Example.alice 10 7) [] [] [] Example.hash32
            1000000 1000 500 1000 0 Example.genesis = Ok 7 Example.minted) as H
    by (vm_compute; reflexivity).
  destruct (mint_nft_then_get_nft_info _ _ _ _ _ _ _ _ _ _ _ _ _ H eq_refl eq_refl
              ltac:(lia) ltac:(lia) ltac:(lia) ltac:(lia) ltac:(cbn; lia))
    as (_ & _ & Hget & _).
  exact Hget.
Defined.

Lemma mint_rwa_pending_authentication_witness :
  ∃ rwa, boxes Example.rwa_minted !! box_key "RWA" 8 = Some rwa ∧
         RWA.custodian rwa = Example.carol ∧ RWA.authenticator rwa = Example.dave.
Proof.
  assert (mint_rwa (Example.call Example.alice 12 8) [] [] [] Example.hash32
            Example.hash32 Example.carol Example.dave 1000000 1000 500 0 0
            Example.minted = Ok 8 Example.rwa_minted) as H
    by (vm_compute; reflexivity).
  destruct (mint_rwa_pending_authentication _ _ _ _ _ _ _ _ _ _ _ _ _ _ _ _ H
              eq_refl eq_refl eq_refl eq_refl eq_refl
              ltac:(lia) ltac:(lia) ltac:(lia) ltac:(lia) ltac:(lia) ltac:(cbn; lia))
    as (_ & _ & (rwa & Hrwa & _ & Hc & Ha & _) & _).
  exists rwa. split; [exact Hrwa|]. split; [exact Hc|exact Ha].
Defined.

Lemma sale_ignores_acceptance_witness :
  ∃ s1', buy_nft Cases.erin_buys 7 Cases.full_price Sample.accepted = Ok () s1' ∧
         itxns s1' = itxns Cases.sold.
Proof.
  assert (boxes Example.with_splits !! box_key "SPL" 7
          = Some (Cases.record Example.with_splits "SPL" 7)) as Hspl
    by (vm_compute; reflexivity).
  assert (accept_collaboration Sample.bob_accepts 7 Example.with_splits
          = Ok () Sample.accepted) as Hacc by (vm_compute; reflexivity).
  assert (buy_nft Cases.erin_buys 7 Cases.full_price Example.with_splits
          = Ok () Cases.sold) as Hbuy by (vm_compute; reflexivity).
  destruct (sale_ignores_acceptance Sample.bob_accepts Cases.erin_buys 7 Cases.full_price
              Example.with_splits Sample.accepted Cases.sold _ Hspl eq_refl Hacc Hbuy)
    as (s1' & b & rb & H1 & H2 & _).
  exists s1'. split; [exact H1|exact H2].
Defined.

Lemma buy_out_royalty_waives_witness :
  ∃ nft', boxes Sample.waived !! box_key "NFT" 7 = Some nft' ∧
          NFT.buyout_price nft' = 0 ∧ flag_set (NFT.flags nft') ROYALTY_WAIVED.
Proof.
  assert (buy_out_royalty Sample.bob_buys_out 7 (mkPay Example.app 400000)
            Sample.with_buyout = Ok () Sample.waived) as H
    by (vm_compute; reflexivity).
  destruct (buy_out_royalty_waives _ _ _ _ _ H)
    as (nft & nft' & _ & Hb' & _ & _ & _ & _ & _ & Hw & Hbo & _).
  exists nft'. split; [exact Hb'|]. split; [exact Hbo|exact Hw].
Defined.

Lemma buy_nft_waived_withholds_fee_witness :
  total_royalties_paid Sample.sold_waived = total_royalties_paid Sample.waived ∧
  total_volume Sample.sold_waived = total_volume Sample.waived + 1000000.
Proof.
  assert (boxes Sample.waived !! box_key "NFT" 7
          = Some (Cases.record Sample.waived "NFT" 7)) as Hb
    by (vm_compute; reflexivity).
  assert (flag_set (NFT.flags (Cases.record Sample.waived "NFT" 7)) ROYALTY_WAIVED) as Hw
    by (vm_compute; discriminate).
  assert (buy_nft Cases.erin_buys 7 Cases.full_price Sample.waived
          = Ok () Sample.sold_waived) as H by (vm_compute; reflexivity).
  destruct (buy_nft_waived_withholds_fee _ _ _ _ _ _ Hb Hw H) as (_ & _ & Hr & Hv).
  split; [exact Hr|exact Hv].
Defined.

Lemma start_auction_opens_witness :
  get_auction_info 7 Example.auctioning
  = Ok (120, 0, zero_address, Example.alice) Example.auctioning.
Proof.
  assert (start_auction (Example.call Example.alice 20 0) 7 100 100 Example.minted
          = Ok () Example.auctioning) as H by (vm_compute; reflexivity).
  destruct (start_auction_opens (Example.call Example.alice 20 0) 7 100 100
              Example.minted Example.auctioning eq_refl ltac:(lia) ltac:(cbn; lia))
    as (_ & Hopen).
  destruct (Hopen H) as (Hget & _). exact Hget.
Defined.

Lemma start_then_settle_restores_witness :
  boxes Cases.returned !! box_key "NFT" 7 = boxes Example.minted !! box_key "NFT" 7 ∧
  live_auctions Cases.returned = live_auctions Example.minted.
Proof.
  assert (start_auction (Example.call Example.alice 20 0) 7 100 100 Example.minted
          = Ok () Example.auctioning) as H1 by (vm_compute; reflexivity).
  assert (settle_auction Cases.bob_settles 7 Example.auctioning = Ok () Cases.returned)
    as H2 by (vm_compute; reflexivity).
  destruct (start_then_settle_restores (Example.call Example.alice 20 0)
              Cases.bob_settles 7 100 100 Example.minted Example.auctioning
              Cases.returned eq_refl ltac:(lia) ltac:(cbn; lia) H1 H2)
    as (_ & Hb & Hl & _).
  split; [exact Hb|exact Hl].
Defined.

Lemma record_terms_are_final_witness :
  ∃ b', boxes Cases.sold !! box_key "NFT" 7 = Some b' ∧
        NFT.price b' = NFT.price (Cases.record Example.with_splits "NFT" 7) ∧
        NFT.creator b' = NFT.creator (Cases.record Example.with_splits "NFT" 7).
Proof.
  assert (boxes Example.with_splits !! box_key "NFT" 7
          = Some (Cases.record Example.with_splits "NFT" 7)) as Hb
    by (vm_compute; reflexivity).
  assert (invoke Cases.erin_buys (BuyNft 7 Cases.full_price) Example.with_splits
          = Ok () Cases.sold) as Hbuy by (vm_compute; reflexivity).
  assert (reachable_from Example.with_splits Cases.sold) as Hreach
    by (apply rtc_once; exact (step_call _ _ Cases.erin_buys (BuyNft 7 Cases.full_price)
                                 I Hbuy)).
  destruct (record_terms_are_final _ _ 7 _ Hreach Hb)
    as (b' & Hb' & _ & _ & Hp & _ & _ & _ & Hc & _).
  exists b'. split; [exact Hb'|]. split; [exact Hp|exact Hc].
Defined.

Lemma registered_shares_stay_bounded_witness : shares_bounded Example.with_splits.
Proof.
  assert (invoke (Example.call Example.alice 10 7)
            (MintNft [] [] [] Example.hash32 1000000 1000 500 1000 0) Example.genesis
          = Ok () Example.minted) as H1 by (vm_compute; reflexivity).
  assert (invoke (Example.call Example.alice 11 0)
            (RegisterCoCreators 7 Example.bob 5000 [] Example.carol 2500 []
               Example.dave 1500 [] Example.erin 1000 []) Example.minted
          = Ok () Example.with_splits) as H2 by (vm_compute; reflexivity).
  assert (abi_typed (RegisterCoCreators 7 Example.bob 5000 [] Example.carol 2500 []
                       Example.dave 1500 [] Example.erin 1000 [])) as Hty
    by (cbn; repeat split; lia).
  assert (rtc typed_step Example.genesis Example.with_splits) as Hreach.
  { eapply rtc_l.
    - exact (typed_step_call _ _ (Example.call Example.alice 10 7)
               (MintNft [] [] [] Example.hash32 1000000 1000 500 1000 0) I H1).
    - apply rtc_once. exact (typed_step_call _ _ _ _ Hty H2). }
  destruct (registered_shares_stay_bounded _ _ Hreach (λ id, eq_refl)) as (Hs & _).
  exact Hs.
Defined.

Lemma distribute_royalties_dust_witness :
  total_royalties_paid Sample.distributed
  = total_royalties_paid Example.with_splits + 100000.
Proof.
  assert (boxes Example.with_splits !! box_key "SPL" 7
          = Some (Cases.record Example.with_splits "SPL" 7)) as Hspl
    by (vm_compute; reflexivity).
  assert (distribute_royalties Cases.erin_buys 7 1000000 1000 Example.with_splits
          = Ok () Sample.distributed) as H by (vm_compute; reflexivity).
  destruct (distribute_royalties_dust Cases.erin_buys 7 1000000 1000 Example.with_splits
              Sample.distributed _ ltac:(lia) ltac:(lia) Hspl eq_refl H)
    as (dust & nft & _ & _ & _ & _ & Ht).
  exact Ht.
Defined.

Lemma redeem_leaves_auction_open_witness :
  ∃ nft', boxes Sample.rwa_redeemed !! box_key "NFT" 8 = Some nft' ∧ redeemed nft' ∧
          live_auctions Sample.rwa_redeemed = live_auctions Example.rwa_validated.
Proof.
  assert (redeem_physical_asset Sample.carol_redeems 8 [] Example.rwa_validated
          = Ok () Sample.rwa_redeemed) as H by (vm_compute; reflexivity).
  destruct (redeem_leaves_auction_open _ _ _ _ _ H)
    as (nft & nft' & _ & Hb' & Hr & _ & _ & Hl & _).
  exists nft'. split; [exact Hb'|]. split; [exact Hr|exact Hl].
Defined.
